(** * Agiloft REST client: session and token lifecycle

    A shallow embedding of [agiloft/client.py] (class [AgiloftClient]):
    token acquisition, proactive and reactive refresh, the 401 retry of
    [_make_request], the browser based authorization-code flow and
    [logout], together with the properties stated about them.

    Conventions of the embedding.
    - Attributes of [self] that the constructor reads from the
      configuration and never writes again are gathered in [Settings];
      the attributes written later ([access_token], [refresh_token],
      [token_expires_at], [api_access_point], [session]) are fields of
      [Client].  Tokens have the declared type [Optional[str]].
    - A coroutine is a function in a state-and-exception monad [M] over
      the client object and the outside world (clock, transport, log of
      the calls made).  What the outside world answers is read from an
      [Oracle]; every theorem holds for all oracles.
    - [datetime] and [time.time()] values are integers counting
      microseconds from 1970-01-01 00:00:00.  An expiry is computed
      within the ranges of [timedelta] and [datetime]; fractional
      [expires_in] values, and a stored expiry so early that line 85
      cannot take a minute from it, are outside the model.
    - The text of exceptions raised by libraries is represented by the
      name of the exception class.
    - One coroutine runs in the foreground, so [_auth_lock] is never
      contended and is not a component of the state.  Other coroutines
      that share the client run while the foreground one is suspended
      on the transport; what they stored in the token attributes by the
      time it resumes is part of the exchange ([meanwhile]).
    - The callback server handles requests while the wait loop of
      [authenticate_with_browser] sleeps; failures to bind the port or
      to open the browser are outside the model. *)

From Stdlib Require Import ZArith List String Ascii Bool Lia DecimalString.
From Stdlib Require SpecFloat.
Import ListNotations.
Local Open Scope string_scope.
Local Open Scope Z_scope.

(** ** Python values used by the client *)

Module Py.

(** [bool(v)] for a value of type [Optional[str]]. *)
Definition truthy (v : option string) : bool :=
  match v with
  | Some s => negb (s =? "")%string
  | None => false
  end.

(** [str(v)] inside an f-string, for an [Optional[str]]. *)
Definition str_opt (v : option string) : string :=
  match v with
  | Some s => s
  | None => "None"
  end.

(** [str(n)] for an integer. *)
Definition str_int (n : Z) : string := NilZero.string_of_int (Z.to_int n).

(** [needle in hay]. *)
Fixpoint contains (needle hay : string) : bool :=
  String.prefix needle hay ||
  match hay with
  | EmptyString => false
  | String _ rest => contains needle rest
  end.

(** [s.split(sep)[0]]: the part of [s] before the first occurrence of
    [sep], or all of [s] when [sep] does not occur. *)
Fixpoint split_head (sep s : string) : string :=
  if String.prefix sep s then ""
  else match s with
       | EmptyString => ""
       | String c rest => String c (split_head sep rest)
       end.

(** [s.lstrip('/')]. *)
Fixpoint lstrip_slash (s : string) : string :=
  match s with
  | String "/"%char rest => lstrip_slash rest
  | _ => s
  end.

(** [s[:n]]. *)
Definition take (n : nat) (s : string) : string := String.substring 0 n s.

(** Dictionaries keep insertion order; keys are strings. *)
Definition dict (V : Type) := list (string * V).

Fixpoint dict_get {V} (k : string) (d : dict V) : option V :=
  match d with
  | [] => None
  | (k', v) :: rest => if (k =? k')%string then Some v else dict_get k rest
  end.

Definition dict_mem {V} (k : string) (d : dict V) : bool :=
  match dict_get k d with Some _ => true | None => false end.

(** [d[k] = v]. *)
Fixpoint dict_set {V} (k : string) (v : V) (d : dict V) : dict V :=
  match d with
  | [] => [(k, v)]
  | (k', v') :: rest =>
      if (k =? k')%string then (k, v) :: rest else (k', v') :: dict_set k v rest
  end.

(** [d.update(other)]. *)
Definition dict_update {V} (d other : dict V) : dict V :=
  fold_left (fun acc kv => dict_set (fst kv) (snd kv) acc) other d.

End Py.

(** [timedelta(seconds=n)] and [timedelta(minutes=n)], in microseconds. *)
Definition timedelta_seconds (n : Z) : Z := n * 1000000.
Definition timedelta_minutes (n : Z) : Z := n * 60 * 1000000.

(** The range of [datetime], the years 1 to 9999, in microseconds from
    the origin of the clock, which is put at 1970-01-01 00:00:00; and
    the number of days a [timedelta] holds at most, either way. *)
Definition datetime_min : Z := -62135596800000000.
Definition datetime_max : Z := 253402300799999999.
Definition timedelta_max_days : Z := 999999999.

(** [timedelta(seconds=n)] exists; [t] is a [datetime]. *)
Definition timedelta_fits (n : Z) : bool := Z.abs (n / 86400) <=? timedelta_max_days.
Definition datetime_fits (t : Z) : bool := (datetime_min <=? t) && (t <=? datetime_max).

(** ** Exceptions *)

(** Modelled from the spec: [agiloft/exceptions.py] is not part of the
    sources at hand.  [AgiloftAuthError] carries a message;
    [AgiloftAPIError] carries a message and, as keyword arguments that
    default to [None], the status code and the raw response body (the
    spec's [ApiError] "carrying the status code and raw response body").
    The two classes are unrelated to each other and to the exceptions of
    [aiohttp].  [ClientError] stands for [aiohttp.ClientError] and its
    subclasses, [PyError] for every other [Exception]. *)
Inductive exn : Type :=
| AgiloftAuthError (msg : string)
| AgiloftAPIError (msg : string) (status_code : option Z) (response_text : option string)
| ClientError (msg : string)
| PyError (msg : string).

(** [str(e)]. *)
Definition str_exn (e : exn) : string :=
  match e with
  | AgiloftAuthError m | AgiloftAPIError m _ _ | ClientError m | PyError m => m
  end.

Definition is_auth_error (e : exn) : bool :=
  match e with AgiloftAuthError _ => true | _ => false end.

(** ** Decoded response bodies

    The view of a decoded JSON document that the client takes: the keys
    it reads, at the types it expects. *)

(** The value under ["expires_in"]. *)
Inductive ExpiresIn : Type :=
| ExpAbsent                 (* no such key: the default 900 applies *)
| ExpSeconds (n : Z)        (* a number of seconds *)
| ExpUnusable.              (* null, a string, ...: [timedelta] raises TypeError *)

(** The keys ["access_token"], ["refresh_token"] and ["expires_in"] of an
    object; [None] for a key that is absent or null. *)
Record TokenGrant : Type := {
  g_access_token : option string;
  g_refresh_token : option string;
  g_expires_in : ExpiresIn
}.

Definition empty_grant : TokenGrant :=
  {| g_access_token := None; g_refresh_token := None; g_expires_in := ExpAbsent |}.

(** The value under ["result"] in the envelope of the login endpoint. *)
Inductive ResultField : Type :=
| ResultAbsent
| ResultObject (g : TokenGrant)
| ResultOther.              (* not an object: [.get] raises AttributeError *)

Record JObject : Type := {
  o_repr : string;                  (* str(data) *)
  o_success : bool;                 (* bool(data.get('success', False)) *)
  o_message : option string;        (* str(data['message']) when the key is present *)
  o_result : ResultField;
  o_grant : TokenGrant
}.

Inductive Data : Type :=
| NotObject                 (* valid JSON that is not an object *)
| Object (o : JObject).

(** The empty dictionary [{}]. *)
Definition empty_dict : Data :=
  Object {| o_repr := "{}"; o_success := false; o_message := None;
            o_result := ResultAbsent; o_grant := empty_grant |}.

(** What [await response.json()] does. *)
Inductive AioJson : Type :=
| JsonValue (d : Data)
| JsonContentTypeError      (* aiohttp.ContentTypeError, a ClientError *)
| JsonDecodeError.          (* json.JSONDecodeError *)

(** An HTTP response as the client reads it. *)
Record Response : Type := {
  status : Z;
  content_type : string;            (* response.headers.get('Content-Type', '') *)
  text : string;                    (* await response.text() *)
  json_loads : option Data;         (* json.loads(text); None when it raises *)
  aio_json : AioJson;               (* await response.json() *)
  headers_repr : string             (* str(dict(response.headers)), only logged *)
}.

(** ** The client object *)

Record Settings : Type := {
  base_url : string;
  kb : string;
  language : string;
  auth_method : string;
  username : string;
  password : string;
  oauth2_client_id : option string;
  oauth2_client_secret : option string;
  oauth2_token_endpoint : option string;
  oauth2_authorization_endpoint : option string;
  oauth2_redirect_uri : string;
  oauth2_scope : string
}.

Record Client : Type := {
  cfg : Settings;
  session : bool;                   (* a session exists and is not closed *)
  access_token : option string;
  refresh_token : option string;
  token_expires_at : option Z;
  api_access_point : option string
}.

(** [AgiloftClient(config)]. *)
Definition new_client (s : Settings) : Client :=
  {| cfg := s; session := false; access_token := None; refresh_token := None;
     token_expires_at := None; api_access_point := None |}.

Definition set_session (b : bool) (c : Client) : Client :=
  {| cfg := cfg c; session := b; access_token := access_token c;
     refresh_token := refresh_token c; token_expires_at := token_expires_at c;
     api_access_point := api_access_point c |}.

Definition set_access_token (v : option string) (c : Client) : Client :=
  {| cfg := cfg c; session := session c; access_token := v;
     refresh_token := refresh_token c; token_expires_at := token_expires_at c;
     api_access_point := api_access_point c |}.

Definition set_refresh_token (v : option string) (c : Client) : Client :=
  {| cfg := cfg c; session := session c; access_token := access_token c;
     refresh_token := v; token_expires_at := token_expires_at c;
     api_access_point := api_access_point c |}.

Definition set_token_expires_at (v : option Z) (c : Client) : Client :=
  {| cfg := cfg c; session := session c; access_token := access_token c;
     refresh_token := refresh_token c; token_expires_at := v;
     api_access_point := api_access_point c |}.

Definition set_api_access_point (v : option string) (c : Client) : Client :=
  {| cfg := cfg c; session := session c; access_token := access_token c;
     refresh_token := refresh_token c; token_expires_at := token_expires_at c;
     api_access_point := v |}.

(** The four attributes that hold the token state. *)
Record Tokens : Type := {
  t_access_token : option string;
  t_refresh_token : option string;
  t_expires_at : option Z;
  t_api_access_point : option string
}.

Definition tokens_of (c : Client) : Tokens :=
  {| t_access_token := access_token c; t_refresh_token := refresh_token c;
     t_expires_at := token_expires_at c; t_api_access_point := api_access_point c |}.

Definition store_tokens (t : Tokens) (c : Client) : Client :=
  {| cfg := cfg c; session := session c; access_token := t_access_token t;
     refresh_token := t_refresh_token t; token_expires_at := t_expires_at t;
     api_access_point := t_api_access_point t |}.

(** ** The outside world *)

Inductive Payload : Type :=
| JsonPayload (fields : Py.dict string)            (* json=... *)
| FormPayload (fields : Py.dict (option string))   (* data=... *)
| OpaquePayload (body : option string).            (* the caller's json=... *)

(** One use of [session.post] or [session.request]. *)
Record HttpCall : Type := {
  verb : string;
  url : option string;
  params : Py.dict string;
  headers : Py.dict string;
  payload : Payload
}.

(** What the local callback server answers. *)
Inductive Page : Type := PageProviderError | PageNoCode | PageSuccess.

Inductive Event : Type :=
| EvHttp (c : HttpCall)
| EvServerStart (redirect_uri : string)
| EvBrowserOpen (endpoint : option string) (query : Py.dict (option string))
| EvSleep
| EvCallback (p : Page)
| EvServerCleanup.

Definition is_http (e : Event) : bool :=
  match e with EvHttp _ => true | _ => false end.

Inductive Transport : Type :=
| Answered (r : Response)
| ClientFailure (msg : string)    (* raises aiohttp.ClientError *)
| OtherFailure (msg : string).    (* raises another Exception, e.g. a timeout *)

(** One suspension of the coroutine on the transport: how long it took,
    what other coroutines sharing the client stored in the token
    attributes in the meantime ([None]: nothing), and the outcome. *)
Record Exchange : Type := {
  latency : Z;
  meanwhile : option Tokens;
  outcome : Transport
}.

(** The query of a GET on the callback path. *)
Record Query : Type := {
  q_code : option string;
  q_state : option string;
  q_api_access_point : option string;
  q_error : option string
}.

Record Oracle : Type := {
  net : nat -> Exchange;            (* the n-th use of the transport *)
  token_urlsafe : string;           (* secrets.token_urlsafe(32) *)
  overrun : nat -> N;               (* microseconds the n-th sleep lasts beyond its delay *)
  arrivals : nat -> list Query      (* callbacks served during the n-th sleep *)
}.

Record World : Type := {
  now : Z;                          (* the clock *)
  served : nat;                     (* uses of the transport so far *)
  slept : nat;                      (* sleeps so far *)
  log : list Event                  (* oldest first *)
}.

Record Env : Type := { self : Client; world : World }.

Definition tick (d : Z) (w : World) : World :=
  {| now := now w + d; served := served w; slept := slept w; log := log w |}.

Definition record (ev : Event) (w : World) : World :=
  {| now := now w; served := served w; slept := slept w; log := log w ++ [ev] |}.

Definition next_exchange (w : World) : World :=
  {| now := now w; served := S (served w); slept := slept w; log := log w |}.

Definition next_sleep (w : World) : World :=
  {| now := now w; served := served w; slept := S (slept w); log := log w |}.

Definition interfere (m : option Tokens) (c : Client) : Client :=
  match m with
  | Some t => store_tokens t c
  | None => c
  end.

(** ** The monad of coroutines *)

Inductive Result (A : Type) : Type :=
| Ok (a : A)
| Raise (e : exn).
Arguments Ok {A} a.
Arguments Raise {A} e.

Definition M (A : Type) : Type := Env -> Result A * Env.

Definition ret {A} (a : A) : M A := fun e => (Ok a, e).

Definition raise {A} (x : exn) : M A := fun e => (Raise x, e).

Definition bind {A B} (m : M A) (k : A -> M B) : M B :=
  fun e =>
    match m e with
    | (Ok a, e') => k a e'
    | (Raise x, e') => (Raise x, e')
    end.

Declare Scope coroutine_scope.
Delimit Scope coroutine_scope with coroutine.
Notation "x <- m ;; k" := (bind m (fun x => k))
  (at level 61, m at next level, right associativity) : coroutine_scope.
Notation "m ;; k" := (bind m (fun _ => k))
  (at level 61, right associativity) : coroutine_scope.
Local Open Scope coroutine_scope.

(** [try: m  except ...: h]; [h x = None] when no clause matches [x]. *)
Definition try_except {A} (m : M A) (h : exn -> option (M A)) : M A :=
  fun e =>
    match m e with
    | (Ok a, e') => (Ok a, e')
    | (Raise x, e') =>
        match h x with
        | Some k => k e'
        | None => (Raise x, e')
        end
    end.

(** [try: m  finally: f]. *)
Definition try_finally {A} (m : M A) (f : M unit) : M A :=
  fun e =>
    match m e with
    | (r, e') =>
        match f e' with
        | (Ok _, e'') => (r, e'')
        | (Raise x, e'') => (Raise x, e'')
        end
    end.

Definition get_self : M Client := fun e => (Ok (self e), e).

Definition modify_self (f : Client -> Client) : M unit :=
  fun e => (Ok tt, {| self := f (self e); world := world e |}).

Definition modify_world (f : World -> World) : M unit :=
  fun e => (Ok tt, {| self := self e; world := f (world e) |}).

(** [datetime.now()], [time.time()]. *)
Definition datetime_now : M Z := fun e => (Ok (now (world e)), e).

Definition emit (ev : Event) : M unit := modify_world (record ev).

(** ** The coroutines of [AgiloftClient] *)

Definition opt_eqb (a b : option string) : bool :=
  match a, b with
  | Some x, Some y => (x =? y)%string
  | None, None => true
  | _, _ => false
  end.

Definition is_none {A} (v : option A) : bool :=
  match v with None => true | Some _ => false end.

(** The statuses [(200, 201, 202, 204)]. *)
Definition success_status (s : Z) : bool :=
  (s =? 200) || (s =? 201) || (s =? 202) || (s =? 204).

(** The keyword arguments a caller passes to [_make_request]. *)
Record RequestArgs : Type := {
  k_params : option (Py.dict string);
  k_headers : option (Py.dict string);
  k_json : option string
}.

Definition no_kwargs : RequestArgs :=
  {| k_params := None; k_headers := None; k_json := None |}.

(** The nonlocal variables of [handle_callback]. *)
Record Captured : Type := {
  auth_code : option string;
  received_state : option string;
  hint_api_access_point : option string
}.

Definition nothing_captured : Captured :=
  {| auth_code := None; received_state := None; hint_api_access_point := None |}.

(** [handle_callback(request)]: stores the query parameters in the
    nonlocal variables and answers with one of three pages. *)
Definition handle_callback (q : Query) (cap : Captured) : Captured * Page :=
  let cap' :=
    {| auth_code := q_code q;
       received_state := q_state q;
       hint_api_access_point :=
         Some (match q_api_access_point q with Some a => a | None => "" end) |} in
  if Py.truthy (q_error q) then (cap', PageProviderError)
  else if negb (Py.truthy (auth_code cap')) then (cap', PageNoCode)
  else (cap', PageSuccess).

Definition form_headers : Py.dict string :=
  [("Content-Type", "application/x-www-form-urlencoded"); ("Accept", "application/json")].

(** [timedelta(seconds=expires_in)] for [expires_in = data.get('expires_in', 900)]:
    [OverflowError] for a number of seconds that makes more days than a
    [timedelta] holds. *)
Definition expires_delta (x : ExpiresIn) : M Z :=
  match x with
  | ExpAbsent => ret (timedelta_seconds 900)
  | ExpSeconds n =>
      if timedelta_fits n then ret (timedelta_seconds n)
      else raise (PyError "OverflowError")
  | ExpUnusable => raise (PyError "TypeError")
  end.

(** [datetime.now() + delta]: [OverflowError] when the sum is not a
    [datetime]. *)
Definition now_plus (delta : Z) : M Z :=
  t <- datetime_now ;;
  if datetime_fits (t + delta) then ret (t + delta)
  else raise (PyError "OverflowError").

(** [await response.json()]. *)
Definition response_json (r : Response) : M Data :=
  match aio_json r with
  | JsonValue d => ret d
  | JsonContentTypeError => raise (ClientError "ContentTypeError")
  | JsonDecodeError => raise (PyError "JSONDecodeError")
  end.

(** [except AgiloftAuthError: raise] followed by
    [except Exception as e: raise AgiloftAuthError(f"{prefix}{str(e)}")]. *)
Definition reraise_as_auth_error {A} (prefix : string) (m : M A) : M A :=
  try_except m
    (fun x => if is_auth_error x then None
              else Some (raise (AgiloftAuthError (prefix ++ str_exn x)))).

(** Lines 426-433: the token endpoint [_refresh_access_token] posts to. *)
Definition refresh_token_url (c : Client) : option string :=
  if Py.truthy (oauth2_token_endpoint (cfg c)) then oauth2_token_endpoint (cfg c)
  else if Py.truthy (api_access_point c) then
    Some (Py.str_opt (api_access_point c) ++ "/ewws/otoken")
  else Some (Py.split_head "/ewws/alrest" (base_url (cfg c)) ++ "/ewws/otoken").

(** The form [_refresh_access_token] posts. *)
Definition refresh_form (c : Client) : Py.dict (option string) :=
  [("grant_type", Some "refresh_token");
   ("refresh_token", refresh_token c);
   ("client_id", oauth2_client_id (cfg c));
   ("redirect_uri", Some (oauth2_redirect_uri (cfg c)))].

Definition refresh_call (c : Client) : HttpCall :=
  {| verb := "POST"; url := refresh_token_url c; params := [];
     headers := form_headers; payload := FormPayload (refresh_form c) |}.

(** The request of [_authenticate_legacy]: [login_data] as JSON to
    [login_url]. *)
Definition login_call (c : Client) : HttpCall :=
  {| verb := "POST"; url := Some (base_url (cfg c) ++ "/login"); params := [];
     headers := [];
     payload := JsonPayload [("password", password (cfg c)); ("KB", kb (cfg c));
                             ("login", username (cfg c)); ("lang", language (cfg c))] |}.

(** The request of [_authenticate_oauth2_client_credentials]. *)
Definition client_credentials_call (c : Client) : HttpCall :=
  {| verb := "POST"; url := oauth2_token_endpoint (cfg c); params := [];
     headers := form_headers;
     payload := FormPayload [("grant_type", Some "client_credentials");
                             ("client_id", oauth2_client_id (cfg c));
                             ("client_secret", oauth2_client_secret (cfg c));
                             ("kb", Some (kb (cfg c)))] |}.

(** The request of [_exchange_code_for_token]. *)
Definition exchange_call (c : Client) (code : string) (hint : option string) : HttpCall :=
  let token_url :=
    if Py.truthy hint then Py.str_opt hint ++ "/ewws/otoken"
    else Py.split_head "/ewws/alrest" (base_url (cfg c)) ++ "/ewws/otoken" in
  {| verb := "POST"; url := Some token_url; params := []; headers := form_headers;
     payload := FormPayload [("grant_type", Some "authorization_code");
                             ("code", Some code);
                             ("client_id", oauth2_client_id (cfg c));
                             ("redirect_uri", Some (oauth2_redirect_uri (cfg c)))] |}.

(** A request of [_make_request]: [session.request(method, url, **kwargs)]. *)
Definition api_call (method url : string) (params headers : Py.dict string)
    (body : option string) : HttpCall :=
  {| verb := method; url := Some url; params := params; headers := headers;
     payload := OpaquePayload body |}.

(** The headers built by [_get_auth_headers] for a token. *)
Definition auth_headers (token : option string) : Py.dict string :=
  [("Authorization", "Bearer " ++ Py.str_opt token);
   ("Content-Type", "application/json");
   ("Accept", "application/json")].

Definition manual_auth_message : string :=
  "OAuth2 Authorization Code flow requires manual authentication. " ++
  "Call authenticate_with_browser() before using the client.".

Definition clear_tokens (c : Client) : Client :=
  set_api_access_point None
    (set_token_expires_at None (set_refresh_token None (set_access_token None c))).

Section Coroutines.

Variable orc : Oracle.

(** [session.post(...)] and [session.request(...)]: one exchange with the
    server.  The call is logged, the clock advances, the writes of other
    coroutines land, and the response (or the failure) is delivered. *)
Definition transport (c : HttpCall) : M Response :=
  fun e =>
    let x := net orc (served (world e)) in
    let e' := {| self := interfere (meanwhile x) (self e);
                 world := next_exchange (tick (latency x) (record (EvHttp c) (world e))) |} in
    match outcome x with
    | Answered r => (Ok r, e')
    | ClientFailure m => (Raise (ClientError m), e')
    | OtherFailure m => (Raise (PyError m), e')
    end.

Definition ensure_session : M unit := modify_self (set_session true).

Definition _refresh_access_token : M unit :=
  c <- get_self ;;
  if negb (Py.truthy (refresh_token c)) then
    raise (AgiloftAuthError "No refresh token available for token refresh")
  else
    ensure_session ;;
    c <- get_self ;;
    reraise_as_auth_error "Token refresh failed: "
      (response <- transport (refresh_call c) ;;
       if negb (status response =? 200) then
         raise (AgiloftAuthError ("Token refresh failed: " ++ Py.str_int (status response)
                                  ++ " - " ++ text response))
       else if negb (Py.contains "application/json" (content_type response)) then
         raise (AgiloftAuthError ("Expected JSON response but got " ++ content_type response
                                  ++ ". Response: " ++ Py.take 500 (text response)))
       else
         match json_loads response with
         | None => raise (PyError "JSONDecodeError")
         | Some NotObject => raise (PyError "AttributeError")
         | Some (Object data) =>
             let new_access_token := g_access_token (o_grant data) in
             if negb (Py.truthy new_access_token) then
               raise (AgiloftAuthError ("No access token in refresh response: " ++ o_repr data))
             else
               modify_self (set_access_token new_access_token) ;;
               delta <- expires_delta (g_expires_in (o_grant data)) ;;
               t <- now_plus delta ;;
               modify_self (set_token_expires_at (Some t)) ;;
               let new_refresh_token := g_refresh_token (o_grant data) in
               if Py.truthy new_refresh_token then
                 modify_self (set_refresh_token new_refresh_token)
               else ret tt
         end).

Definition _authenticate_legacy : M unit :=
  ensure_session ;;
  c <- get_self ;;
  response <- transport (login_call c) ;;
  if negb (status response =? 200) then
    raise (AgiloftAuthError ("Authentication failed: " ++ Py.str_int (status response)
                             ++ " - " ++ text response))
  else
    data <- response_json response ;;
    match data with
    | NotObject => raise (PyError "AttributeError")
    | Object data =>
        if negb (o_success data) then
          raise (AgiloftAuthError
                   ("Authentication failed: " ++
                    match o_message data with Some m => m | None => "Unknown error" end))
        else
          match o_result data with
          | ResultOther => raise (PyError "AttributeError")
          | ResultAbsent | ResultObject _ =>
              let result := match o_result data with
                            | ResultObject g => g
                            | _ => empty_grant
                            end in
              modify_self (set_access_token (g_access_token result)) ;;
              modify_self (set_refresh_token (g_refresh_token result)) ;;
              delta <- expires_delta (g_expires_in result) ;;
              t <- now_plus delta ;;
              modify_self (set_token_expires_at (Some t))
          end
    end.

Definition _authenticate_oauth2_client_credentials : M unit :=
  ensure_session ;;
  c <- get_self ;;
  reraise_as_auth_error "OAuth2 authentication failed: "
    (response <- transport (client_credentials_call c) ;;
     if negb (status response =? 200) then
       raise (AgiloftAuthError ("OAuth2 authentication failed: "
                                ++ Py.str_int (status response) ++ " - " ++ text response))
     else
       data <- response_json response ;;
       match data with
       | NotObject => raise (PyError "AttributeError")
       | Object data =>
           modify_self (set_access_token (g_access_token (o_grant data))) ;;
           if negb (Py.truthy (g_access_token (o_grant data))) then
             raise (AgiloftAuthError ("No access token in OAuth2 response: " ++ o_repr data))
           else
             delta <- expires_delta (g_expires_in (o_grant data)) ;;
             t <- now_plus delta ;;
             modify_self (set_token_expires_at (Some t)) ;;
             modify_self (set_refresh_token (g_refresh_token (o_grant data)))
       end).

(** [try: await self._refresh_access_token(); return] with
    [except AgiloftAuthError: self.refresh_token = None]: the value tells
    whether the enclosing coroutine has returned. *)
Definition refresh_or_forget : M bool :=
  try_except (_refresh_access_token ;; ret true)
    (fun x => if is_auth_error x
              then Some (modify_self (set_refresh_token None) ;; ret false)
              else None).

Definition _authenticate : M unit :=
  c <- get_self ;;
  if (auth_method (cfg c) =? "oauth2_client_credentials")%string then
    _authenticate_oauth2_client_credentials
  else if (auth_method (cfg c) =? "oauth2_authorization_code")%string then
    returned <- (if Py.truthy (refresh_token c) then refresh_or_forget else ret false) ;;
    if returned then ret tt
    else raise (AgiloftAuthError manual_auth_message)
  else
    _authenticate_legacy.

(** The condition tested by [ensure_authenticated]. *)
Definition needs_renewal (t_now : Z) (c : Client) : bool :=
  is_none (access_token c) ||
  is_none (token_expires_at c) ||
  match token_expires_at c with
  | Some t => t_now >=? t - timedelta_minutes 1
  | None => true
  end.

Definition ensure_authenticated : M unit :=
  t_now <- datetime_now ;;
  c <- get_self ;;
  if needs_renewal t_now c then
    returned <- (if Py.truthy (refresh_token c) then refresh_or_forget else ret false) ;;
    if returned then ret tt
    else _authenticate
  else ret tt.

Definition _get_auth_headers : M (Py.dict string) :=
  c <- get_self ;;
  if negb (Py.truthy (access_token c)) then
    raise (AgiloftAuthError "No access token available")
  else
    ret (auth_headers (access_token c)).

(** Lines 544-556 of [_make_request]: the block run under [_auth_lock]
    when the first response is a 401.  [token_before_request] is the
    snapshot of [self.access_token] taken before the request was sent. *)
Definition handle_unauthorized (token_before_request : option string) : M unit :=
  c <- get_self ;;
  if negb (opt_eqb (access_token c) token_before_request) then
    ret tt
  else if Py.truthy (refresh_token c) then
    try_except _refresh_access_token
      (fun x => if is_auth_error x
                then Some (modify_self (set_refresh_token None) ;; _authenticate)
                else None)
  else
    _authenticate.

(** How a final response is turned into the result of [_make_request];
    [label] is the text that opens the error message. *)
Definition conclude (label : string) (response : Response) : M Data :=
  if negb (success_status (status response)) then
    raise (AgiloftAPIError
             (label ++ Py.str_int (status response) ++ " - " ++ text response)
             (Some (status response)) (Some (text response)))
  else if status response =? 204 then ret empty_dict
  else response_json response.

(** Lines 558-573: the retry that follows the 401 block. *)
Definition retry_request (method url : string) (params : Py.dict string)
    (body : option string) : M Data :=
  headers <- _get_auth_headers ;;
  retry_response <- transport (api_call method url params headers body) ;;
  conclude "API request failed after re-auth: " retry_response.

(** Lines 536-586: what [_make_request] does with the first response. *)
Definition on_response (method url : string) (params : Py.dict string)
    (body : option string) (token_before_request : option string)
    (response : Response) : M Data :=
  if status response =? 401 then
    handle_unauthorized token_before_request ;;
    retry_request method url params body
  else
    conclude "API request failed: " response.

(** The query parameters sent: the caller's, with [lang] added when the
    caller gave none. *)
Definition request_params (c : Client) (kwargs : RequestArgs) : Py.dict string :=
  let params := match k_params kwargs with Some p => p | None => [] end in
  if negb (Py.dict_mem "lang" params) then Py.dict_set "lang" (language (cfg c)) params
  else params.

Definition _make_request (method endpoint : string) (kwargs : RequestArgs) : M Data :=
  ensure_authenticated ;;
  ensure_session ;;
  c <- get_self ;;
  let url := base_url (cfg c) ++ "/" ++ Py.lstrip_slash endpoint in
  headers <- _get_auth_headers ;;
  let params := request_params c kwargs in
  let headers := match k_headers kwargs with
                 | Some h => Py.dict_update headers h
                 | None => headers
                 end in
  let token_before_request := access_token c in
  try_except
    (response <- transport (api_call method url params headers (k_json kwargs)) ;;
     on_response method url params (k_json kwargs) token_before_request response)
    (fun x => match x with
              | ClientError m =>
                  Some (raise (AgiloftAPIError
                                 ("HTTP client error for " ++ method ++ " " ++ url ++ ": " ++ m)
                                 None None))
              | _ => None
              end).

Definition _exchange_code_for_token (code : string) (hint : option string) : M unit :=
  ensure_session ;;
  (if Py.truthy hint then modify_self (set_api_access_point hint) else ret tt) ;;
  c <- get_self ;;
  reraise_as_auth_error "Token exchange failed: "
    (response <- transport (exchange_call c code hint) ;;
     if negb (status response =? 200) then
       raise (AgiloftAuthError ("Token exchange failed: " ++ Py.str_int (status response)
                                ++ " - " ++ text response))
     else if negb (Py.contains "application/json" (content_type response)) then
       raise (AgiloftAuthError ("Expected JSON response but got " ++ content_type response
                                ++ ". Response: " ++ Py.take 500 (text response)))
     else
       match json_loads response with
       | None => raise (PyError "JSONDecodeError")
       | Some NotObject => raise (PyError "AttributeError")
       | Some (Object data) =>
           modify_self (set_access_token (g_access_token (o_grant data))) ;;
           if negb (Py.truthy (g_access_token (o_grant data))) then
             raise (AgiloftAuthError ("No access token in response: " ++ o_repr data))
           else
             delta <- expires_delta (g_expires_in (o_grant data)) ;;
             t <- now_plus delta ;;
             modify_self (set_token_expires_at (Some t)) ;;
             modify_self (set_refresh_token (g_refresh_token (o_grant data)))
       end).

(** The callbacks served while the coroutine is suspended, oldest first. *)
Fixpoint serve (qs : list Query) (cap : Captured) (w : World) : Captured * World :=
  match qs with
  | [] => (cap, w)
  | q :: rest =>
      let (cap', page) := handle_callback q cap in
      serve rest cap' (record (EvCallback page) w)
  end.

(** [await asyncio.sleep(0.5)] in the wait loop: at least half a second
    passes, during which the callback server handles what arrives. *)
Definition sleep_half_second (cap : Captured) : M Captured :=
  fun e =>
    let i := slept (world e) in
    let w := next_sleep (tick (500000 + Z.of_N (overrun orc i)) (record EvSleep (world e))) in
    let (cap', w') := serve (arrivals orc i) cap w in
    (Ok cap', {| self := self e; world := w' |}).

(** [while auth_code is None and (time.time() - start_time) < timeout].
    Every sleep lasts at least half a second, so the loop body runs at
    most 600 times; [fuel] bounds the number of tests of the condition. *)
Fixpoint wait_for_code (fuel : nat) (start_time : Z) (cap : Captured) : M Captured :=
  match fuel with
  | O => ret cap
  | S fuel' =>
      t <- datetime_now ;;
      if is_none (auth_code cap) && (t - start_time <? timedelta_seconds 300) then
        cap' <- sleep_half_second cap ;;
        wait_for_code fuel' start_time cap'
      else ret cap
  end.

Definition wait_fuel : nat := 601.

(** The parameters of the authorization URL. *)
Definition auth_params (c : Client) (state : string) : Py.dict (option string) :=
  let base := [("client_id", oauth2_client_id (cfg c));
               ("redirect_uri", Some (oauth2_redirect_uri (cfg c)));
               ("response_type", Some "code");
               ("state", Some state)] in
  if negb (oauth2_scope (cfg c) =? "")%string
  then Py.dict_set "scope" (Some (oauth2_scope (cfg c))) base
  else base.

Definition authenticate_with_browser : M bool :=
  c <- get_self ;;
  let state := token_urlsafe orc in
  emit (EvServerStart (oauth2_redirect_uri (cfg c))) ;;
  emit (EvBrowserOpen (oauth2_authorization_endpoint (cfg c)) (auth_params c state)) ;;
  start_time <- datetime_now ;;
  cap <- wait_for_code wait_fuel start_time nothing_captured ;;
  emit EvServerCleanup ;;
  match auth_code cap with
  | None => raise (AgiloftAuthError "Authorization timeout - no code received")
  | Some code =>
      if negb (opt_eqb (received_state cap) (Some state)) then
        raise (AgiloftAuthError "State parameter mismatch - possible CSRF attack")
      else
        _exchange_code_for_token code (hint_api_access_point cap) ;;
        ret true
  end.

Definition logout : M unit :=
  c <- get_self ;;
  if Py.truthy (access_token c) then
    try_finally
      (try_except (_make_request "POST" "/logout" no_kwargs ;; ret tt)
         (fun _ => Some (ret tt)))
      (modify_self clear_tokens)
  else ret tt.

End Coroutines.

(** ** Vocabulary of the properties *)

(** The environment in which a coroutine resumes after the exchange it
    started with request [c] in environment [e]. *)
Definition resumed (orc : Oracle) (c : HttpCall) (e : Env) : Env :=
  let x := net orc (served (world e)) in
  {| self := interfere (meanwhile x) (self e);
     world := next_exchange (tick (latency x) (record (EvHttp c) (world e))) |}.

(** Requests to the API proper, sent by [session.request]. *)
Definition is_api_request (ev : Event) : bool :=
  match ev with
  | EvHttp c => match payload c with OpaquePayload _ => true | _ => false end
  | _ => false
  end.

(** Requests with [grant_type=refresh_token]. *)
Definition is_refresh_grant (ev : Event) : bool :=
  match ev with
  | EvHttp c =>
      match payload c with
      | FormPayload f =>
          match Py.dict_get "grant_type" f with
          | Some (Some g) => (g =? "refresh_token")%string
          | _ => false
          end
      | _ => false
      end
  | _ => false
  end.

Definition count_events (P : Event -> bool) (evs : list Event) : nat :=
  List.length (filter P evs).

(** A run of [m] appends to the log, and at most [n] of the events it
    appends satisfy [P]. *)
Definition at_most {A} (P : Event -> bool) (n : nat) (m : M A) : Prop :=
  forall e, exists evs,
    log (world (snd (m e))) = (log (world e) ++ evs)%list /\ (count_events P evs <= n)%nat.

(** The lifetime in seconds granted by a token response. *)
Definition lifetime (x : ExpiresIn) : Z :=
  match x with
  | ExpSeconds n => n
  | _ => 900
  end.

(** Remaining validity of a token that expires at [t]. *)
Definition remaining (t_now t : Z) : Z := t - t_now.

(** The values captured once all of [qs] have been served. *)
Definition captured_after (qs : list Query) (cap : Captured) : Captured :=
  fold_left (fun acc q => fst (handle_callback q acc)) qs cap.

(** The callbacks served during sleeps [i], [i+1], ..., [i+n-1]. *)
Fixpoint served_during (orc : Oracle) (i : nat) (n : nat) : list Query :=
  match n with
  | O => []
  | S n' => (arrivals orc i ++ served_during orc (S i) n')%list
  end.

(** [except aiohttp.ClientError as e: raise AgiloftAPIError(...)] at the
    end of [_make_request], as a function on the exception raised. *)
Definition client_error_as_api_error (method url : string) (x : exn) : exn :=
  match x with
  | ClientError m =>
      AgiloftAPIError ("HTTP client error for " ++ method ++ " " ++ url ++ ": " ++ m)
                      None None
  | _ => x
  end.

Definition guarded (method url : string) {A} (r : Result A * Env) : Result A * Env :=
  match r with
  | (Raise x, e) => (Raise (client_error_as_api_error method url x), e)
  | _ => r
  end.

(** ** Scenarios *)

Module Scenario.

Definition settings (method : string) : Settings :=
  {| base_url := "https://acme.example/ewws/alrest/demo";
     kb := "demo"; language := "en"; auth_method := method;
     username := "admin"; password := "secret";
     oauth2_client_id := Some "client-1"; oauth2_client_secret := None;
     oauth2_token_endpoint := None;
     oauth2_authorization_endpoint := Some "https://acme.example/oauth/authorize";
     oauth2_redirect_uri := "http://localhost:8080/callback";
     oauth2_scope := "" |}.

(** A client that holds the given tokens. *)
Definition client (method : string) (access refresh : option string)
    (expires : option Z) : Client :=
  {| cfg := settings method; session := true; access_token := access;
     refresh_token := refresh; token_expires_at := expires; api_access_point := None |}.

(** The world at time [t], before anything happened. *)
Definition dawn (t : Z) : World :=
  {| now := t; served := 0; slept := 0; log := [] |}.

Definition env (c : Client) (t : Z) : Env := {| self := c; world := dawn t |}.

(** A response with the given status and decoded body. *)
Definition response (st : Z) (body : string) (d : option Data) : Response :=
  {| status := st; content_type := "application/json"; text := body;
     json_loads := d;
     aio_json := match d with Some v => JsonValue v | None => JsonDecodeError end;
     headers_repr := "{}" |}.

Definition grant (access refresh : option string) (expires_in : ExpiresIn) : Data :=
  Object {| o_repr := "{...}"; o_success := true; o_message := None;
            o_result := ResultAbsent;
            o_grant := {| g_access_token := access; g_refresh_token := refresh;
                          g_expires_in := expires_in |} |}.

Definition answered (r : Response) : Exchange :=
  {| latency := 0; meanwhile := None; outcome := Answered r |}.

Definition refused : Exchange :=
  {| latency := 0; meanwhile := None; outcome := ClientFailure "Connection refused" |}.

(** The transport gives the listed exchanges in turn and refuses any
    further connection; the callback server serves the listed queries
    during the successive sleeps. *)
Definition scripted (xs : list Exchange) (callbacks : list (list Query)) : Oracle :=
  {| net := fun n => nth n xs refused;
     token_urlsafe := "nonce-1";
     overrun := fun _ => 0%N;
     arrivals := fun n => nth n callbacks [] |}.

Definition unauthorized : Response := response 401 "expired" None.

Definition no_tokens : Tokens :=
  {| t_access_token := None; t_refresh_token := None;
     t_expires_at := None; t_api_access_point := None |}.

(** A session that holds A1 and R1, valid for fifteen minutes. *)
Definition held : Env :=
  env (client "legacy" (Some "A1") (Some "R1") (Some (timedelta_seconds 900))) 0.

(** The request is answered with a 401 while another coroutine, which
    has logged out, cleared the token attributes. *)
Definition concurrent_logout : Oracle :=
  scripted [{| latency := 0; meanwhile := Some no_tokens; outcome := Answered unauthorized |}] [].

Definition request_during_logout : Result Data * Env :=
  _make_request concurrent_logout "GET" "/contract/1" no_kwargs held.

(** A token with exactly sixty seconds of validity left. *)
Definition sixty_left : Env :=
  env (client "legacy" (Some "A1") (Some "R1") (Some (timedelta_seconds 60))) 0.

Definition refresh_granted : Oracle :=
  scripted [answered (response 200 "{...}" (Some (grant (Some "A2") None (ExpSeconds 900))))] [].

Definition refresh_rejected : Oracle :=
  scripted [answered (response 400 "invalid_grant" None)] [].

(** A client in authorization-code mode that holds nothing. *)
Definition fresh_browser_client : Env :=
  env (client "oauth2_authorization_code" None None None) 0.

Definition forged : Query :=
  {| q_code := Some "EVIL"; q_state := Some "guess"; q_api_access_point := None;
     q_error := None |}.

Definition genuine : Query :=
  {| q_code := Some "GOOD"; q_state := Some "nonce-1"; q_api_access_point := None;
     q_error := None |}.

(** A forged callback alone. *)
Definition forged_only : Oracle := scripted [] [[forged]].

(** A forged callback and the genuine one during the same sleep. *)
Definition forged_then_genuine : Oracle :=
  scripted [answered (response 200 "{...}" (Some (grant (Some "A1") (Some "R1") ExpAbsent)))]
           [[forged; genuine]].

(** No access token, but a refresh token and an expiry are recorded. *)
Definition refresh_token_only : Env :=
  env (client "legacy" None (Some "R1") (Some (timedelta_seconds 900))) 0.

(** The stored token was replaced by A2 after the snapshot A1 was taken. *)
Definition already_refreshed : Env :=
  env (client "legacy" (Some "A2") (Some "R2") (Some (timedelta_seconds 900))) 0.

Definition ok_body : Oracle :=
  scripted [answered (response 200 "{...}" (Some empty_dict))] [].


(** The refresh granted, then the request answered. *)
Definition refreshed_then_served : Oracle :=
  scripted [answered (response 200 "{...}" (Some (grant (Some "A2") None (ExpSeconds 900))));
            answered (response 200 "{}" (Some empty_dict))] [].

End Scenario.

(** ** Vocabulary of the further properties *)

(** The client object at the moment a coroutine that entered with [e]
    resumes from its first exchange. *)
Definition at_resumption (orc : Oracle) (e : Env) : Client :=
  interfere (meanwhile (net orc (served (world e)))) (set_session true (self e)).

(** The string of [n] slashes. *)
Fixpoint slashes (n : nat) : string :=
  match n with
  | O => ""
  | S n' => String "/" (slashes n')
  end.

(** ** JSON documents as Python values

    What [json.load] and [response.json()] produce: [None], booleans,
    integers, floats (a sign, a mantissa and an exponent, or a zero, an
    infinity or a NaN), strings, lists and dictionaries.  A dictionary
    is a list of key-value pairs in insertion order, without repeated
    keys. *)

#[local] Set Warnings "-register-all".

Inductive json : Type :=
| JNull
| JBool (b : bool)
| JNum (n : Z)
| JFloat (f : SpecFloat.spec_float)
| JStr (s : string)
| JArr (items : list json)
| JObj (fields : list (string * json)).

Module PyJson.

(** [bool(v)]. *)
Definition truthy (v : json) : bool :=
  match v with
  | JNull => false
  | JBool b => b
  | JNum n => negb (n =? 0)
  | JFloat f => match f with SpecFloat.S754_zero _ => false | _ => true end
  | JStr s => negb (s =? "")%string
  | JArr items => match items with [] => false | _ => true end
  | JObj fields => match fields with [] => false | _ => true end
  end.

Definition is_str (key : string) (v : json) : bool :=
  match v with
  | JStr s => (s =? key)%string
  | _ => false
  end.

(** [key in container], for a string [key]: a key of a dictionary, an
    element of a list, a substring of a string; [TypeError] otherwise. *)
Definition contains (container : json) (key : string) : Result bool :=
  match container with
  | JObj fields => Ok (Py.dict_mem key fields)
  | JArr items => Ok (existsb (is_str key) items)
  | JStr s => Ok (Py.contains key s)
  | _ => Raise (PyError "TypeError")
  end.

(** [container[key]], for a string [key]. *)
Definition getitem (container : json) (key : string) : Result json :=
  match container with
  | JObj fields =>
      match Py.dict_get key fields with
      | Some v => Ok v
      | None => Raise (PyError "KeyError")
      end
  | _ => Raise (PyError "TypeError")
  end.

(** [container[key] = v], for a string [key]. *)
Definition setitem (container : json) (key : string) (v : json) : Result json :=
  match container with
  | JObj fields => Ok (JObj (Py.dict_set key v fields))
  | _ => Raise (PyError "TypeError")
  end.

(** [container.get(key, default)]. *)
Definition get (container : json) (key : string) (default : json) : Result json :=
  match container with
  | JObj fields =>
      Ok (match Py.dict_get key fields with Some v => v | None => default end)
  | _ => Raise (PyError "AttributeError")
  end.

(** [s.split(sep)] for a one-character separator. *)
Fixpoint split (sep : ascii) (s : string) : list string :=
  match s with
  | EmptyString => [""]
  | String c rest =>
      if Ascii.eqb c sep then "" :: split sep rest
      else match split sep rest with
           | head :: tail => String c head :: tail
           | [] => [String c ""]
           end
  end.

(** [sep.join(items)] for a list of strings. *)
Fixpoint join (sep : string) (items : list string) : string :=
  match items with
  | [] => ""
  | [s] => s
  | s :: rest => s ++ sep ++ join sep rest
  end.

(** [c.lower()] for a character: only the ASCII letters change. *)
Definition lower_ascii (c : ascii) : ascii :=
  let n := nat_of_ascii c in
  if ((65 <=? n) && (n <=? 90))%nat then ascii_of_nat (n + 32) else c.

(** [s.lower()]. *)
Fixpoint lower (s : string) : string :=
  match s with
  | EmptyString => EmptyString
  | String c rest => String (lower_ascii c) (lower rest)
  end.

End PyJson.

(** ** The configuration manager ([agiloft/config.py])

    [Config._config_data] is read as a tree of JSON values, which is
    what the methods see of a configuration in which no dictionary is
    stored under two keys; such is the one [_load_config] builds from
    the defaults, a file and the environment.  The methods are
    functions of the tree, those that assign to it return its new value
    next to their result.  A dictionary handed to [set] is stored as it
    is, not copied: the configuration as a graph of objects, where a
    dictionary can be stored twice, is [ConfigObjects] below. *)

Module Config.

Definition data : Type := Py.dict json.

(** [_get_default_config()]. *)
Definition _get_default_config : data :=
  [("agiloft", JObj [("base_url", JStr ""); ("username", JStr ""); ("password", JStr "");
                     ("kb", JStr ""); ("language", JStr "en")])].

(** [for key in keys: current = current[key]]. *)
Fixpoint walk (keys : list string) (current : json) : Result json :=
  match keys with
  | [] => Ok current
  | key :: rest =>
      match PyJson.getitem current key with
      | Ok child => walk rest child
      | Raise x => Raise x
      end
  end.

(** [get(path, default)]: the walk, with [except (KeyError, TypeError)]. *)
Definition get (d : data) (path : string) (default : json) : Result json :=
  match walk (PyJson.split "." path) (JObj d) with
  | Ok v => Ok v
  | Raise (PyError "KeyError") | Raise (PyError "TypeError") => Ok default
  | Raise x => Raise x
  end.

(** The loop of [set] over [keys[:-1]] followed by the assignment to
    [current[keys[-1]]], on the value [current] refers to; the second
    component is that value afterwards (dictionaries are updated in
    place, so what is done to a nested dictionary shows in its parent). *)
Fixpoint set_keys (init : list string) (last : string) (value : json) (current : json)
  : Result unit * json :=
  match init with
  | [] =>
      match PyJson.setitem current last value with
      | Ok current' => (Ok tt, current')
      | Raise x => (Raise x, current)
      end
  | key :: rest =>
      match PyJson.contains current key with
      | Raise x => (Raise x, current)
      | Ok present =>
          match (if present then Ok current else PyJson.setitem current key (JObj [])) with
          | Raise x => (Raise x, current)
          | Ok current1 =>
              match PyJson.getitem current1 key with
              | Raise x => (Raise x, current1)
              | Ok child =>
                  let (r, child') := set_keys rest last value child in
                  (r, match PyJson.setitem current1 key child' with
                      | Ok current2 => current2
                      | Raise _ => current1
                      end)
              end
          end
      end
  end.

(** [set(path, value)]. *)
Definition set (d : data) (path : string) (value : json) : Result unit * data :=
  let keys := PyJson.split "." path in
  match set_keys (removelast keys) (last keys "") value (JObj d) with
  | (r, JObj d') => (r, d')
  | (r, _) => (r, d)
  end.

(** [_merge_config(base, override)] on the values the two names refer
    to: the result is [base] afterwards. *)
Fixpoint merge_json (base override : json) {struct override} : json :=
  match override, base with
  | JObj o, JObj b =>
      JObj ((fix items (o : list (string * json)) (b : Py.dict json) {struct o}
               : Py.dict json :=
               match o with
               | [] => b
               | (key, value) :: rest =>
                   items rest
                     (match Py.dict_get key b, value with
                      | Some (JObj b'), JObj _ =>
                          Py.dict_set key (merge_json (JObj b') value) b
                      | _, _ => Py.dict_set key value b
                      end)
               end) o b)
  | _, _ => override
  end.

(** The loop of [_merge_config] over [override.items()]. *)
Definition merge_items : list (string * json) -> Py.dict json -> Py.dict json :=
  fix items (o : list (string * json)) (b : Py.dict json) {struct o} : Py.dict json :=
    match o with
    | [] => b
    | (key, value) :: rest =>
        items rest
          (match Py.dict_get key b, value with
           | Some (JObj b'), JObj _ => Py.dict_set key (merge_json (JObj b') value) b
           | _, _ => Py.dict_set key value b
           end)
    end.

Definition _merge_config (base override : data) : data :=
  match merge_json (JObj base) (JObj override) with
  | JObj merged => merged
  | _ => base
  end.

Definition required_fields : list string :=
  ["agiloft.base_url"; "agiloft.username"; "agiloft.password"; "agiloft.kb"].

(** [validate()]. *)
Definition validate (d : data) : bool :=
  let missing_fields :=
    filter (fun field => match get d field JNull with
                         | Ok value => negb (PyJson.truthy value)
                         | Raise _ => true
                         end) required_fields in
  match missing_fields with
  | [] => true
  | _ => false
  end.

(** [__str__()] up to the call of [json.dumps]: the dictionary that is
    printed, and the configuration afterwards.  [to_dict()] copies the
    top level only, so the nested dictionary under ["agiloft"] is the
    one of the configuration itself. *)
Definition masked (d : data) : Result json * data :=
  let safe_config := d in
  match Py.dict_get "agiloft" safe_config with
  | None => (Ok (JObj safe_config), d)
  | Some section =>
      match PyJson.contains section "password" with
      | Raise x => (Raise x, d)
      | Ok false => (Ok (JObj safe_config), d)
      | Ok true =>
          match PyJson.setitem section "password" (JStr "***masked***") with
          | Raise x => (Raise x, d)
          | Ok section' =>
              let shared := Py.dict_set "agiloft" section' d in
              (Ok (JObj shared), shared)
          end
      end
  end.

(** The table of [_load_from_environment], in the order of its items. *)
Definition env_mappings : list (string * string) :=
  [("AGILOFT_BASE_URL", "agiloft.base_url"); ("AGILOFT_USERNAME", "agiloft.username");
   ("AGILOFT_PASSWORD", "agiloft.password"); ("AGILOFT_KB", "agiloft.kb");
   ("AGILOFT_LANGUAGE", "agiloft.language")].

Section Environment.

(** [int(value)] and [float(value)]: the number a string denotes,
    [None] where Python raises [ValueError]; the syntax of numbers is
    not modelled. *)
Variable py_int : string -> option Z.
Variable py_float : string -> option SpecFloat.spec_float.

(** [_convert_type(value, existing_value)]; [bool] is tested before
    [int]. *)
Definition _convert_type (value : string) (existing_value : json) : Result json :=
  match existing_value with
  | JNull => Ok (JStr value)
  | JBool _ =>
      Ok (JBool (existsb (String.eqb (PyJson.lower value)) ["true"; "1"; "yes"; "on"]))
  | JNum _ =>
      match py_int value with
      | Some n => Ok (JNum n)
      | None => Raise (PyError "ValueError")
      end
  | JFloat _ =>
      match py_float value with
      | Some f => Ok (JFloat f)
      | None => Raise (PyError "ValueError")
      end
  | _ => Ok (JStr value)
  end.

(** The loop of [_set_nested_value] over [keys[:-1]], followed by
    [current[final_key] = self._convert_type(value, current.get(final_key))],
    whose right-hand side is evaluated first. *)
Fixpoint set_nested_keys (init : list string) (final_key : string) (value : string)
    (current : json) : Result unit * json :=
  match init with
  | [] =>
      match PyJson.get current final_key JNull with
      | Raise x => (Raise x, current)
      | Ok existing_value =>
          match _convert_type value existing_value with
          | Raise x => (Raise x, current)
          | Ok converted =>
              match PyJson.setitem current final_key converted with
              | Ok current' => (Ok tt, current')
              | Raise x => (Raise x, current)
              end
          end
      end
  | key :: rest =>
      match PyJson.contains current key with
      | Raise x => (Raise x, current)
      | Ok present =>
          match (if present then Ok current else PyJson.setitem current key (JObj [])) with
          | Raise x => (Raise x, current)
          | Ok current1 =>
              match PyJson.getitem current1 key with
              | Raise x => (Raise x, current1)
              | Ok child =>
                  let (r, child') := set_nested_keys rest final_key value child in
                  (r, match PyJson.setitem current1 key child' with
                      | Ok current2 => current2
                      | Raise _ => current1
                      end)
              end
          end
      end
  end.

(** [_set_nested_value(path, value)]. *)
Definition _set_nested_value (d : data) (path value : string) : Result unit * data :=
  let keys := PyJson.split "." path in
  match set_nested_keys (removelast keys) (last keys "") value (JObj d) with
  | (r, JObj d') => (r, d')
  | (r, _) => (r, d)
  end.

(** The loop of [_load_from_environment] over the items of a table;
    [environ] is the environment of the process. *)
Fixpoint load_mappings (mappings : list (string * string)) (environ : Py.dict string)
    (d : data) : Result unit * data :=
  match mappings with
  | [] => (Ok tt, d)
  | (env_var, config_path) :: rest =>
      match Py.dict_get env_var environ with
      | None => load_mappings rest environ d
      | Some env_value =>
          match _set_nested_value d config_path env_value with
          | (Ok _, d') => load_mappings rest environ d'
          | (Raise x, d') => (Raise x, d')
          end
      end
  end.

(** [_load_from_environment()]. *)
Definition _load_from_environment (environ : Py.dict string) (d : data)
  : Result unit * data :=
  load_mappings env_mappings environ d.

End Environment.

End Config.

(** The settings an environment variable can replace, and those among
    them whose present value does not direct a conversion: the setting
    is absent, or is neither a boolean nor a number. *)
Definition setting_names : list string :=
  ["base_url"; "username"; "password"; "kb"; "language"].

Definition untyped (fields : Py.dict json) (k : string) : bool :=
  match Py.dict_get k fields with
  | Some (JBool _) | Some (JNum _) | Some (JFloat _) => false
  | _ => true
  end.

(** ** The configuration as a graph of objects

    [set] and [get] walk the dictionaries themselves.  A dictionary is
    an object with an address; a value that is a dictionary is its
    address, so a dictionary stored under two keys is one object, and
    what [set] does to it through one key shows under the other.  Lists
    are not subscripted by the walks and are kept as values. *)

Module ConfigObjects.

Inductive value : Type :=
| VNull
| VBool (b : bool)
| VNum (n : Z)
| VFloat (f : SpecFloat.spec_float)
| VStr (s : string)
| VList (items : list value)
| VDict (address : nat).

(** The dictionaries, by address. *)
Definition heap : Type := list (Py.dict value).

(** The heap in which the dictionary at [a] has become [d]. *)
Fixpoint store (a : nat) (d : Py.dict value) (h : heap) {struct h} : heap :=
  match h, a with
  | [], _ => []
  | _ :: rest, O => d :: rest
  | x :: rest, S a' => x :: store a' d rest
  end.

(** A [Config]: the address of [self._config_data], and the objects. *)
Record Config : Type := { _config_data : nat; objects : heap }.

(** A heap is well formed when the configuration, and every dictionary
    stored in a dictionary, is one of its objects.  An address that is
    not the address of an object counts, for the operations below, as a
    value that is not a dictionary. *)
Definition is_object (h : heap) (v : value) : bool :=
  match v with
  | VDict a => (a <? List.length h)%nat
  | _ => true
  end.

Definition well_formed (c : Config) : bool :=
  is_object (objects c) (VDict (_config_data c)) &&
  forallb (forallb (fun entry => is_object (objects c) (snd entry))) (objects c).

(** The dictionary a value is, with its address. *)
Definition dictionary (h : heap) (v : value) : option (nat * Py.dict value) :=
  match v with
  | VDict a =>
      match nth_error h a with
      | Some d => Some (a, d)
      | None => None
      end
  | _ => None
  end.

Definition is_str (key : string) (v : value) : bool :=
  match v with
  | VStr s => (s =? key)%string
  | _ => false
  end.

(** [key in container], [container[key]] and [container[key] = v] for a
    string [key], as in [PyJson]. *)
Definition contains (h : heap) (container : value) (key : string) : Result bool :=
  match dictionary h container, container with
  | Some (_, d), _ => Ok (Py.dict_mem key d)
  | None, VList items => Ok (existsb (is_str key) items)
  | None, VStr s => Ok (Py.contains key s)
  | None, _ => Raise (PyError "TypeError")
  end.

Definition getitem (h : heap) (container : value) (key : string) : Result value :=
  match dictionary h container with
  | Some (_, d) =>
      match Py.dict_get key d with
      | Some v => Ok v
      | None => Raise (PyError "KeyError")
      end
  | None => Raise (PyError "TypeError")
  end.

Definition setitem (h : heap) (container : value) (key : string) (v : value)
  : Result unit * heap :=
  match dictionary h container with
  | Some (a, d) => (Ok tt, store a (Py.dict_set key v d) h)
  | None => (Raise (PyError "TypeError"), h)
  end.

(** [for key in keys: current = current[key]]. *)
Fixpoint walk (h : heap) (keys : list string) (current : value) : Result value :=
  match keys with
  | [] => Ok current
  | key :: rest =>
      match getitem h current key with
      | Ok child => walk h rest child
      | Raise x => Raise x
      end
  end.

(** [get(path, default)]. *)
Definition get (c : Config) (path : string) (default : value) : Result value :=
  match walk (objects c) (PyJson.split "." path) (VDict (_config_data c)) with
  | Ok v => Ok v
  | Raise (PyError "KeyError") | Raise (PyError "TypeError") => Ok default
  | Raise x => Raise x
  end.

(** The loop of [set] over [keys[:-1]] and the assignment to
    [current[keys[-1]]].  [current[key] = {}] makes a new dictionary,
    at the next free address, and stores it; when the assignment
    raises, nothing refers to the new dictionary and it is left out. *)
Fixpoint set_keys (init : list string) (last : string) (v : value) (current : value)
    (h : heap) : Result unit * heap :=
  match init with
  | [] => setitem h current last v
  | key :: rest =>
      match contains h current key with
      | Raise x => (Raise x, h)
      | Ok present =>
          match (if present then (Ok tt, h)
                 else setitem (h ++ [[]])%list current key (VDict (List.length h))) with
          | (Raise x, _) => (Raise x, h)
          | (Ok _, h1) =>
              match getitem h1 current key with
              | Raise x => (Raise x, h1)
              | Ok child => set_keys rest last v child h1
              end
          end
      end
  end.

(** [set(path, value)]. *)
Definition set (c : Config) (path : string) (v : value) : Result unit * Config :=
  let keys := PyJson.split "." path in
  let (r, h) := set_keys (removelast keys) (last keys "") v (VDict (_config_data c))
                  (objects c) in
  (r, {| _config_data := _config_data c; objects := h |}).

(** The value under a key of the dictionary at an address. *)
Definition entry (h : heap) (a : nat) (key : string) : option value :=
  match nth_error h a with
  | Some d => Py.dict_get key d
  | None => None
  end.

(** The entries, a dictionary and a key each, that the walk of [get]
    reads. *)
Fixpoint reads (h : heap) (keys : list string) (current : value) : list (nat * string) :=
  match keys with
  | [] => []
  | key :: rest =>
      match dictionary h current with
      | Some (a, d) =>
          (a, key) :: match Py.dict_get key d with
                      | Some child => reads h rest child
                      | None => []
                      end
      | None => []
      end
  end.

(** The entry that [set] assigns in a dictionary that exists: the first
    key of the path that the dictionary reached does not have, else the
    last key, in the dictionary the walk ends in; none when the walk
    meets a value that is not a dictionary. *)
Fixpoint written (h : heap) (init : list string) (last : string) (current : value)
  : option (nat * string) :=
  match dictionary h current with
  | None => None
  | Some (a, d) =>
      match init with
      | [] => Some (a, last)
      | key :: rest =>
          match Py.dict_get key d with
          | Some child => written h rest last child
          | None => Some (a, key)
          end
      end
  end.

Definition written_by (c : Config) (path : string) : option (nat * string) :=
  let keys := PyJson.split "." path in
  written (objects c) (removelast keys) (last keys "") (VDict (_config_data c)).

Definition read_by (c : Config) (path : string) : list (nat * string) :=
  reads (objects c) (PyJson.split "." path) (VDict (_config_data c)).

End ConfigObjects.

(** ** The contract methods of [AgiloftClient]: what they make of a reply

    Each contract method awaits [_make_request] and then examines the
    decoded reply; these are the examinations, as functions of the
    reply.  [repr v] stands for [str(v)] of a value that is not a
    string; the text it produces is not modelled. *)

Module Contracts.

Section Replies.

Variable repr : json -> string.

(** [str(v)], as in an f-string. *)
Definition py_str (v : json) : string :=
  match v with
  | JStr s => s
  | _ => repr v
  end.

Definition and_then {A B} (r : Result A) (k : A -> Result B) : Result B :=
  match r with
  | Ok a => k a
  | Raise x => Raise x
  end.

(** Lines 609-612 of [search_contracts]. *)
Definition search_contracts_reply (response : json) : Result json :=
  and_then (PyJson.get response "success" (JBool false)) (fun success =>
  if negb (PyJson.truthy success) then
    and_then (PyJson.get response "message" (JStr "Unknown error")) (fun message =>
    Raise (AgiloftAPIError ("Search failed: " ++ py_str message) None None))
  else
    PyJson.get response "result" (JArr [])).

(** [[error.get('message', str(error)) for error in errors]] for a list
    [errors]. *)
Fixpoint error_messages (errors : list json) : Result (list json) :=
  match errors with
  | [] => Ok []
  | error :: rest =>
      and_then (PyJson.get error "message" (JStr (py_str error))) (fun m =>
      and_then (error_messages rest) (fun ms => Ok (m :: ms)))
  end.

(** The strings of a list all of whose items are strings. *)
Fixpoint all_strings (items : list json) : option (list string) :=
  match items with
  | [] => Some []
  | JStr s :: rest =>
      match all_strings rest with
      | Some ss => Some (s :: ss)
      | None => None
      end
  | _ :: _ => None
  end.

(** ["; ".join([error.get('message', str(error)) for error in errors])]:
    iterating a non-empty dictionary or string yields strings, which
    have no [get]; numbers and booleans cannot be iterated. *)
Definition error_details (errors : json) : Result string :=
  match errors with
  | JArr items =>
      and_then (error_messages items) (fun ms =>
      match all_strings ms with
      | Some ss => Ok (PyJson.join "; " ss)
      | None => Raise (PyError "TypeError")
      end)
  | JObj _ | JStr _ => Raise (PyError "AttributeError")
  | _ => Raise (PyError "TypeError")
  end.

(** The characters of a string, as the items [list += str] appends. *)
Fixpoint characters (s : string) : list json :=
  match s with
  | EmptyString => []
  | String c rest => JStr (String c "") :: characters rest
  end.

(** [error_msg += suffix] for a string [suffix]. *)
Definition add_suffix (error_msg : json) (suffix : string) : Result json :=
  match error_msg with
  | JStr s => Ok (JStr (s ++ suffix))
  | JArr items => Ok (JArr (items ++ characters suffix))
  | _ => Raise (PyError "TypeError")
  end.

(** The common body of [create_contract] (lines 660-668),
    [update_contract] (lines 674-682) and [delete_contract] (lines
    692-700): [label] opens the message, [assumed] is the default of
    [response.get('success', ...)]. *)
Definition checked_reply (label : string) (assumed : bool) (response : json) : Result json :=
  and_then (PyJson.get response "success" (JBool assumed)) (fun success =>
  if negb (PyJson.truthy success) then
    and_then (PyJson.get response "message" (JStr "Unknown error")) (fun error_msg =>
    and_then (PyJson.get response "errors" (JArr [])) (fun errors =>
    and_then (if PyJson.truthy errors then
                and_then (error_details errors) (fun details =>
                add_suffix error_msg (" - " ++ details))
              else Ok error_msg) (fun error_msg =>
    Raise (AgiloftAPIError (label ++ py_str error_msg) None None))))
  else Ok response).

Definition create_contract_reply : json -> Result json := checked_reply "Create failed: " true.
Definition update_contract_reply : json -> Result json := checked_reply "Update failed: " true.
Definition delete_contract_reply : json -> Result json := checked_reply "Delete failed: " false.

(** Lines 629-644 of [get_contract], for a reply that is a dictionary:
    the contract is looked for under ["result"], then under
    ["contract"], then the reply itself is taken if it has an ["id"]. *)
Definition select_contract (reply : Py.dict json) : Result json :=
  if Py.dict_mem "result" reply then PyJson.getitem (JObj reply) "result"
  else if Py.dict_mem "contract" reply then PyJson.getitem (JObj reply) "contract"
  else if Py.dict_mem "id" reply then Ok (JObj reply)
  else Raise (AgiloftAPIError
                ("Contract not found in response. Response keys: "
                 ++ repr (JArr (map (fun kv => JStr (fst kv)) reply)))
                None None).

(** Lines 648-651: the loop that copies the requested fields. *)
Fixpoint filter_fields (fields : list string) (contract : json) (filtered : Py.dict json)
  : Result (Py.dict json) :=
  match fields with
  | [] => Ok filtered
  | field :: rest =>
      and_then (PyJson.contains contract field) (fun present =>
      if present then
        and_then (PyJson.getitem contract field) (fun v =>
        filter_fields rest contract (Py.dict_set field v filtered))
      else filter_fields rest contract filtered)
  end.

(** Lines 626-654 of [get_contract].  The debug message of line 626 is
    formatted whatever the log level and reads [response.keys()], which
    a reply that is not a dictionary does not have. *)
Definition get_contract_reply (response : json) (fields : option (list string))
  : Result json :=
  match response with
  | JObj reply =>
      and_then (select_contract reply) (fun contract =>
      match fields with
      | Some (field :: rest) =>
          and_then (filter_fields (field :: rest) contract []) (fun filtered =>
          Ok (JObj filtered))
      | _ => Ok contract
      end)
  | _ => Raise (PyError "AttributeError")
  end.

End Replies.

End Contracts.

(** The text under ["message"] of an entry of [errors]. *)
Definition message_text (entry : json) : string :=
  match entry with
  | JObj fields =>
      match Py.dict_get "message" fields with
      | Some (JStr t) => t
      | _ => ""
      end
  | _ => ""
  end.

(** An entry of [errors] of the expected form: a dictionary with a
    string under ["message"]. *)
Definition well_formed_entry (entry : json) : bool :=
  match entry with
  | JObj fields =>
      match Py.dict_get "message" fields with
      | Some (JStr _) => true
      | _ => false
      end
  | _ => false
  end.

Definition is_dict (v : json) : bool :=
  match v with
  | JObj _ => true
  | _ => false
  end.

(** The URL, the headers and the first request of
    [_make_request(method, endpoint, **kwargs)] for a client object
    [c], and the retry of that request with the headers of a token. *)
Definition request_url (c : Client) (endpoint : string) : string :=
  base_url (cfg c) ++ "/" ++ Py.lstrip_slash endpoint.

Definition request_headers (c : Client) (kwargs : RequestArgs) : Py.dict string :=
  match k_headers kwargs with
  | Some h => Py.dict_update (auth_headers (access_token c)) h
  | None => auth_headers (access_token c)
  end.

Definition first_call (method endpoint : string) (kwargs : RequestArgs) (c : Client)
  : HttpCall :=
  api_call method (request_url c endpoint) (request_params c kwargs)
    (request_headers c kwargs) (k_json kwargs).

Definition retry_call (method endpoint : string) (kwargs : RequestArgs) (c : Client)
    (token : option string) : HttpCall :=
  api_call method (request_url c endpoint) (request_params c kwargs)
    (auth_headers token) (k_json kwargs).

(** The environment in which [_make_request], entered in [e] with a
    valid token, resumes from its first request. *)
Definition after_first_call (orc : Oracle) (method endpoint : string)
    (kwargs : RequestArgs) (e : Env) : Env :=
  resumed orc (first_call method endpoint kwargs (self e))
    {| self := set_session true (self e); world := world e |}.

(** The parameters the caller gave to [_make_request]. *)
Definition given_params (kwargs : RequestArgs) : Py.dict string :=
  match k_params kwargs with
  | Some p => p
  | None => []
  end.

(** ** More scenarios *)

Module Cases.

Import Scenario.

(** A service client in client-credentials mode. *)
Definition machine_settings : Settings :=
  {| base_url := "https://acme.example/ewws/alrest/demo";
     kb := "demo"; language := "en"; auth_method := "oauth2_client_credentials";
     username := ""; password := "";
     oauth2_client_id := Some "client-1"; oauth2_client_secret := Some "s3cret";
     oauth2_token_endpoint := Some "https://acme.example/ewws/otoken";
     oauth2_authorization_endpoint := None;
     oauth2_redirect_uri := "http://localhost:8080/callback";
     oauth2_scope := "" |}.

Definition machine (access refresh : option string) (expires : option Z) : Env :=
  {| self := {| cfg := machine_settings; session := false; access_token := access;
                refresh_token := refresh; token_expires_at := expires;
                api_access_point := None |};
     world := dawn 0 |}.

Definition token_granted : Oracle :=
  scripted [answered (response 200 "{...}" (Some (grant (Some "A1") None (ExpSeconds 900))))] [].


Definition empty_grant_reply : JObject :=
  {| o_repr := "{}"; o_success := false; o_message := None;
     o_result := ResultAbsent; o_grant := empty_grant |}.

Definition no_token_granted : Oracle :=
  scripted [answered (response 200 "{}" (Some (Object empty_grant_reply)))] [].



(** Nothing answers and no callback arrives. *)
Definition silence : Oracle := scripted [] [].

(** The genuine callback alone, and the exchange answered. *)
Definition genuine_only : Oracle :=
  scripted [answered (response 200 "{...}" (Some (grant (Some "A1") (Some "R1") ExpAbsent)))]
           [[genuine]].

(** A 401, then the refresh granted, then the retry answered. *)
Definition expired_then_refreshed : Oracle :=
  scripted [answered unauthorized;
            answered (response 200 "{...}" (Some (grant (Some "A2") None (ExpSeconds 900))));
            answered (response 200 "{}" (Some empty_dict))] [].

Definition no_repr (v : json) : string := "?".


(** An empty configuration and an empty dictionary of the caller, at
    address 1, which the caller stores under ["a"] and under ["b"]. *)
Definition stored_twice : ConfigObjects.Config :=
  snd (ConfigObjects.set
         (snd (ConfigObjects.set
                 {| ConfigObjects._config_data := 0; ConfigObjects.objects := [[]; []] |}
                 "a" (ConfigObjects.VDict 1)))
         "b" (ConfigObjects.VDict 1)).

(** An [int] and a [float] that accept no string. *)
Definition no_integers (s : string) : option Z := None.
Definition no_floats (s : string) : option SpecFloat.spec_float := None.

Definition failure_report : Py.dict json :=
  [("success", JBool false); ("message", JStr "Validation failed");
   ("errors", JArr [JObj [("message", JStr "title is required")];
                    JObj [("message", JStr "amount must be a number")]])].

Definition malformed_report : Py.dict json :=
  [("success", JBool false); ("errors", JArr [JStr "title is required"])].

End Cases.

(** * Properties *)

Ltac unfold_monad :=
  cbv [bind ret raise get_self modify_self modify_world datetime_now emit
       try_except try_finally ensure_session reraise_as_auth_error
       expires_delta now_plus response_json].

(** Case analysis on the innermost scrutinee of the goal. *)
(** The cases of the two range tests of an expiry. *)
Ltac in_range :=
  repeat match goal with
         | |- context [if timedelta_fits ?n then _ else _] =>
             destruct (timedelta_fits n) eqn:?; simpl; try discriminate
         | |- context [if datetime_fits ?t then _ else _] =>
             destruct (datetime_fits t) eqn:?; simpl; try discriminate
         end.

Ltac break_match :=
  repeat match goal with
         | |- context [match ?x with _ => _ end] =>
             lazymatch x with
             | context [match _ with _ => _ end] => fail
             | _ => destruct x eqn:?; simpl in *
             end
         end.

Lemma opt_eqb_eq (a b : option string) : opt_eqb a b = true <-> a = b.
Proof.
  destruct a as [x|], b as [y|]; simpl; split; intros H; try congruence.
  - apply String.eqb_eq in H. congruence.
  - inversion H. apply String.eqb_refl.
Qed.

Lemma opt_eqb_neq (a b : option string) : opt_eqb a b = false <-> a <> b.
Proof.
  split; intros H.
  - intros E. apply opt_eqb_eq in E. congruence.
  - destruct (opt_eqb a b) eqn:E; [apply opt_eqb_eq in E; contradiction | reflexivity].
Qed.

(** ** Strings *)

Lemma prefix_app (p s : string) : String.prefix p (p ++ s) = true.
Proof.
  induction p as [|a p IH]; simpl.
  - destruct s; reflexivity.
  - destruct (ascii_dec a a); [exact IH | contradiction].
Qed.

Lemma prefix_split (p s : string) :
  String.prefix p s = true -> exists rest, s = p ++ rest.
Proof.
  revert s. induction p as [|a p IH]; intros s H.
  - exists s. reflexivity.
  - destruct s as [|b s]; simpl in H; [discriminate|].
    destruct (ascii_dec a b); [|discriminate]. subst b.
    destruct (IH s H) as [rest ->]. exists rest. reflexivity.
Qed.

(** [split_head] returns all of its argument when the separator does
    not occur in it. *)
Lemma split_head_absent (sep s : string) :
  Py.contains sep s = false -> Py.split_head sep s = s.
Proof.
  induction s as [|c s IH]; simpl; intros H.
  - apply orb_false_iff in H. destruct H as [H _]. rewrite H. reflexivity.
  - apply orb_false_iff in H. destruct H as [H1 H2]. rewrite H1.
    rewrite (IH H2). reflexivity.
Qed.

Lemma split_head_unfold (sep s : string) :
  Py.split_head sep s =
  if String.prefix sep s then ""
  else match s with
       | EmptyString => ""
       | String c rest => String c (Py.split_head sep rest)
       end.
Proof. destruct s; reflexivity. Qed.

(** [split_head] cuts at the first occurrence of the separator. *)
Lemma split_head_first (sep p rest : string) :
  (forall p' rest', (p ++ sep ++ rest = p' ++ sep ++ rest') ->
                    (String.length p <= String.length p')%nat) ->
  Py.split_head sep (p ++ sep ++ rest) = p.
Proof.
  induction p as [|c p IH]; intros Hmin; rewrite split_head_unfold.
  - change ("" ++ sep ++ rest) with (sep ++ rest). rewrite prefix_app. reflexivity.
  - destruct (String.prefix sep (String c p ++ sep ++ rest)) eqn:Hp.
    + apply prefix_split in Hp. destruct Hp as [r Hr].
      specialize (Hmin "" r Hr). simpl in Hmin. lia.
    + change (String c (Py.split_head sep (p ++ sep ++ rest)) = String c p).
      f_equal. apply IH. intros p' rest' E.
      specialize (Hmin (String c p') rest'). simpl in Hmin.
      rewrite E in Hmin. specialize (Hmin eq_refl). lia.
Qed.

(** ** Runs and the log *)

Lemma count_events_app P (a b : list Event) :
  count_events P (a ++ b)%list = (count_events P a + count_events P b)%nat.
Proof. unfold count_events. rewrite filter_app, length_app. reflexivity. Qed.

Section Runs.

Variable orc : Oracle.

Lemma transport_env (c : HttpCall) (e : Env) :
  snd (transport orc c e) = resumed orc c e.
Proof. unfold transport, resumed. destruct (outcome _); reflexivity. Qed.

Lemma transport_answered (c : HttpCall) (e : Env) (r : Response) :
  outcome (net orc (served (world e))) = Answered r ->
  transport orc c e = (Ok r, resumed orc c e).
Proof. intros H. unfold transport, resumed. rewrite H. reflexivity. Qed.

Section AtMost.

Variable P : Event -> bool.


Lemma at_most_silent {A} (m : M A) :
  (forall e, world (snd (m e)) = world e) -> at_most P 0 m.
Proof.
  intros H e. exists []. rewrite H, app_nil_r. split; [reflexivity | apply Nat.le_refl].
Qed.

Lemma at_most_bind {A B} (n k : nat) (m : M A) (f : A -> M B) :
  at_most P n m -> (forall a, at_most P k (f a)) -> at_most P (n + k) (bind m f).
Proof.
  intros Hm Hf e. unfold bind. destruct (Hm e) as [evs [E C]].
  destruct (m e) as [[a|x] e1]; simpl in *.
  - destruct (Hf a e1) as [evs' [E' C']]. exists (evs ++ evs')%list.
    rewrite E', E, app_assoc, count_events_app. split; [reflexivity | lia].
  - exists evs. split; [exact E | lia].
Qed.

Lemma at_most_try_except {A} (n k : nat) (m : M A) (h : exn -> option (M A)) :
  at_most P n m -> (forall x m', h x = Some m' -> at_most P k m') ->
  at_most P (n + k) (try_except m h).
Proof.
  intros Hm Hh e. unfold try_except. destruct (Hm e) as [evs [E C]].
  destruct (m e) as [[a|x] e1]; simpl in *.
  - exists evs. split; [exact E | lia].
  - destruct (h x) as [m'|] eqn:Hx.
    + destruct (Hh x m' Hx e1) as [evs' [E' C']]. exists (evs ++ evs')%list.
      rewrite E', E, app_assoc, count_events_app. split; [reflexivity | lia].
    + exists evs. split; [exact E | lia].
Qed.

Lemma at_most_transport (c : HttpCall) :
  at_most P (if P (EvHttp c) then 1 else 0) (transport orc c).
Proof.
  intros e. exists [EvHttp c]. rewrite transport_env. split; [reflexivity|].
  unfold count_events. simpl. destruct (P (EvHttp c)); simpl; lia.
Qed.

Lemma at_most_bind0 {A B} (m : M A) (f : A -> M B) :
  at_most P 0 m -> (forall a, at_most P 0 (f a)) -> at_most P 0 (bind m f).
Proof. intros Hm Hf. apply (at_most_bind 0 0); assumption. Qed.

Lemma at_most_try_except0 {A} (m : M A) (h : exn -> option (M A)) :
  at_most P 0 m -> (forall x m', h x = Some m' -> at_most P 0 m') ->
  at_most P 0 (try_except m h).
Proof. intros Hm Hh. apply (at_most_try_except 0 0); assumption. Qed.

Lemma at_most_transport0 (c : HttpCall) :
  P (EvHttp c) = false -> at_most P 0 (transport orc c).
Proof. intros H. generalize (at_most_transport c). rewrite H. auto. Qed.

End AtMost.

(** One step of a proof that a coroutine appends no event of a kind. *)
Ltac silent_step :=
  match goal with
  | |- at_most _ 0 (bind _ _) => apply at_most_bind0; [| intros ?]
  | |- at_most _ 0 (try_except _ _) => apply at_most_try_except0; [| intros ? ? ?]
  | |- at_most _ 0 (reraise_as_auth_error _ _) =>
      unfold reraise_as_auth_error; apply at_most_try_except0; [| intros ? ? ?]
  | |- at_most _ 0 (transport _ _) => apply at_most_transport0; reflexivity
  | |- at_most _ 0 (expires_delta _) => unfold expires_delta
  | |- at_most _ 0 (now_plus _) => unfold now_plus
  | |- at_most _ 0 (response_json _) => unfold response_json
  | H : (if ?b then _ else _) = Some _ |- _ => destruct b; inversion H; subst; clear H
  | H : None = Some _ |- _ => discriminate H
  | H : Some _ = Some _ |- _ => inversion H; subst; clear H
  | |- at_most _ 0 (if ?b then _ else _) => destruct b
  | |- at_most _ 0 (match ?x with _ => _ end) => destruct x
  | |- at_most _ 0 _ => apply at_most_silent; intros; reflexivity
  end.













(** ** Proactive renewal *)


Lemma ensure_authenticated_valid (e : Env) :
  needs_renewal (now (world e)) (self e) = false ->
  ensure_authenticated orc e = (Ok tt, e).
Proof.
  intros H. destruct e as [c w]; simpl in *.
  unfold ensure_authenticated. unfold_monad. simpl. rewrite H. reflexivity.
Qed.

Lemma refresh_without_token (e : Env) :
  Py.truthy (refresh_token (self e)) = false ->
  _refresh_access_token orc e =
  (Raise (AgiloftAuthError "No refresh token available for token refresh"), e).
Proof.
  intros H. destruct e as [c w]. unfold _refresh_access_token. unfold_monad.
  simpl in *. rewrite H. reflexivity.
Qed.

Lemma refresh_world (e : Env) :
  Py.truthy (refresh_token (self e)) = true ->
  world (snd (_refresh_access_token orc e)) =
  world (resumed orc (refresh_call (set_session true (self e))) e).
Proof.
  intros H. destruct e as [c w]. unfold _refresh_access_token. unfold_monad.
  simpl in *. rewrite H. simpl. unfold transport. simpl.
  break_match; reflexivity.
Qed.

Lemma refresh_raises_auth_error (e : Env) (x : exn) (e' : Env) :
  _refresh_access_token orc e = (Raise x, e') -> is_auth_error x = true.
Proof.
  destruct e as [c w]. unfold _refresh_access_token. unfold_monad. simpl.
  destruct (Py.truthy (refresh_token c)); simpl.
  - match goal with |- context [match ?m with _ => _ end] => destruct m as [[a|y] e1] end.
    + congruence.
    + destruct (is_auth_error y) eqn:Hy; intros H; inversion H; subst; auto.
  - intros H; inversion H; reflexivity.
Qed.

(** What [refresh_or_forget] does, by the outcome of the refresh. *)
Lemma refresh_or_forget_ok (e e1 : Env) :
  _refresh_access_token orc e = (Ok tt, e1) ->
  refresh_or_forget orc e = (Ok true, e1).
Proof. intros H. unfold refresh_or_forget. unfold_monad. rewrite H. reflexivity. Qed.

Lemma refresh_or_forget_failed (e e1 : Env) (x : exn) :
  _refresh_access_token orc e = (Raise x, e1) ->
  refresh_or_forget orc e =
  (Ok false, {| self := set_refresh_token None (self e1); world := world e1 |}).
Proof.
  intros H. unfold refresh_or_forget. unfold_monad. rewrite H.
  rewrite (refresh_raises_auth_error _ _ _ H). reflexivity.
Qed.


Lemma ensure_authenticated_renews_by_authenticate (e : Env) :
  needs_renewal (now (world e)) (self e) = true ->
  Py.truthy (refresh_token (self e)) = false ->
  ensure_authenticated orc e = _authenticate orc e.
Proof.
  intros Hn Ht. destruct e as [c w]; simpl in *.
  unfold ensure_authenticated, bind, datetime_now, get_self, ret; simpl.
  rewrite Hn, Ht. reflexivity.
Qed.

(** ** Authorization-code mode without a refresh token *)

Lemma authenticate_manual (e : Env) :
  auth_method (cfg (self e)) = "oauth2_authorization_code" ->
  Py.truthy (refresh_token (self e)) = false ->
  _authenticate orc e = (Raise (AgiloftAuthError manual_auth_message), e).
Proof.
  intros Hm Hr. destruct e as [c w]; simpl in *.
  unfold _authenticate. unfold_monad. simpl. rewrite Hm, Hr. reflexivity.
Qed.

(** C6: in authorization-code mode with no refresh token held,
    [_authenticate] raises the [AgiloftAuthError] that tells the caller
    to run [authenticate_with_browser()] first, and so does
    [ensure_authenticated] when it is entered without a valid access
    token.  The environment is left as it was: nothing is appended to
    the log, so no browser is opened and the transport is not used. *)
Theorem authorization_code_requires_manual_flow (e : Env) :
  auth_method (cfg (self e)) = "oauth2_authorization_code" ->
  Py.truthy (refresh_token (self e)) = false ->
  _authenticate orc e = (Raise (AgiloftAuthError manual_auth_message), e) /\
  (needs_renewal (now (world e)) (self e) = true ->
   ensure_authenticated orc e = (Raise (AgiloftAuthError manual_auth_message), e)).
Proof.
  intros Hm Hr. split.
  - apply authenticate_manual; assumption.
  - intros Hn. rewrite ensure_authenticated_renews_by_authenticate by assumption.
    apply authenticate_manual; assumption.
Qed.


(** ** Logout *)

(** What [logout] does: when a non-empty access token is held it
    returns normally with the access token, the refresh token, the
    expiry and the learned access point all absent, whatever the
    transport did with the logout request; when no access token is held
    it returns at once and changes nothing, its whole body being under
    [if self.access_token:]. *)
Lemma logout_clears_a_held_session (e : Env) :
  (Py.truthy (access_token (self e)) = true ->
   fst (logout orc e) = Ok tt /\
   tokens_of (self (snd (logout orc e))) =
   {| t_access_token := None; t_refresh_token := None;
      t_expires_at := None; t_api_access_point := None |}) /\
  (Py.truthy (access_token (self e)) = false -> logout orc e = (Ok tt, e)).
Proof.
  split; intros H; destruct e as [c w]; simpl in *;
    unfold logout, bind, get_self; simpl; rewrite H.
  - unfold try_finally, try_except, bind, ret, modify_self.
    destruct (_make_request orc "POST" "/logout" no_kwargs _) as [[d|x] e1];
      simpl; split; reflexivity.
  - reflexivity.
Qed.

(** ** The request cycle *)

Lemma conclude_env (label : string) (r : Response) (e : Env) :
  snd (conclude label r e) = e.
Proof.
  unfold conclude. unfold_monad. destruct e as [c w]. break_match; reflexivity.
Qed.

Lemma get_auth_headers_ok (e : Env) :
  Py.truthy (access_token (self e)) = true ->
  _get_auth_headers e = (Ok (auth_headers (access_token (self e))), e).
Proof.
  intros H. destruct e as [c w]; simpl in *.
  unfold _get_auth_headers. unfold_monad. simpl. rewrite H. reflexivity.
Qed.

Lemma get_auth_headers_missing (e : Env) :
  Py.truthy (access_token (self e)) = false ->
  _get_auth_headers e = (Raise (AgiloftAuthError "No access token available"), e).
Proof.
  intros H. destruct e as [c w]; simpl in *.
  unfold _get_auth_headers. unfold_monad. simpl. rewrite H. reflexivity.
Qed.

Lemma needs_renewal_valid (t_now t : Z) (c : Client) (a : string) :
  access_token c = Some a -> token_expires_at c = Some t ->
  remaining t_now t > timedelta_seconds 60 ->
  needs_renewal t_now c = false.
Proof.
  intros Ha Ht H. unfold needs_renewal, remaining, timedelta_seconds, timedelta_minutes in *.
  rewrite Ha, Ht. simpl. rewrite Z.geb_leb. apply Z.leb_gt. lia.
Qed.

Lemma make_request_valid_self (method endpoint : string) (kwargs : RequestArgs)
    (e e' : Env) (a : string) (t : Z) (res : Result Data) :
  access_token (self e) = Some a ->
  token_expires_at (self e) = Some t ->
  remaining (now (world e)) t > timedelta_seconds 60 ->
  (forall r, outcome (net orc (served (world e))) = Answered r -> status r <> 401) ->
  _make_request orc method endpoint kwargs e = (res, e') ->
  self e' = set_session true (self e) \/
  self e' = interfere (meanwhile (net orc (served (world e)))) (set_session true (self e)).
Proof.
  intros Ha Ht Hv H401.
  pose proof (needs_renewal_valid _ _ _ _ Ha Ht Hv) as Hn.
  unfold _make_request.
  unfold bind at 1. rewrite (ensure_authenticated_valid e Hn).
  destruct e as [c w]; simpl in *.
  unfold bind at 1. unfold ensure_session, modify_self at 1. simpl.
  unfold bind at 1. unfold get_self at 1. simpl.
  unfold bind at 1.
  destruct (Py.truthy (Some a)) eqn:Htr.
  - rewrite get_auth_headers_ok by (simpl; rewrite Ha; exact Htr). simpl.
    unfold try_except, bind, transport. simpl.
    destruct (outcome (net orc (served w))) as [r|m|m] eqn:Ho; simpl.
    + specialize (H401 r eq_refl). apply Z.eqb_neq in H401.
      unfold on_response. rewrite H401.
      match goal with
      | |- context [conclude ?l ?r ?e] =>
          pose proof (conclude_env l r e) as Hc; destruct (conclude l r e) as [[d|x] e1]
      end; simpl in *; subst e1.
      * intros E; inversion E; subst. right; reflexivity.
      * destruct x; intros E; inversion E; subst; right; reflexivity.
    + intros E; inversion E; subst. right; reflexivity.
    + intros E; inversion E; subst. right; reflexivity.
  - rewrite get_auth_headers_missing by (simpl; rewrite Ha; exact Htr).
    intros E; inversion E; subst. left; reflexivity.
Qed.

(** C10: when [_make_request] is entered with an access token that has
    more than 60 seconds of validity left and the request is not
    answered with status 401 (it is answered with another status, or the
    transport fails), the call writes none of [access_token],
    [refresh_token], [token_expires_at] and [api_access_point]: after
    the call they are what they were before it, unless another
    coroutine wrote them while the request was in flight, in which case
    they are what that coroutine stored. *)
Theorem make_request_frame (method endpoint : string) (kwargs : RequestArgs)
    (e : Env) (a : string) (t : Z) :
  access_token (self e) = Some a ->
  token_expires_at (self e) = Some t ->
  remaining (now (world e)) t > timedelta_seconds 60 ->
  (forall r, outcome (net orc (served (world e))) = Answered r -> status r <> 401) ->
  (tokens_of (self (snd (_make_request orc method endpoint kwargs e))) = tokens_of (self e) \/
   meanwhile (net orc (served (world e))) =
   Some (tokens_of (self (snd (_make_request orc method endpoint kwargs e))))) /\
  (meanwhile (net orc (served (world e))) = None ->
   tokens_of (self (snd (_make_request orc method endpoint kwargs e))) = tokens_of (self e)).
Proof.
  intros Ha Ht Hv H401.
  assert (G : tokens_of (self (snd (_make_request orc method endpoint kwargs e)))
              = tokens_of (self e) \/
              meanwhile (net orc (served (world e))) =
              Some (tokens_of (self (snd (_make_request orc method endpoint kwargs e))))).
  { destruct (_make_request orc method endpoint kwargs e) as [res e'] eqn:E.
    cbn [snd].
    destruct (make_request_valid_self _ _ _ _ _ _ _ _ Ha Ht Hv H401 E) as [H | H];
      rewrite H; [left; reflexivity|].
    destruct (meanwhile (net orc (served (world e)))) as [[ta tr te tp]|];
      [right | left]; reflexivity. }
  split; [exact G|].
  intros Hq. destruct G as [G | G]; [exact G | congruence].
Qed.

Lemma handle_unauthorized_stale (snapshot : option string) (e : Env) :
  access_token (self e) <> snapshot ->
  handle_unauthorized orc snapshot e = (Ok tt, e).
Proof.
  intros H. apply opt_eqb_neq in H. destruct e as [c w]; simpl in *.
  unfold handle_unauthorized. unfold_monad. simpl. rewrite H. reflexivity.
Qed.

Lemma retry_request_log (method url : string) (params : Py.dict string)
    (body : option string) (e : Env) :
  Py.truthy (access_token (self e)) = true ->
  log (world (snd (retry_request orc method url params body e))) =
  (log (world e) ++
   [EvHttp (api_call method url params (auth_headers (access_token (self e))) body)])%list.
Proof.
  intros H. unfold retry_request. unfold bind at 1.
  rewrite (get_auth_headers_ok e H). unfold bind.
  match goal with
  | |- context [transport orc ?c ?e] =>
      pose proof (transport_env c e) as Ht; destruct (transport orc c e) as [[r|x] e1]
  end; simpl in Ht; subst e1.
  - rewrite conclude_env. reflexivity.
  - reflexivity.
Qed.

Lemma retry_request_without_token (method url : string) (params : Py.dict string)
    (body : option string) (e : Env) :
  Py.truthy (access_token (self e)) = false ->
  retry_request orc method url params body e =
  (Raise (AgiloftAuthError "No access token available"), e).
Proof.
  intros H. unfold retry_request. unfold bind at 1.
  rewrite (get_auth_headers_missing e H). reflexivity.
Qed.

(** C1, as amended: when a 401 is received and the stored access token
    differs from the snapshot taken before the request, the 401 block
    returns at once and leaves the environment as it was (no refresh or
    authentication request is sent, the token state including the
    refresh token is untouched), and control passes to the retry step.
    The retry step sends the request once more, with the stored token,
    when that token is non-empty; when it is absent or empty it raises
    the [AgiloftAuthError] "No access token available" and nothing is
    sent.  The 401 block appends to the log only when the stored access
    token equals the snapshot. *)
Theorem stale_snapshot_skips_renewal (method url : string) (params : Py.dict string)
    (body snapshot : option string) (r : Response) (e : Env) :
  status r = 401 ->
  (access_token (self e) <> snapshot ->
   handle_unauthorized orc snapshot e = (Ok tt, e) /\
   on_response orc method url params body snapshot r e =
   retry_request orc method url params body e /\
   (Py.truthy (access_token (self e)) = true ->
    log (world (snd (retry_request orc method url params body e))) =
    (log (world e) ++
     [EvHttp (api_call method url params (auth_headers (access_token (self e))) body)])%list) /\
   (Py.truthy (access_token (self e)) = false ->
    retry_request orc method url params body e =
    (Raise (AgiloftAuthError "No access token available"), e))) /\
  (log (world (snd (handle_unauthorized orc snapshot e))) <> log (world e) ->
   access_token (self e) = snapshot).
Proof.
  intros H401. split.
  - intros Hneq. pose proof (handle_unauthorized_stale snapshot e Hneq) as Hh.
    split; [exact Hh|]. split.
    + unfold on_response. rewrite H401. simpl. unfold bind at 1. rewrite Hh. reflexivity.
    + split; [apply retry_request_log | apply retry_request_without_token].
  - intros Hlog. destruct (opt_eqb (access_token (self e)) snapshot) eqn:E.
    + apply opt_eqb_eq. exact E.
    + apply opt_eqb_neq in E. rewrite (handle_unauthorized_stale snapshot e E) in Hlog.
      contradiction.
Qed.

(** ** Refresh *)

Lemma authenticate_without_refresh_token (e : Env) :
  Py.truthy (refresh_token (self e)) = false ->
  exists evs,
    log (world (snd (_authenticate orc e))) = (log (world e) ++ evs)%list /\
    count_events is_refresh_grant evs = 0%nat.
Proof.
  intros H.
  assert (Hcc : at_most is_refresh_grant 0 (_authenticate_oauth2_client_credentials orc))
    by (unfold _authenticate_oauth2_client_credentials; repeat silent_step).
  assert (Hl : at_most is_refresh_grant 0 (_authenticate_legacy orc))
    by (unfold _authenticate_legacy; repeat silent_step).
  assert (G : exists evs,
             log (world (snd (_authenticate orc e))) = (log (world e) ++ evs)%list /\
             (count_events is_refresh_grant evs <= 0)%nat).
  { destruct e as [c w]; simpl in *.
    unfold _authenticate, bind, get_self; simpl.
    destruct (auth_method (cfg c) =? "oauth2_client_credentials")%string.
    - apply Hcc.
    - destruct (auth_method (cfg c) =? "oauth2_authorization_code")%string.
      + rewrite H. simpl. exists []. rewrite app_nil_r. split; [reflexivity | apply Nat.le_refl].
      + apply Hl. }
  destruct G as [evs [E C]]. exists evs. split; [exact E | lia].
Qed.

(** C3: when the refresh attempted by [ensure_authenticated] or by the
    401 block of [_make_request] fails, the failure is an
    [AgiloftAuthError], and what runs next is [_authenticate] in the
    environment the refresh left with [refresh_token] set to [None];
    that run of [_authenticate] sends no request with
    [grant_type=refresh_token]. *)
Theorem failed_refresh_token_is_forgotten (snapshot : option string)
    (e e1 : Env) (x : exn) :
  Py.truthy (refresh_token (self e)) = true ->
  _refresh_access_token orc e = (Raise x, e1) ->
  is_auth_error x = true /\
  refresh_token (set_refresh_token None (self e1)) = None /\
  (needs_renewal (now (world e)) (self e) = true ->
   ensure_authenticated orc e =
   _authenticate orc {| self := set_refresh_token None (self e1); world := world e1 |}) /\
  (access_token (self e) = snapshot ->
   handle_unauthorized orc snapshot e =
   _authenticate orc {| self := set_refresh_token None (self e1); world := world e1 |}) /\
  exists evs,
    log (world (snd (_authenticate orc
                       {| self := set_refresh_token None (self e1); world := world e1 |}))) =
    (log (world e1) ++ evs)%list /\
    count_events is_refresh_grant evs = 0%nat.
Proof.
  intros Ht Hr. pose proof (refresh_raises_auth_error _ _ _ Hr) as Hx.
  split; [exact Hx|]. split; [reflexivity|]. split; [|split].
  - intros Hn. pose proof (refresh_or_forget_failed _ _ _ Hr) as Hf.
    destruct e as [c w]; simpl in *.
    unfold ensure_authenticated, bind, datetime_now, get_self; simpl.
    rewrite Hn, Ht, Hf. reflexivity.
  - intros Hs. apply opt_eqb_eq in Hs. destruct e as [c w]; simpl in *.
    unfold handle_unauthorized, bind, get_self, try_except, modify_self; simpl.
    rewrite Hs, Ht. simpl. rewrite Hr, Hx. reflexivity.
  - apply (authenticate_without_refresh_token
             {| self := set_refresh_token None (self e1); world := world e1 |}).
    reflexivity.
Qed.

Lemma refresh_log (e : Env) :
  log (world (snd (_refresh_access_token orc e))) =
  (log (world e) ++
   if Py.truthy (refresh_token (self e))
   then [EvHttp (refresh_call (set_session true (self e)))] else [])%list.
Proof.
  destruct (Py.truthy (refresh_token (self e))) eqn:H.
  - rewrite (refresh_world e H). reflexivity.
  - rewrite (refresh_without_token e H). simpl. rewrite app_nil_r. reflexivity.
Qed.

Lemma refresh_form_token (c : Client) :
  Py.dict_get "refresh_token" (refresh_form c) = Some (refresh_token c).
Proof. reflexivity. Qed.

Lemma refresh_success (e e' : Env) :
  _refresh_access_token orc e = (Ok tt, e') ->
  exists r data,
    outcome (net orc (served (world e))) = Answered r /\
    json_loads r = Some (Object data) /\
    Py.truthy (g_access_token (o_grant data)) = true /\
    world e' = world (resumed orc (refresh_call (set_session true (self e))) e) /\
    access_token (self e') = g_access_token (o_grant data) /\
    token_expires_at (self e') =
      Some (now (world e') + timedelta_seconds (lifetime (g_expires_in (o_grant data)))) /\
    refresh_token (self e') =
      if Py.truthy (g_refresh_token (o_grant data)) then g_refresh_token (o_grant data)
      else refresh_token (interfere (meanwhile (net orc (served (world e)))) (self e)).
Proof.
  destruct e as [c w]. unfold _refresh_access_token. unfold_monad. simpl.
  destruct (Py.truthy (refresh_token c)); simpl; [|discriminate].
  unfold transport, resumed. simpl.
  destruct (outcome (net orc (served w))) as [r|m|m] eqn:Ho; simpl; try discriminate.
  destruct (status r =? 200); simpl; [|discriminate].
  destruct (Py.contains "application/json" (content_type r)); simpl; [|discriminate].
  destruct (json_loads r) as [[|data]|] eqn:Hj; simpl; try discriminate.
  destruct (Py.truthy (g_access_token (o_grant data))) eqn:Ha; simpl; [|discriminate].
  destruct (g_expires_in (o_grant data)) eqn:Hx; simpl; try discriminate; in_range;
    destruct (Py.truthy (g_refresh_token (o_grant data))) eqn:Hr; simpl;
    intros H; inversion H; subst; clear H; exists r, data; simpl;
    rewrite ?Hx, ?Hr; simpl; repeat split; try assumption; try reflexivity;
    destruct (meanwhile (net orc (served w))); reflexivity.
Qed.

(** C4: after a successful [_refresh_access_token] the stored access
    token is the (non-empty) one of the response, the stored expiry is
    the completion time plus the [expires_in] of the response (900
    seconds when the response has none), and the stored refresh token is
    the one of the response when the response carries a non-empty one,
    and otherwise the one that was stored when the response arrived.
    The request carried the refresh token stored at the time of the
    call, so a refresh that follows sends the token stored now: after a
    rotation, the new one. *)
Theorem refresh_replaces_token_state (e e' : Env) :
  _refresh_access_token orc e = (Ok tt, e') ->
  (exists r data,
     outcome (net orc (served (world e))) = Answered r /\
     json_loads r = Some (Object data) /\
     Py.truthy (g_access_token (o_grant data)) = true /\
     access_token (self e') = g_access_token (o_grant data) /\
     token_expires_at (self e') =
       Some (now (world e') + timedelta_seconds (lifetime (g_expires_in (o_grant data)))) /\
     refresh_token (self e') =
       if Py.truthy (g_refresh_token (o_grant data)) then g_refresh_token (o_grant data)
       else refresh_token (interfere (meanwhile (net orc (served (world e)))) (self e))) /\
  log (world e') =
    (log (world e) ++ [EvHttp (refresh_call (set_session true (self e)))])%list /\
  Py.dict_get "refresh_token" (refresh_form (set_session true (self e))) =
    Some (refresh_token (self e)) /\
  log (world (snd (_refresh_access_token orc e'))) =
    (log (world e') ++
     if Py.truthy (refresh_token (self e'))
     then [EvHttp (refresh_call (set_session true (self e')))] else [])%list /\
  Py.dict_get "refresh_token" (refresh_form (set_session true (self e'))) =
    Some (refresh_token (self e')).
Proof.
  intros H. destruct (refresh_success e e' H) as (r & data & Ho & Hj & Ha & Hw & Hacc & Hexp & Href).
  split; [exists r, data; repeat split; assumption|].
  split; [rewrite Hw; reflexivity|].
  split; [reflexivity|].
  split; [apply refresh_log | reflexivity].
Qed.

(** ** Final responses *)






Lemma make_request_unfolded (method endpoint : string) (kwargs : RequestArgs)
    (e e0 : Env) (r : Response) :
  ensure_authenticated orc e = (Ok tt, e0) ->
  Py.truthy (access_token (self e0)) = true ->
  outcome (net orc (served (world e0))) = Answered r ->
  let url := base_url (cfg (self e0)) ++ "/" ++ Py.lstrip_slash endpoint in
  let params := request_params (self e0) kwargs in
  let headers := match k_headers kwargs with
                 | Some h => Py.dict_update (auth_headers (access_token (self e0))) h
                 | None => auth_headers (access_token (self e0))
                 end in
  let e1 := {| self := set_session true (self e0); world := world e0 |} in
  _make_request orc method endpoint kwargs e =
  guarded method url
    (on_response orc method url params (k_json kwargs) (access_token (self e0)) r
       (resumed orc (api_call method url params headers (k_json kwargs)) e1)).
Proof.
  intros He Ht Ho. simpl. unfold _make_request.
  unfold bind at 1. rewrite He.
  destruct e0 as [c w]; simpl in *.
  unfold bind at 1. unfold ensure_session, modify_self at 1. simpl.
  unfold bind at 1. unfold get_self at 1. simpl.
  unfold bind at 1.
  rewrite get_auth_headers_ok by exact Ht. simpl.
  unfold try_except. unfold bind at 1.
  rewrite transport_answered with (r := r) by exact Ho.
  simpl. change (request_params (set_session true c) kwargs) with (request_params c kwargs).
  match goal with |- context [on_response ?a ?b ?c ?d ?f ?g ?h ?i] =>
    destruct (on_response a b c d f g h i) as [[v|x] e2] end; simpl.
  - reflexivity.
  - destruct x; reflexivity.
Qed.

Lemma guarded_env (method url : string) {A} (r : Result A * Env) :
  snd (guarded method url r) = snd r.
Proof. destruct r as [[a|x] e]; reflexivity. Qed.



(** ** The token endpoint of a refresh *)

Lemma refresh_token_url_session (c : Client) :
  refresh_token_url (set_session true c) = refresh_token_url c.
Proof. reflexivity. Qed.

(** C7: [_refresh_access_token] posts to the configured OAuth2 token
    endpoint when one is set; otherwise to the learned
    [api_access_point] followed by [/ewws/otoken]; otherwise to the base
    URL cut before the first [/ewws/alrest] (the whole base URL when the
    marker does not occur) followed by [/ewws/otoken]. *)
Theorem refresh_token_endpoint_priority (e : Env) :
  Py.truthy (refresh_token (self e)) = true ->
  (exists c,
     log (world (snd (_refresh_access_token orc e))) = (log (world e) ++ [EvHttp c])%list /\
     verb c = "POST" /\ url c = refresh_token_url (self e)) /\
  (Py.truthy (oauth2_token_endpoint (cfg (self e))) = true ->
   refresh_token_url (self e) = oauth2_token_endpoint (cfg (self e))) /\
  (Py.truthy (oauth2_token_endpoint (cfg (self e))) = false ->
   forall a, api_access_point (self e) = Some a -> a <> "" ->
   refresh_token_url (self e) = Some (a ++ "/ewws/otoken")) /\
  (Py.truthy (oauth2_token_endpoint (cfg (self e))) = false ->
   Py.truthy (api_access_point (self e)) = false ->
   refresh_token_url (self e) =
   Some (Py.split_head "/ewws/alrest" (base_url (cfg (self e))) ++ "/ewws/otoken")) /\
  (Py.contains "/ewws/alrest" (base_url (cfg (self e))) = false ->
   Py.split_head "/ewws/alrest" (base_url (cfg (self e))) = base_url (cfg (self e))) /\
  (forall p rest,
     base_url (cfg (self e)) = p ++ "/ewws/alrest" ++ rest ->
     (forall p' rest', p ++ "/ewws/alrest" ++ rest = p' ++ "/ewws/alrest" ++ rest' ->
                       (String.length p <= String.length p')%nat) ->
     Py.split_head "/ewws/alrest" (base_url (cfg (self e))) = p).
Proof.
  intros Ht. split.
  { exists (refresh_call (set_session true (self e))).
    rewrite (refresh_world e Ht). repeat split; reflexivity. }
  unfold refresh_token_url. split; [intros ->; reflexivity|].
  split.
  { intros -> a Ha Hne. rewrite Ha. simpl.
    apply String.eqb_neq in Hne. rewrite Hne. reflexivity. }
  split; [intros -> ->; reflexivity|].
  split; [apply split_head_absent|].
  intros p rest -> Hmin. apply split_head_first. exact Hmin.
Qed.

(** ** The browser flow *)

Lemma captured_after_app (a b : list Query) (cap : Captured) :
  captured_after (a ++ b)%list cap = captured_after b (captured_after a cap).
Proof. unfold captured_after. apply fold_left_app. Qed.

Lemma captured_after_last (qs : list Query) (q : Query) (cap : Captured) :
  auth_code (captured_after (qs ++ [q])%list cap) = q_code q /\
  received_state (captured_after (qs ++ [q])%list cap) = q_state q.
Proof.
  rewrite captured_after_app. simpl. unfold handle_callback.
  break_match; split; reflexivity.
Qed.

Lemma serve_spec (qs : list Query) (cap : Captured) (w : World) :
  fst (serve qs cap w) = captured_after qs cap /\
  now (snd (serve qs cap w)) = now w /\
  served (snd (serve qs cap w)) = served w /\
  slept (snd (serve qs cap w)) = slept w /\
  exists evs, log (snd (serve qs cap w)) = (log w ++ evs)%list /\
              count_events is_http evs = 0%nat.
Proof.
  revert cap w. induction qs as [|q qs IH]; intros cap w; simpl.
  - repeat split. exists []. rewrite app_nil_r. split; reflexivity.
  - destruct (handle_callback q cap) as [cap' page] eqn:Hq.
    destruct (IH cap' (record (EvCallback page) w)) as (Hc & Hn & Hs & Hl & evs & E & C).
    replace (fst (handle_callback q cap)) with cap' by (rewrite Hq; reflexivity).
    repeat split; try assumption.
    exists (EvCallback page :: evs). rewrite E. simpl. rewrite <- app_assoc.
    split; [reflexivity | exact C].
Qed.

Lemma sleep_spec (cap : Captured) (e : Env) :
  exists e',
    sleep_half_second orc cap e =
      (Ok (captured_after (arrivals orc (slept (world e))) cap), e') /\
    self e' = self e /\
    served (world e') = served (world e) /\
    slept (world e') = S (slept (world e)) /\
    now (world e') >= now (world e) + 500000 /\
    exists evs, log (world e') = (log (world e) ++ evs)%list /\
                count_events is_http evs = 0%nat.
Proof.
  unfold sleep_half_second.
  pose proof (N2Z.is_nonneg (overrun orc (slept (world e)))) as Hpos.
  set (d := Z.of_N (overrun orc (slept (world e)))) in *.
  match goal with |- context [serve ?qs ?c ?w] =>
    destruct (serve_spec qs c w) as (Hc & Hn & Hs & Hl & evs & E & C);
    destruct (serve qs c w) as [cap' w'] end.
  cbn [fst snd tick next_sleep record now served slept log] in *.
  eexists. split; [rewrite <- Hc; reflexivity|].
  cbn [self world].
  repeat split; try assumption.
  - rewrite Hn. lia.
  - exists (EvSleep :: evs). rewrite E, <- app_assoc. split; [reflexivity | exact C].
Qed.

Lemma wait_for_code_spec (fuel : nat) (start_time : Z) (cap : Captured) (e : Env) :
  exists n e',
    wait_for_code orc fuel start_time cap e =
      (Ok (captured_after (served_during orc (slept (world e)) n) cap), e') /\
    self e' = self e /\
    served (world e') = served (world e) /\
    slept (world e') = (slept (world e) + n)%nat /\
    exists evs, log (world e') = (log (world e) ++ evs)%list /\
                count_events is_http evs = 0%nat.
Proof.
  revert cap e. induction fuel as [|fuel IH]; intros cap e.
  - exists 0%nat, e. simpl. repeat split; [lia|].
    exists []. rewrite app_nil_r. split; reflexivity.
  - cbn [wait_for_code]. unfold bind at 1. unfold datetime_now at 1.
    destruct (is_none (auth_code cap) && (now (world e) - start_time <? timedelta_seconds 300)).
    + unfold bind.
      destruct (sleep_spec cap e) as (e1 & Hs & Hself & Hserved & Hslept & _ & evs & E & C).
      rewrite Hs.
      destruct (IH (captured_after (arrivals orc (slept (world e))) cap) e1)
        as (n & e' & Hw & Hself' & Hserved' & Hslept' & evs' & E' & C').
      exists (S n), e'. simpl. rewrite captured_after_app.
      rewrite Hslept in Hw. rewrite Hw. repeat split; try congruence; [lia|].
      exists (evs ++ evs')%list. rewrite E', E, app_assoc, count_events_app.
      split; [reflexivity | lia].
    + exists 0%nat, e. simpl. unfold ret. repeat split; [lia|].
      exists []. rewrite app_nil_r. split; reflexivity.
Qed.

(** The fuel of the wait loop is never what ends it: with [wait_fuel]
    tests the loop ends because a code arrived or the 300 seconds have
    passed. *)
Lemma wait_for_code_exit (fuel : nat) (start_time : Z) (cap cap' : Captured) (e e' : Env) :
  now (world e) - start_time + 500000 * Z.of_nat fuel > timedelta_seconds 300 ->
  wait_for_code orc fuel start_time cap e = (Ok cap', e') ->
  auth_code cap' <> None \/ now (world e') - start_time >= timedelta_seconds 300.
Proof.
  unfold timedelta_seconds.
  revert cap e. induction fuel as [|fuel IH]; intros cap e H.
  - cbn [wait_for_code]. unfold ret. intros E; inversion E; subst. right. lia.
  - cbn [wait_for_code]. unfold bind at 1. unfold datetime_now at 1.
    destruct (is_none (auth_code cap)) eqn:Hc; cbn [andb].
    + destruct (now (world e) - start_time <? timedelta_seconds 300) eqn:Ht.
      * unfold bind.
        destruct (sleep_spec cap e) as (e1 & Hs & _ & _ & _ & Hnow & _).
        rewrite Hs. apply IH. lia.
      * unfold ret. intros E; inversion E; subst. right.
        apply Z.ltb_ge in Ht. unfold timedelta_seconds in Ht. lia.
    + unfold ret. intros E; inversion E; subst. left.
      destruct (auth_code cap'); discriminate.
Qed.

Lemma wait_fuel_suffices (cap cap' : Captured) (e e' : Env) :
  wait_for_code orc wait_fuel (now (world e)) cap e = (Ok cap', e') ->
  auth_code cap' <> None \/ now (world e') - now (world e) >= timedelta_seconds 300.
Proof.
  apply wait_for_code_exit. unfold wait_fuel, timedelta_seconds. lia.
Qed.

Lemma exchange_code_slept (code : string) (hint : option string) (e : Env) :
  slept (world (snd (_exchange_code_for_token orc code hint e))) = slept (world e).
Proof.
  destruct e as [c w]. unfold _exchange_code_for_token. unfold_monad. simpl.
  unfold transport. simpl. destruct (Py.truthy hint); simpl; break_match; reflexivity.
Qed.

(** The environment in which the wait loop of [authenticate_with_browser]
    starts. *)
Lemma authenticate_with_browser_unfolded (e : Env) :
  exists n e1,
    let cap := captured_after (served_during orc (slept (world e)) n) nothing_captured in
    let e2 := {| self := self e1; world := record EvServerCleanup (world e1) |} in
    self e1 = self e /\
    served (world e1) = served (world e) /\
    slept (world e1) = (slept (world e) + n)%nat /\
    (exists evs, log (world e1) = (log (world e) ++ evs)%list /\
                 count_events is_http evs = 0%nat) /\
    authenticate_with_browser orc e =
    match auth_code cap with
    | None => (Raise (AgiloftAuthError "Authorization timeout - no code received"), e2)
    | Some code =>
        if negb (opt_eqb (received_state cap) (Some (token_urlsafe orc))) then
          (Raise (AgiloftAuthError "State parameter mismatch - possible CSRF attack"), e2)
        else
          (_exchange_code_for_token orc code (hint_api_access_point cap) ;; ret true) e2
    end.
Proof.
  destruct e as [c w].
  set (w0 := record (EvBrowserOpen (oauth2_authorization_endpoint (cfg c))
                       (auth_params c (token_urlsafe orc)))
               (record (EvServerStart (oauth2_redirect_uri (cfg c))) w)).
  destruct (wait_for_code_spec wait_fuel (now w) nothing_captured {| self := c; world := w0 |})
    as (n & e1 & Hw & Hself & Hserved & Hslept & evs & E & C).
  exists n, e1. cbn [self world] in *. repeat split; try assumption.
  - exists (EvServerStart (oauth2_redirect_uri (cfg c))
            :: EvBrowserOpen (oauth2_authorization_endpoint (cfg c))
                 (auth_params c (token_urlsafe orc)) :: evs).
    rewrite E. unfold w0. simpl. rewrite <- !app_assoc. split; [reflexivity | exact C].
  - unfold authenticate_with_browser.
    unfold bind at 1. unfold get_self at 1. cbn [self world].
    unfold bind at 1. unfold emit at 1, modify_world at 1. cbn [self world].
    unfold bind at 1. unfold emit at 1, modify_world at 1. cbn [self world].
    unfold bind at 1. unfold datetime_now at 1. cbn [self world].
    change (now (record _ (record _ w))) with (now w).
    fold w0. unfold bind at 1. rewrite Hw.
    unfold bind at 1. unfold emit at 1, modify_world at 1. cbn [self world].
    destruct (auth_code _); [|reflexivity].
    destruct (negb _); reflexivity.
Qed.

(** C8, as amended: when the last callback served before the wait of
    [authenticate_with_browser] ends delivers a code together with a
    state that differs from the nonce generated for the flow, the
    coroutine raises the state-mismatch [AgiloftAuthError]; the last
    event of the run is the teardown of the callback server, no HTTP
    request has been sent, so the token exchange did not take place,
    and the client object is as it was. *)
Theorem forged_state_is_rejected (e : Env) (qs : list Query) (q : Query) (code : string) :
  served_during orc (slept (world e))
    (slept (world (snd (authenticate_with_browser orc e))) - slept (world e)) =
    (qs ++ [q])%list ->
  q_code q = Some code ->
  q_state q <> Some (token_urlsafe orc) ->
  fst (authenticate_with_browser orc e) =
    Raise (AgiloftAuthError "State parameter mismatch - possible CSRF attack") /\
  self (snd (authenticate_with_browser orc e)) = self e /\
  served (world (snd (authenticate_with_browser orc e))) = served (world e) /\
  exists evs,
    log (world (snd (authenticate_with_browser orc e))) =
      (log (world e) ++ evs ++ [EvServerCleanup])%list /\
    count_events is_http evs = 0%nat.
Proof.
  intros Hlast Hcode Hstate.
  destruct (authenticate_with_browser_unfolded e)
    as (n & e1 & Hself & Hserved & Hslept & (evs & E & C) & Hrun).
  cbv zeta in Hrun.
  assert (Hn : (slept (world (snd (authenticate_with_browser orc e))) - slept (world e))%nat = n).
  { rewrite Hrun. destruct (auth_code _); [destruct (negb _)|]; simpl.
    - lia.
    - unfold bind.
      match goal with |- context [_exchange_code_for_token orc ?a ?b ?c] =>
        pose proof (exchange_code_slept a b c) as Hx;
        destruct (_exchange_code_for_token orc a b c) as [[u|x] e3] end; simpl in *; lia.
    - lia. }
  rewrite Hn in Hlast. rewrite Hlast in Hrun.
  destruct (captured_after_last qs q nothing_captured) as [Hc Hs].
  rewrite Hc, Hcode, Hs in Hrun.
  apply opt_eqb_neq in Hstate. rewrite Hstate in Hrun. simpl in Hrun.
  rewrite Hrun. simpl. repeat split; try assumption.
  exists evs. rewrite E, app_assoc. split; [reflexivity | exact C].
Qed.

End Runs.

(** ** The properties at work *)

Import Scenario.

Lemma stale_snapshot_skips_renewal_witness :
  status unauthorized = 401 /\
  handle_unauthorized ok_body (Some "A1") already_refreshed = (Ok tt, already_refreshed) /\
  log (world (snd (retry_request ok_body "GET" "https://acme.example/x" [] None
                     already_refreshed))) =
  [EvHttp (api_call "GET" "https://acme.example/x" [] (auth_headers (Some "A2")) None)].
Proof.
  assert (H401 : status unauthorized = 401) by reflexivity.
  assert (Hneq : access_token (self already_refreshed) <> Some "A1") by discriminate.
  pose proof (stale_snapshot_skips_renewal ok_body "GET" "https://acme.example/x" [] None
                (Some "A1") unauthorized already_refreshed H401) as [H _].
  destruct (H Hneq) as (Hh & _ & Hlog & _).
  split; [exact H401|]. split; [exact Hh|]. exact (Hlog eq_refl).
Defined.

(** C1, as stated, fails: the 401 arrives after a concurrent logout has
    cleared the token attributes, so the stored access token differs
    from the snapshot A1; no refresh or authentication request is sent,
    but no retry is sent either: the run ends with "No access token
    available" after the one request. *)
Lemma stale_snapshot_without_retry :
  outcome (net concurrent_logout 0) = Answered unauthorized /\
  status unauthorized = 401 /\
  access_token (self held) = Some "A1" /\
  access_token (self (snd request_during_logout)) <> Some "A1" /\
  fst request_during_logout = Raise (AgiloftAuthError "No access token available") /\
  count_events is_api_request (log (world (snd request_during_logout))) = 1%nat /\
  count_events is_http (log (world (snd request_during_logout))) = 1%nat.
Proof.
  repeat split; try reflexivity. vm_compute. discriminate.
Qed.



Lemma failed_refresh_token_is_forgotten_witness :
  Py.truthy (refresh_token (self sixty_left)) = true /\
  _refresh_access_token refresh_rejected sixty_left =
    (Raise (AgiloftAuthError "Token refresh failed: 400 - invalid_grant"),
     snd (_refresh_access_token refresh_rejected sixty_left)) /\
  ensure_authenticated refresh_rejected sixty_left =
  _authenticate refresh_rejected
    {| self := set_refresh_token None (self (snd (_refresh_access_token refresh_rejected sixty_left)));
       world := world (snd (_refresh_access_token refresh_rejected sixty_left)) |}.
Proof.
  assert (Ht : Py.truthy (refresh_token (self sixty_left)) = true) by reflexivity.
  assert (Hr : _refresh_access_token refresh_rejected sixty_left =
               (Raise (AgiloftAuthError "Token refresh failed: 400 - invalid_grant"),
                snd (_refresh_access_token refresh_rejected sixty_left)))
    by (vm_compute; reflexivity).
  destruct (failed_refresh_token_is_forgotten refresh_rejected (Some "A1") _ _ _ Ht Hr)
    as (_ & _ & H & _).
  split; [exact Ht|]. split; [exact Hr|]. exact (H eq_refl).
Defined.

Lemma refresh_replaces_token_state_witness :
  _refresh_access_token refresh_granted sixty_left =
    (Ok tt, snd (_refresh_access_token refresh_granted sixty_left)) /\
  log (world (snd (_refresh_access_token refresh_granted sixty_left))) =
    (log (world sixty_left) ++ [EvHttp (refresh_call (set_session true (self sixty_left)))])%list.
Proof.
  assert (Hr : _refresh_access_token refresh_granted sixty_left =
               (Ok tt, snd (_refresh_access_token refresh_granted sixty_left)))
    by (vm_compute; reflexivity).
  destruct (refresh_replaces_token_state refresh_granted _ _ Hr) as (_ & H & _).
  split; [exact Hr | exact H].
Defined.


Lemma authorization_code_requires_manual_flow_witness :
  auth_method (cfg (self fresh_browser_client)) = "oauth2_authorization_code" /\
  Py.truthy (refresh_token (self fresh_browser_client)) = false /\
  _authenticate ok_body fresh_browser_client =
  (Raise (AgiloftAuthError manual_auth_message), fresh_browser_client).
Proof.
  split; [reflexivity|]. split; [reflexivity|].
  exact (proj1 (authorization_code_requires_manual_flow ok_body fresh_browser_client
                  eq_refl eq_refl)).
Defined.

Lemma refresh_token_endpoint_priority_witness :
  Py.truthy (refresh_token (self sixty_left)) = true /\
  refresh_token_url (self sixty_left) =
  Some (Py.split_head "/ewws/alrest" (base_url (cfg (self sixty_left))) ++ "/ewws/otoken") /\
  Py.split_head "/ewws/alrest" (base_url (cfg (self sixty_left))) = "https://acme.example".
Proof.
  destruct (refresh_token_endpoint_priority refresh_granted sixty_left eq_refl)
    as (_ & _ & _ & H & _).
  split; [reflexivity|]. split; [exact (H eq_refl eq_refl) | reflexivity].
Defined.

Lemma forged_state_is_rejected_witness :
  served_during forged_only (slept (world fresh_browser_client))
    (slept (world (snd (authenticate_with_browser forged_only fresh_browser_client)))
     - slept (world fresh_browser_client)) = ([] ++ [forged])%list /\
  q_code forged = Some "EVIL" /\
  q_state forged <> Some (token_urlsafe forged_only) /\
  fst (authenticate_with_browser forged_only fresh_browser_client) =
    Raise (AgiloftAuthError "State parameter mismatch - possible CSRF attack").
Proof.
  assert (H1 : served_during forged_only (slept (world fresh_browser_client))
                 (slept (world (snd (authenticate_with_browser forged_only
                                       fresh_browser_client)))
                  - slept (world fresh_browser_client)) = ([] ++ [forged])%list)
    by (vm_compute; reflexivity).
  assert (H3 : q_state forged <> Some (token_urlsafe forged_only)) by discriminate.
  split; [exact H1|]. split; [reflexivity|]. split; [exact H3|].
  exact (proj1 (forged_state_is_rejected forged_only fresh_browser_client [] forged "EVIL"
                  H1 eq_refl H3)).
Defined.

(** C8, as stated, fails: a callback delivers a code with a state that
    differs from the nonce, the genuine callback is served during the
    same sleep, and the flow goes on to the token exchange with the
    genuine code and returns [True]. *)
Lemma forged_callback_overwritten :
  In forged (arrivals forged_then_genuine 0) /\
  q_code forged = Some "EVIL" /\
  q_state forged <> Some (token_urlsafe forged_then_genuine) /\
  fst (authenticate_with_browser forged_then_genuine fresh_browser_client) = Ok true /\
  filter is_http
    (log (world (snd (authenticate_with_browser forged_then_genuine fresh_browser_client)))) =
  [EvHttp (exchange_call (self fresh_browser_client) "GOOD" (Some ""))].
Proof.
  split; [left; reflexivity|]. split; [reflexivity|]. split; [discriminate|].
  split; vm_compute; reflexivity.
Qed.

(** C9: the claim fails of the code.  With no access token held, but
    a refresh token and an expiry recorded, [logout] returns at once
    and clears nothing: the assignments that forget the tokens are in
    the [finally] clause under [if self.access_token:].  The client is
    not unauthenticated afterwards: its next request renews the session
    with the refresh token that [logout] was to forget, and is
    served. *)
Theorem logout_keeps_refresh_token :
  access_token (self refresh_token_only) = None /\
  logout refreshed_then_served refresh_token_only = (Ok tt, refresh_token_only) /\
  refresh_token (self (snd (logout refreshed_then_served refresh_token_only))) = Some "R1" /\
  token_expires_at (self (snd (logout refreshed_then_served refresh_token_only))) =
    Some (timedelta_seconds 900) /\
  fst (_make_request refreshed_then_served "GET" "/contract/1" no_kwargs
         (snd (logout refreshed_then_served refresh_token_only))) = Ok empty_dict /\
  map is_refresh_grant
    (log (world (snd (_make_request refreshed_then_served "GET" "/contract/1" no_kwargs
                        (snd (logout refreshed_then_served refresh_token_only)))))) =
    [true; false] /\
  Py.dict_get "refresh_token" (refresh_form (self refresh_token_only)) = Some (Some "R1").
Proof. repeat split; vm_compute; reflexivity. Qed.

Lemma make_request_frame_witness :
  access_token (self held) = Some "A1" /\
  token_expires_at (self held) = Some (timedelta_seconds 900) /\
  remaining (now (world held)) (timedelta_seconds 900) > timedelta_seconds 60 /\
  (forall r, outcome (net ok_body (served (world held))) = Answered r -> status r <> 401) /\
  meanwhile (net ok_body (served (world held))) = None /\
  tokens_of (self (snd (_make_request ok_body "GET" "/contract/1" no_kwargs held))) =
  tokens_of (self held).
Proof.
  assert (H3 : remaining (now (world held)) (timedelta_seconds 900) > timedelta_seconds 60)
    by reflexivity.
  assert (H5 : forall r, outcome (net ok_body (served (world held))) = Answered r ->
                         status r <> 401)
    by (intros r E; inversion E; subst; discriminate).
  split; [reflexivity|]. split; [reflexivity|]. split; [exact H3|].
  split; [exact H5|]. split; [reflexivity|].
  exact (proj2 (make_request_frame ok_body "GET" "/contract/1" no_kwargs held "A1"
                  (timedelta_seconds 900) eq_refl eq_refl H3 H5) eq_refl).
Defined.

(** * Dictionaries *)


Lemma dict_get_set_same_key {V} (k : string) (v : V) (d : Py.dict V) :
  Py.dict_get k (Py.dict_set k v d) = Some v.
Proof.
  induction d as [|[k' v'] d IH]; simpl.
  - rewrite String.eqb_refl. reflexivity.
  - destruct (k =? k')%string eqn:E; simpl.
    + rewrite String.eqb_refl. reflexivity.
    + rewrite E. exact IH.
Qed.

Lemma dict_get_set_other_key {V} (k k0 : string) (v : V) (d : Py.dict V) :
  k0 <> k -> Py.dict_get k0 (Py.dict_set k v d) = Py.dict_get k0 d.
Proof.
  intros Hne. apply String.eqb_neq in Hne.
  induction d as [|[k' v'] d IH]; simpl.
  - rewrite Hne. reflexivity.
  - destruct (k =? k')%string eqn:E; simpl.
    + apply String.eqb_eq in E. subst k'. rewrite Hne. reflexivity.
    + destruct (k0 =? k')%string; [reflexivity | exact IH].
Qed.

Lemma dict_set_stored {V} (k : string) (v : V) (d : Py.dict V) :
  Py.dict_get k d = Some v -> Py.dict_set k v d = d.
Proof.
  induction d as [|[k' v'] d IH]; simpl; [discriminate|].
  destruct (k =? k')%string eqn:E.
  - apply String.eqb_eq in E. subst k'. intros H; inversion H; reflexivity.
  - intros H. rewrite (IH H). reflexivity.
Qed.

Lemma dict_get_absent {V} (k : string) (d : Py.dict V) :
  ~ In k (map fst d) -> Py.dict_get k d = None.
Proof.
  induction d as [|[k' v'] d IH]; simpl; [reflexivity|]. intros H.
  destruct (k =? k')%string eqn:E.
  - apply String.eqb_eq in E. subst k'. exfalso. apply H. left. reflexivity.
  - apply IH. intros Hin. apply H. right. exact Hin.
Qed.

(** * Ranges of dates and durations *)





(** * Further properties of the session engine *)

Section Session.

Variable orc : Oracle.

(** ** Failed refresh *)


(** ** Client-credentials authentication *)

Lemma client_credentials_world (e : Env) :
  world (snd (_authenticate_oauth2_client_credentials orc e)) =
  world (resumed orc (client_credentials_call (set_session true (self e))) e).
Proof.
  destruct e as [c w]. unfold _authenticate_oauth2_client_credentials. unfold_monad.
  simpl. unfold transport. simpl. break_match; reflexivity.
Qed.

Lemma client_credentials_granted (e e' : Env) :
  _authenticate_oauth2_client_credentials orc e = (Ok tt, e') ->
  exists r data,
    outcome (net orc (served (world e))) = Answered r /\
    status r = 200 /\
    aio_json r = JsonValue (Object data) /\
    Py.truthy (g_access_token (o_grant data)) = true /\
    access_token (self e') = g_access_token (o_grant data) /\
    token_expires_at (self e') =
      Some (now (world e') + timedelta_seconds (lifetime (g_expires_in (o_grant data)))) /\
    refresh_token (self e') = g_refresh_token (o_grant data).
Proof.
  destruct e as [c w].
  unfold _authenticate_oauth2_client_credentials. unfold_monad. simpl.
  unfold transport. simpl.
  destruct (outcome (net orc (served w))) as [r|m|m] eqn:Ho; simpl; try discriminate.
  destruct (status r =? 200) eqn:Hs; simpl; [|discriminate].
  destruct (aio_json r) as [[|data]| |] eqn:Hj; simpl; try discriminate.
  destruct (Py.truthy (g_access_token (o_grant data))) eqn:Ha; simpl; [|discriminate].
  apply Z.eqb_eq in Hs.
  destruct (g_expires_in (o_grant data)) eqn:Hx; simpl; try discriminate; in_range;
    intros H; inversion H; subst; clear H; exists r, data; simpl;
    rewrite ?Hx; simpl; repeat split; try assumption; reflexivity.
Qed.

(** X2: when [_authenticate_oauth2_client_credentials] returns, the
    response was a 200 whose body is an object with a non-empty access
    token; that token is stored, the expiry is the completion time plus
    [expires_in] (900 seconds by default), and the stored refresh token
    is the one of the response, absent when the response has none: the
    token state is replaced as a whole.  One request was sent. *)
Theorem client_credentials_success (e e' : Env) :
  _authenticate_oauth2_client_credentials orc e = (Ok tt, e') ->
  (exists r data,
     outcome (net orc (served (world e))) = Answered r /\
     status r = 200 /\
     aio_json r = JsonValue (Object data) /\
     Py.truthy (g_access_token (o_grant data)) = true /\
     access_token (self e') = g_access_token (o_grant data) /\
     token_expires_at (self e') =
       Some (now (world e') + timedelta_seconds (lifetime (g_expires_in (o_grant data)))) /\
     refresh_token (self e') = g_refresh_token (o_grant data)) /\
  log (world e') =
    (log (world e) ++ [EvHttp (client_credentials_call (set_session true (self e)))])%list.
Proof.
  intros H. split.
  - exact (client_credentials_granted e e' H).
  - pose proof (client_credentials_world e) as Hw. rewrite H in Hw. simpl in Hw.
    rewrite Hw. reflexivity.
Qed.

(** X3: a 200 response whose body is an object without a usable access
    token makes [_authenticate_oauth2_client_credentials] raise
    [AgiloftAuthError], and by then the stored access token has been
    overwritten with the empty or absent value of the response; the
    refresh token and the expiry are not written. *)
Theorem client_credentials_without_token (e : Env) (r : Response) (data : JObject) :
  outcome (net orc (served (world e))) = Answered r ->
  status r = 200 ->
  aio_json r = JsonValue (Object data) ->
  Py.truthy (g_access_token (o_grant data)) = false ->
  _authenticate_oauth2_client_credentials orc e =
  (Raise (AgiloftAuthError ("No access token in OAuth2 response: " ++ o_repr data)),
   {| self := set_access_token (g_access_token (o_grant data)) (at_resumption orc e);
      world := world (resumed orc (client_credentials_call (set_session true (self e))) e) |}).
Proof.
  intros Ho Hs Hj Ha. destruct e as [c w]. unfold at_resumption, resumed.
  unfold _authenticate_oauth2_client_credentials. unfold_monad. simpl in *.
  unfold transport. simpl. rewrite Ho. simpl. rewrite Hs. simpl. rewrite Hj. simpl.
  rewrite Ha. reflexivity.
Qed.

End Session.

Section Renewal.

Variable orc : Oracle.

(** ** Kinds of failure *)

Lemma reraise_raises_auth_error {A} (prefix : string) (m : M A) (e e' : Env) (x : exn) :
  reraise_as_auth_error prefix m e = (Raise x, e') -> is_auth_error x = true.
Proof.
  unfold reraise_as_auth_error, try_except, raise.
  destruct (m e) as [[a|y] e1]; [discriminate|].
  destruct (is_auth_error y) eqn:Hy; intros H; inversion H; subst; auto.
Qed.

(** X4: whatever goes wrong in the three OAuth2 exchanges (refresh,
    client credentials, code exchange), transport failures included, is
    raised as [AgiloftAuthError]; the legacy login re-raises a failure
    of the transport as it is. *)
Theorem oauth_failures_are_auth_errors :
  (forall e x e', _refresh_access_token orc e = (Raise x, e') -> is_auth_error x = true) /\
  (forall e x e', _authenticate_oauth2_client_credentials orc e = (Raise x, e') ->
                  is_auth_error x = true) /\
  (forall code hint e x e', _exchange_code_for_token orc code hint e = (Raise x, e') ->
                            is_auth_error x = true) /\
  (forall e m, outcome (net orc (served (world e))) = ClientFailure m ->
               _authenticate_legacy orc e =
               (Raise (ClientError m),
                {| self := at_resumption orc e;
                   world := world (resumed orc (login_call (set_session true (self e))) e) |})).
Proof.
  split; [apply refresh_raises_auth_error|].
  split.
  { intros e x e'. unfold _authenticate_oauth2_client_credentials.
    cbv [bind ensure_session modify_self get_self]. apply reraise_raises_auth_error. }
  split.
  { intros code hint e x e'. unfold _exchange_code_for_token.
    destruct (Py.truthy hint); cbv [bind ensure_session modify_self get_self ret];
      apply reraise_raises_auth_error. }
  intros e m Ho. destruct e as [c w]. unfold _authenticate_legacy, resumed, at_resumption.
  unfold_monad. simpl in *. unfold transport. simpl. rewrite Ho. reflexivity.
Qed.

(** ** What a due renewal establishes *)

Lemma refresh_keeps_settings (e : Env) :
  cfg (self (snd (_refresh_access_token orc e))) = cfg (self e).
Proof.
  destruct e as [c w]. unfold _refresh_access_token. unfold_monad. simpl.
  unfold transport. simpl.
  break_match; try reflexivity; destruct (meanwhile _); reflexivity.
Qed.

Lemma authenticate_oauth_success (e e' : Env) :
  auth_method (cfg (self e)) = "oauth2_client_credentials" \/
  auth_method (cfg (self e)) = "oauth2_authorization_code" ->
  _authenticate orc e = (Ok tt, e') ->
  Py.truthy (access_token (self e')) = true /\ token_expires_at (self e') <> None.
Proof.
  intros Hm. destruct e as [c w]; simpl in *.
  unfold _authenticate. unfold bind at 1. unfold get_self at 1. simpl.
  destruct Hm as [Hm | Hm]; rewrite Hm; simpl.
  - intros H. destruct (client_credentials_granted orc _ _ H)
      as (r & data & _ & _ & _ & Ha & Hacc & Hexp & _).
    rewrite Hacc, Hexp. split; [exact Ha | discriminate].
  - unfold bind.
    destruct (Py.truthy (refresh_token c)) eqn:Ht.
    + destruct (_refresh_access_token orc {| self := c; world := w |})
        as [[[]|x] e1] eqn:Hr.
      * rewrite (refresh_or_forget_ok orc _ _ Hr). unfold ret.
        intros H; inversion H; subst.
        destruct (refresh_success orc _ _ Hr) as (r & data & _ & _ & Ha & _ & Hacc & Hexp & _).
        rewrite Hacc, Hexp. split; [exact Ha | discriminate].
      * rewrite (refresh_or_forget_failed orc _ _ _ Hr). unfold raise. discriminate.
    + unfold ret, raise. discriminate.
Qed.

(** X5: in the two OAuth2 modes, when [ensure_authenticated] returns
    from a state where renewal was due, a non-empty access token and an
    expiry are stored, so the request that follows has a bearer token
    to send. *)
Theorem due_renewal_establishes_token (e e' : Env) :
  auth_method (cfg (self e)) = "oauth2_client_credentials" \/
  auth_method (cfg (self e)) = "oauth2_authorization_code" ->
  needs_renewal (now (world e)) (self e) = true ->
  ensure_authenticated orc e = (Ok tt, e') ->
  Py.truthy (access_token (self e')) = true /\
  token_expires_at (self e') <> None /\
  _get_auth_headers e' = (Ok (auth_headers (access_token (self e'))), e').
Proof.
  intros Hm Hn H.
  assert (G : Py.truthy (access_token (self e')) = true /\ token_expires_at (self e') <> None).
  { destruct (Py.truthy (refresh_token (self e))) eqn:Ht.
    - destruct (_refresh_access_token orc e) as [[[]|x] e1] eqn:Hr.
      + pose proof (refresh_or_forget_ok orc _ _ Hr) as Hf.
        destruct e as [c w]; simpl in *.
        unfold ensure_authenticated, bind, datetime_now, get_self in H; simpl in H.
        rewrite Hn, Ht, Hf in H. unfold ret in H. inversion H; subst.
        destruct (refresh_success orc _ _ Hr) as (r & data & _ & _ & Ha & _ & Hacc & Hexp & _).
        rewrite Hacc, Hexp. split; [exact Ha | discriminate].
      + pose proof (refresh_or_forget_failed orc _ _ _ Hr) as Hf.
        pose proof (refresh_keeps_settings e) as Hc. rewrite Hr in Hc. simpl in Hc.
        destruct e as [c w]; simpl in *.
        unfold ensure_authenticated, bind, datetime_now, get_self in H; simpl in H.
        rewrite Hn, Ht, Hf in H.
        revert H. apply authenticate_oauth_success. simpl. rewrite Hc. exact Hm.
    - rewrite (ensure_authenticated_renews_by_authenticate orc e Hn Ht) in H.
      exact (authenticate_oauth_success _ _ Hm H). }
  destruct G as [Ga Ge]. split; [exact Ga|]. split; [exact Ge|].
  apply get_auth_headers_ok. exact Ga.
Qed.

End Renewal.

(** * Further properties of the browser flow *)

Section Browser.

Variable orc : Oracle.

Lemma captured_after_no_code (qs : list Query) (cap : Captured) :
  auth_code cap = None ->
  (forall q, In q qs -> q_code q = None) ->
  auth_code (captured_after qs cap) = None.
Proof.
  revert cap. induction qs as [|q qs IH]; intros cap Hc Hq; [exact Hc|].
  change (captured_after (q :: qs) cap)
    with (captured_after qs (fst (handle_callback q cap))).
  apply IH.
  - unfold handle_callback. rewrite <- (Hq q (or_introl eq_refl)).
    break_match; reflexivity.
  - intros q' Hin. apply Hq. right. exact Hin.
Qed.

Lemma served_during_in (i n : nat) (q : Query) :
  In q (served_during orc i n) -> exists j, In q (arrivals orc j).
Proof.
  revert i. induction n as [|n IH]; intros i H; simpl in H; [contradiction|].
  apply in_app_or in H. destruct H as [H | H]; [exists i; exact H | exact (IH _ H)].
Qed.

Lemma wait_for_code_sleeps (fuel : nat) (start_time : Z) (cap cap' : Captured)
    (e e' : Env) :
  wait_for_code orc fuel start_time cap e = (Ok cap', e') ->
  exists n,
    slept (world e') = (slept (world e) + n)%nat /\
    (n = 0%nat \/
     500000 * (Z.of_nat n - 1) < timedelta_seconds 300 - (now (world e) - start_time)).
Proof.
  unfold timedelta_seconds.
  revert cap e. induction fuel as [|fuel IH]; intros cap e.
  - cbn [wait_for_code]. unfold ret. intros E; inversion E; subst.
    exists 0%nat. split; [lia | left; reflexivity].
  - cbn [wait_for_code]. unfold bind at 1. unfold datetime_now at 1.
    destruct (is_none (auth_code cap) && (now (world e) - start_time <? timedelta_seconds 300))
      eqn:Hc.
    + apply andb_true_iff in Hc. destruct Hc as [_ Ht]. apply Z.ltb_lt in Ht.
      unfold timedelta_seconds in Ht.
      unfold bind.
      destruct (sleep_spec orc cap e) as (e1 & Hs & _ & _ & Hslept & Hnow & _).
      rewrite Hs. intros E. destruct (IH _ _ E) as (n & Hn & Hb).
      exists (S n). split; [lia|]. right. destruct Hb as [Hb | Hb]; [subst n|]; lia.
    + unfold ret. intros E; inversion E; subst.
      exists 0%nat. split; [lia | left; reflexivity].
Qed.

(** The wait of [authenticate_with_browser], and what follows it. *)
Lemma authenticate_with_browser_wait (e : Env) :
  exists n e1,
    let cap := captured_after (served_during orc (slept (world e)) n) nothing_captured in
    let e2 := {| self := self e1; world := record EvServerCleanup (world e1) |} in
    self e1 = self e /\
    served (world e1) = served (world e) /\
    slept (world e1) = (slept (world e) + n)%nat /\
    (auth_code cap <> None \/ now (world e1) - now (world e) >= timedelta_seconds 300) /\
    (n = 0%nat \/ 500000 * (Z.of_nat n - 1) < timedelta_seconds 300) /\
    (exists evs, log (world e1) = (log (world e) ++ evs)%list /\
                 count_events is_http evs = 0%nat) /\
    authenticate_with_browser orc e =
    match auth_code cap with
    | None => (Raise (AgiloftAuthError "Authorization timeout - no code received"), e2)
    | Some code =>
        if negb (opt_eqb (received_state cap) (Some (token_urlsafe orc))) then
          (Raise (AgiloftAuthError "State parameter mismatch - possible CSRF attack"), e2)
        else
          (_exchange_code_for_token orc code (hint_api_access_point cap) ;; ret true) e2
    end.
Proof.
  destruct e as [c w].
  set (w0 := record (EvBrowserOpen (oauth2_authorization_endpoint (cfg c))
                       (auth_params c (token_urlsafe orc)))
               (record (EvServerStart (oauth2_redirect_uri (cfg c))) w)).
  destruct (wait_for_code_spec orc wait_fuel (now w) nothing_captured
              {| self := c; world := w0 |})
    as (n & e1 & Hw & Hself & Hserved & Hslept & evs & E & C).
  pose proof (wait_fuel_suffices orc nothing_captured _ {| self := c; world := w0 |} e1 Hw)
    as Hexit.
  destruct (wait_for_code_sleeps _ _ _ _ _ _ Hw) as (n' & Hn' & Hb).
  assert (n' = n) by lia. subst n'.
  exists n, e1. cbn [self world] in *.
  split; [exact Hself|]. split; [exact Hserved|]. split; [exact Hslept|].
  split; [exact Hexit|].
  split.
  { change (now w0) with (now w) in Hb. destruct Hb as [Hb | Hb]; [left; exact Hb | right; lia]. }
  split.
  { exists (EvServerStart (oauth2_redirect_uri (cfg c))
            :: EvBrowserOpen (oauth2_authorization_endpoint (cfg c))
                 (auth_params c (token_urlsafe orc)) :: evs).
    rewrite E. unfold w0. simpl. rewrite <- !app_assoc. split; [reflexivity | exact C]. }
  unfold authenticate_with_browser.
  unfold bind at 1. unfold get_self at 1. cbn [self world].
  unfold bind at 1. unfold emit at 1, modify_world at 1. cbn [self world].
  unfold bind at 1. unfold emit at 1, modify_world at 1. cbn [self world].
  unfold bind at 1. unfold datetime_now at 1. cbn [self world].
  change (now (record _ (record _ w))) with (now w).
  fold w0. unfold bind at 1. rewrite Hw.
  unfold bind at 1. unfold emit at 1, modify_world at 1. cbn [self world].
  destruct (auth_code _); [|reflexivity].
  destruct (negb _); reflexivity.
Qed.

(** X6: when none of the callbacks that arrive delivers a code (none
    arrives, or they carry only an error), [authenticate_with_browser]
    raises the timeout [AgiloftAuthError], not before 300 seconds have
    passed; the last event is the teardown of the callback server, no
    HTTP request was sent and the client object is as it was.  An error
    reported by the provider is not raised when it arrives. *)
Theorem browser_flow_times_out (e : Env) :
  (forall i q, In q (arrivals orc i) -> q_code q = None) ->
  fst (authenticate_with_browser orc e) =
    Raise (AgiloftAuthError "Authorization timeout - no code received") /\
  now (world (snd (authenticate_with_browser orc e))) - now (world e)
    >= timedelta_seconds 300 /\
  self (snd (authenticate_with_browser orc e)) = self e /\
  served (world (snd (authenticate_with_browser orc e))) = served (world e) /\
  exists evs,
    log (world (snd (authenticate_with_browser orc e))) =
      (log (world e) ++ evs ++ [EvServerCleanup])%list /\
    count_events is_http evs = 0%nat.
Proof.
  intros Hq.
  destruct (authenticate_with_browser_wait e)
    as (n & e1 & Hself & Hserved & Hslept & Hexit & _ & (evs & E & C) & Hrun).
  cbv zeta in Hrun, Hexit.
  assert (Hc : auth_code (captured_after (served_during orc (slept (world e)) n)
                            nothing_captured) = None).
  { apply captured_after_no_code; [reflexivity|].
    intros q Hin. destruct (served_during_in _ _ _ Hin) as [j Hj]. exact (Hq j q Hj). }
  rewrite Hc in Hrun. rewrite Hrun. cbn [fst snd self world].
  destruct Hexit as [Hexit | Hexit]; [contradiction|].
  repeat split; try assumption.
  exists evs. simpl. rewrite E, app_assoc. split; [reflexivity | exact C].
Qed.

(** X7: the wait loop of [authenticate_with_browser] sleeps at most 600
    times, whatever the callbacks and however long each sleep lasts:
    300 seconds are over after 600 sleeps of half a second or more.
    The bound holds for the loop whatever number of tests of its
    condition is allowed, and so for [authenticate_with_browser]. *)
Theorem browser_flow_sleeps_at_most_600 (e : Env) :
  (forall fuel cap,
     (slept (world (snd (wait_for_code orc fuel (now (world e)) cap e)))
      <= slept (world e) + 600)%nat) /\
  (slept (world (snd (authenticate_with_browser orc e))) <= slept (world e) + 600)%nat.
Proof.
  split.
  - intros fuel cap.
    destruct (wait_for_code_spec orc fuel (now (world e)) cap e) as (n & e1 & Hw & _).
    destruct (wait_for_code_sleeps _ _ _ _ _ _ Hw) as (n' & Hn' & Hb).
    rewrite Hw. cbn [snd]. unfold timedelta_seconds in Hb.
    destruct Hb as [-> | Hb]; lia.
  - destruct (authenticate_with_browser_wait e)
      as (n & e1 & Hself & Hserved & Hslept & _ & Hb & _ & Hrun).
    cbv zeta in Hrun.
    assert (Hn : (n <= 600)%nat).
    { unfold timedelta_seconds in Hb. destruct Hb as [-> | Hb]; lia. }
    rewrite Hrun. destruct (auth_code _); [destruct (negb _)|]; simpl; try lia.
    unfold bind.
    match goal with |- context [_exchange_code_for_token orc ?a ?b ?c] =>
      pose proof (exchange_code_slept orc a b c) as Hx;
      destruct (_exchange_code_for_token orc a b c) as [[u|x] e3] end; simpl in *; lia.
Qed.

End Browser.

(** * Further properties of the request cycle *)

Section Requests.

Variable orc : Oracle.

(** ** The code exchange and the refresh that follows *)

(** The client object when [_exchange_code_for_token] sends its request. *)
Lemma exchange_code_world (code : string) (hint : option string) (e : Env) :
  world (snd (_exchange_code_for_token orc code hint e)) =
  world (resumed orc (exchange_call (self e) code hint) e).
Proof.
  destruct e as [c w]. unfold _exchange_code_for_token. unfold_monad. simpl.
  unfold transport. simpl. destruct (Py.truthy hint); simpl; break_match; reflexivity.
Qed.

Lemma exchange_code_access_point (code : string) (hint : option string) (e : Env) :
  meanwhile (net orc (served (world e))) = None ->
  api_access_point (self (snd (_exchange_code_for_token orc code hint e))) =
  if Py.truthy hint then hint else api_access_point (self e).
Proof.
  intros Hq. destruct e as [c w]. unfold _exchange_code_for_token. unfold_monad.
  simpl in *. unfold transport. simpl.
  destruct (Py.truthy hint); simpl; rewrite Hq; simpl; break_match; reflexivity.
Qed.

Lemma exchange_code_settings (code : string) (hint : option string) (e : Env) :
  cfg (self (snd (_exchange_code_for_token orc code hint e))) = cfg (self e).
Proof.
  destruct e as [c w]. unfold _exchange_code_for_token. unfold_monad. simpl.
  unfold transport. simpl.
  destruct (Py.truthy hint); simpl; break_match; try reflexivity;
    destruct (meanwhile _); reflexivity.
Qed.

(** X8: [_exchange_code_for_token] stores a non-empty access-point hint
    before it sends its request, so the hint stays stored when the
    exchange fails.  When no token endpoint is configured and either a
    hint was given or no access point was stored before, a refresh that
    follows posts to the URL the exchange posted to.  (No other
    coroutine writes the token attributes during the exchange.) *)
Theorem refresh_follows_exchange_endpoint (code : string) (hint : option string) (e : Env) :
  meanwhile (net orc (served (world e))) = None ->
  (Py.truthy hint = true ->
   api_access_point (self (snd (_exchange_code_for_token orc code hint e))) = hint) /\
  log (world (snd (_exchange_code_for_token orc code hint e))) =
    (log (world e) ++ [EvHttp (exchange_call (self e) code hint)])%list /\
  (Py.truthy (oauth2_token_endpoint (cfg (self e))) = false ->
   Py.truthy hint = true \/ Py.truthy (api_access_point (self e)) = false ->
   refresh_token_url (self (snd (_exchange_code_for_token orc code hint e))) =
   url (exchange_call (self e) code hint)).
Proof.
  intros Hq.
  pose proof (exchange_code_access_point code hint e Hq) as Hap.
  split; [intros Ht; rewrite Hap, Ht; reflexivity|].
  split; [rewrite exchange_code_world; reflexivity|].
  intros Hep Hor. unfold refresh_token_url.
  rewrite exchange_code_settings, Hep, Hap. unfold exchange_call. simpl.
  destruct (Py.truthy hint) eqn:Ht.
  - rewrite Ht. reflexivity.
  - destruct Hor as [Hor | Hor]; [discriminate|]. rewrite Hor. reflexivity.
Qed.

(** ** Query parameters *)

(** X9: the query parameters [_make_request] sends are the caller's,
    where a [lang] given by the caller is kept, and [lang] is the
    client's language when the caller gave none; no other parameter is
    added, dropped or changed. *)
Theorem request_params_language (c : Client) (kwargs : RequestArgs) :
  Py.dict_get "lang" (request_params c kwargs) =
    Some (match Py.dict_get "lang" (given_params kwargs) with
          | Some l => l
          | None => language (cfg c)
          end) /\
  forall k, k <> "lang" ->
    Py.dict_get k (request_params c kwargs) = Py.dict_get k (given_params kwargs).
Proof.
  unfold request_params, given_params, Py.dict_mem.
  destruct (Py.dict_get "lang" match k_params kwargs with Some p => p | None => [] end)
    as [l|] eqn:E; simpl.
  - split; [exact E | reflexivity].
  - split; [apply dict_get_set_same_key | intros k Hk; apply dict_get_set_other_key; exact Hk].
Qed.

(** ** A 401 answered by a refresh *)

Lemma handle_unauthorized_refreshed (snapshot : option string) (e e' : Env) :
  access_token (self e) = snapshot ->
  Py.truthy (refresh_token (self e)) = true ->
  _refresh_access_token orc e = (Ok tt, e') ->
  handle_unauthorized orc snapshot e = (Ok tt, e').
Proof.
  intros Hs Ht Hr. apply opt_eqb_eq in Hs. destruct e as [c w]; simpl in *.
  unfold handle_unauthorized, bind, get_self, try_except; simpl.
  rewrite Hs, Ht. simpl. rewrite Hr. reflexivity.
Qed.

(** X10: a request made with a valid token and answered with 401, while
    the stored access token is still the one that was sent and a
    refresh token is held, is followed by exactly two more requests
    when the refresh succeeds: the refresh grant, then the same request
    again with the bearer token the refresh stored.  The retry carries
    the authentication headers only; headers passed by the caller are
    sent with the first request and not with the retry. *)
Theorem unauthorized_then_refreshed (method endpoint : string) (kwargs : RequestArgs)
    (e e3 : Env) (r1 : Response) :
  needs_renewal (now (world e)) (self e) = false ->
  Py.truthy (access_token (self e)) = true ->
  outcome (net orc (served (world e))) = Answered r1 ->
  status r1 = 401 ->
  access_token (self (after_first_call orc method endpoint kwargs e)) =
    access_token (self e) ->
  Py.truthy (refresh_token (self (after_first_call orc method endpoint kwargs e))) = true ->
  _refresh_access_token orc (after_first_call orc method endpoint kwargs e) = (Ok tt, e3) ->
  log (world (snd (_make_request orc method endpoint kwargs e))) =
  (log (world e) ++
   [EvHttp (first_call method endpoint kwargs (self e));
    EvHttp (refresh_call (self (after_first_call orc method endpoint kwargs e)));
    EvHttp (retry_call method endpoint kwargs (self e) (access_token (self e3)))])%list.
Proof.
  intros Hn Ha Ho H401 Hsame Ht Hr.
  pose proof (make_request_unfolded orc method endpoint kwargs e e r1
                (ensure_authenticated_valid orc e Hn) Ha Ho) as Hrun.
  cbv zeta in Hrun.
  change (resumed orc _ _) with (after_first_call orc method endpoint kwargs e) in Hrun.
  rewrite Hrun, guarded_env.
  unfold on_response. rewrite H401. simpl. unfold bind at 1.
  rewrite (handle_unauthorized_refreshed _ _ e3 Hsame Ht Hr).
  destruct (refresh_success orc _ _ Hr) as (r & data & _ & _ & Hta & Hw & Hacc & _).
  rewrite retry_request_log by (rewrite Hacc; exact Hta).
  rewrite Hw. unfold after_first_call, resumed. simpl. rewrite <- !app_assoc. reflexivity.
Qed.

(** X11: in client-credentials mode with no refresh token held, the 401
    block goes straight to the client-credentials grant: it sends that
    one request and no refresh grant. *)
Theorem unauthorized_without_refresh_token (snapshot : option string) (e : Env) :
  access_token (self e) = snapshot ->
  Py.truthy (refresh_token (self e)) = false ->
  auth_method (cfg (self e)) = "oauth2_client_credentials" ->
  handle_unauthorized orc snapshot e = _authenticate_oauth2_client_credentials orc e /\
  log (world (snd (handle_unauthorized orc snapshot e))) =
    (log (world e) ++ [EvHttp (client_credentials_call (set_session true (self e)))])%list /\
  is_refresh_grant (EvHttp (client_credentials_call (set_session true (self e)))) = false.
Proof.
  intros Hs Ht Hm. apply opt_eqb_eq in Hs.
  assert (H : handle_unauthorized orc snapshot e =
              _authenticate_oauth2_client_credentials orc e).
  { destruct e as [c w]; simpl in *.
    unfold handle_unauthorized, bind, get_self. cbn [self world].
    rewrite Hs, Ht. cbn [negb].
    unfold _authenticate, bind, get_self. cbn [self world].
    rewrite Hm. reflexivity. }
  split; [exact H|]. split; [|reflexivity].
  rewrite H, client_credentials_world. reflexivity.
Qed.

(** ** The URL of a request *)

Lemma lstrip_slash_no_slash (s : string) (rest : string) :
  Py.lstrip_slash s <> String "/" rest.
Proof.
  induction s as [|a s IH]; simpl; [discriminate|].
  destruct (Ascii.ascii_dec a "/") as [-> | Hne].
  - exact IH.
  - assert (E : (match a with
                 | Ascii b0 b1 b2 b3 b4 b5 b6 b7 => Py.lstrip_slash (String a s)
                 end) = Py.lstrip_slash (String a s)) by (destruct a; reflexivity).
    intros H.
    assert (G : Py.lstrip_slash (String a s) = String a s).
    { destruct a as [[] [] [] [] [] [] [] []]; try reflexivity. contradiction Hne. reflexivity. }
    simpl in G. rewrite G in H. inversion H. contradiction.
Qed.

Lemma lstrip_slash_idempotent (s : string) :
  Py.lstrip_slash (Py.lstrip_slash s) = Py.lstrip_slash s.
Proof.
  induction s as [|a s IH]; [reflexivity|].
  destruct (Ascii.ascii_dec a "/") as [-> | Hne]; [exact IH|].
  assert (G : Py.lstrip_slash (String a s) = String a s).
  { destruct a as [[] [] [] [] [] [] [] []]; try reflexivity. contradiction Hne. reflexivity. }
  rewrite G. exact G.
Qed.

(** X12: the path of a request never begins with a slash after the one
    that follows the base URL, and leading slashes of the endpoint make
    no difference to what [_make_request] does. *)
Theorem request_url_ignores_leading_slashes (method endpoint : string)
    (kwargs : RequestArgs) :
  (forall rest, Py.lstrip_slash endpoint <> String "/" rest) /\
  Py.lstrip_slash (Py.lstrip_slash endpoint) = Py.lstrip_slash endpoint /\
  forall n, _make_request orc method (slashes n ++ endpoint) kwargs =
            _make_request orc method endpoint kwargs.
Proof.
  split; [apply lstrip_slash_no_slash|].
  assert (Hs : forall n, Py.lstrip_slash (slashes n ++ endpoint) = Py.lstrip_slash endpoint).
  { induction n as [|n IH]; [reflexivity | exact IH]. }
  split; [apply lstrip_slash_idempotent|].
  intros n. unfold _make_request. rewrite Hs. reflexivity.
Qed.

End Requests.

(** * Properties of the configuration manager *)



Module ConfigFacts.

Import Config.





Lemma walk_raises (keys : list string) (current : json) (x : exn) :
  walk keys current = Raise x -> x = PyError "KeyError" \/ x = PyError "TypeError".
Proof.
  revert current. induction keys as [|key rest IH]; intros current; simpl; [discriminate|].
  destruct current as [|b0|n0|f0|s|items|d]; simpl;
    try (intros H; inversion H; right; reflexivity).
  destruct (Py.dict_get key d) as [child|]; [apply IH|].
  intros H; inversion H; left; reflexivity.
Qed.

(** X13: [get] never raises: it returns the value the path leads to,
    and the default when a key of the path is missing or the path runs
    through a value that is not a dictionary. *)
Theorem get_returns (d : data) (path : string) (default : json) :
  get d path default =
  Ok (match walk (PyJson.split "." path) (JObj d) with
      | Ok v => v
      | Raise _ => default
      end).
Proof.
  unfold get. destruct (walk (PyJson.split "." path) (JObj d)) as [v|x] eqn:Hw;
    [reflexivity|].
  destruct (walk_raises _ _ _ Hw) as [-> | ->]; reflexivity.
Qed.



Lemma merge_json_objects (b o : Py.dict json) :
  merge_json (JObj b) (JObj o) = JObj (merge_items o b).
Proof. reflexivity. Qed.

Lemma merge_items_lookup (o : list (string * json)) (b : Py.dict json) (k : string) :
  NoDup (map fst o) ->
  Py.dict_get k (merge_items o b) =
  match Py.dict_get k o with
  | None => Py.dict_get k b
  | Some value =>
      Some (match Py.dict_get k b, value with
            | Some (JObj b'), JObj o' => JObj (merge_items o' b')
            | _, _ => value
            end)
  end.
Proof.
  revert b. induction o as [|[key value] rest IH]; intros b Hnd; [reflexivity|].
  inversion Hnd as [|? ? Hnotin Hnd']; subst.
  change (merge_items ((key, value) :: rest) b)
    with (merge_items rest
            (match Py.dict_get key b, value with
             | Some (JObj b'), JObj _ => Py.dict_set key (merge_json (JObj b') value) b
             | _, _ => Py.dict_set key value b
             end)).
  rewrite (IH _ Hnd'). simpl.
  destruct (k =? key)%string eqn:E.
  - apply String.eqb_eq in E. subst k. rewrite (dict_get_absent _ _ Hnotin).
    destruct (Py.dict_get key b) as [[| | | | | |b']|]; try apply dict_get_set_same_key.
    destruct value; apply dict_get_set_same_key.
  - apply String.eqb_neq in E.
    assert (Hb : forall v, Py.dict_get k (Py.dict_set key v b) = Py.dict_get k b)
      by (intros v; apply dict_get_set_other_key; exact E).
    destruct (Py.dict_get key b) as [[| | | | | |b']|]; try (rewrite Hb; reflexivity).
    destruct value; rewrite Hb; reflexivity.
Qed.

(** X17: after [_merge_config], a key that the override does not have
    keeps the value of the base; a key that it has takes the value of
    the override, except when both values are dictionaries, which are
    merged in the same way. *)
Theorem merge_config_lookup (base override : data) (k : string) :
  NoDup (map fst override) ->
  Py.dict_get k (_merge_config base override) =
  match Py.dict_get k override with
  | None => Py.dict_get k base
  | Some value =>
      Some (match Py.dict_get k base, value with
            | Some (JObj b'), JObj o' => JObj (_merge_config b' o')
            | _, _ => value
            end)
  end.
Proof.
  intros Hnd. unfold _merge_config. rewrite !merge_json_objects.
  rewrite (merge_items_lookup _ _ _ Hnd).
  destruct (Py.dict_get k override) as [value|]; [|reflexivity].
  destruct (Py.dict_get k base) as [[| | | | | |b']|]; reflexivity.
Qed.

(** X18: printing a configuration that has a password overwrites it:
    the copy that [__str__] masks shares the dictionary under
    ["agiloft"] with the configuration, so afterwards [get] returns the
    mask for ["agiloft.password"].  A configuration without that key is
    left as it is. *)
Theorem printing_masks_the_stored_password (d : data) (fields : Py.dict json)
    (default : json) :
  Py.dict_get "agiloft" d = Some (JObj fields) ->
  (Py.dict_mem "password" fields = true ->
   fst (masked d) = Ok (JObj (snd (masked d))) /\
   get (snd (masked d)) "agiloft.password" default = Ok (JStr "***masked***")) /\
  (Py.dict_mem "password" fields = false -> masked d = (Ok (JObj d), d)).
Proof.
  intros Hd. unfold masked. rewrite Hd. simpl. split; intros Hp; rewrite Hp.
  - simpl. split; [reflexivity|]. unfold get.
    change (PyJson.split "." "agiloft.password") with ["agiloft"; "password"].
    simpl. rewrite dict_get_set_same_key. simpl. rewrite dict_get_set_same_key.
    reflexivity.
  - reflexivity.
Qed.

End ConfigFacts.

(** * Properties of the configuration as a graph of objects *)

Module ObjectFacts.

Import ConfigObjects.













End ObjectFacts.

(** * Properties of the contract methods *)

Module ContractFacts.

Import Contracts.

Section Replies.

Variable repr : json -> string.

(** X19: a reply that has no ["success"] key is taken as a success by
    [create_contract] and [update_contract], which return it as it is,
    and as a failure by [search_contracts] and [delete_contract], which
    raise.  This is the case of the empty dictionary that
    [_make_request] returns for a 204. *)
Theorem reply_without_success (reply : Py.dict json) :
  Py.dict_get "success" reply = None ->
  create_contract_reply repr (JObj reply) = Ok (JObj reply) /\
  update_contract_reply repr (JObj reply) = Ok (JObj reply) /\
  search_contracts_reply repr (JObj reply) =
    Raise (AgiloftAPIError
             ("Search failed: " ++
              py_str repr (match Py.dict_get "message" reply with
                           | Some m => m
                           | None => JStr "Unknown error"
                           end)) None None) /\
  (forall v, delete_contract_reply repr (JObj reply) <> Ok v) /\
  (Py.dict_get "errors" reply = None ->
   delete_contract_reply repr (JObj reply) =
   Raise (AgiloftAPIError
            ("Delete failed: " ++
             py_str repr (match Py.dict_get "message" reply with
                          | Some m => m
                          | None => JStr "Unknown error"
                          end)) None None)).
Proof.
  intros Hs.
  unfold create_contract_reply, update_contract_reply, delete_contract_reply,
    search_contracts_reply, checked_reply, and_then. simpl. rewrite Hs. simpl.
  split; [reflexivity|]. split; [reflexivity|]. split; [reflexivity|]. split.
  - intros v. destruct (PyJson.truthy _); [|discriminate].
    destruct (error_details repr _); [|discriminate].
    destruct (add_suffix _ _); discriminate.
  - intros ->. reflexivity.
Qed.

Lemma error_messages_well_formed (errors : list json) :
  forallb well_formed_entry errors = true ->
  error_messages repr errors = Ok (map (fun e => JStr (message_text e)) errors).
Proof.
  induction errors as [|e rest IH]; simpl; [reflexivity|].
  intros H. apply andb_true_iff in H. destruct H as [He Hr].
  rewrite (IH Hr). unfold and_then.
  destruct e as [| | | | | |f]; simpl in *; try discriminate.
  destruct (Py.dict_get "message" f) as [[| | | |t| |]|]; try discriminate. reflexivity.
Qed.

Lemma all_strings_map (ss : list string) :
  all_strings (map JStr ss) = Some ss.
Proof. induction ss as [|s ss IH]; simpl; [reflexivity | rewrite IH; reflexivity]. Qed.

(** X20: when a reply reports a failure with a string message and a
    non-empty list of errors that are dictionaries with a string
    message each, [create_contract], [update_contract] and
    [delete_contract] raise [AgiloftAPIError] whose text is the label,
    the message, [" - "], and the messages of the errors joined by
    ["; "]. *)
Theorem failure_message (label : string) (assumed : bool) (reply : Py.dict json)
    (success : json) (m : string) (first : json) (others : list json) :
  Py.dict_get "success" reply = Some success ->
  PyJson.truthy success = false ->
  Py.dict_get "message" reply = Some (JStr m) ->
  Py.dict_get "errors" reply = Some (JArr (first :: others)) ->
  forallb well_formed_entry (first :: others) = true ->
  checked_reply repr label assumed (JObj reply) =
  Raise (AgiloftAPIError
           (label ++ m ++ " - " ++ PyJson.join "; " (map message_text (first :: others)))
           None None).
Proof.
  intros Hs Hf Hm He Hw. unfold checked_reply, and_then. simpl PyJson.get.
  rewrite Hs, Hm, He. simpl negb. rewrite Hf. simpl negb. cbn iota.
  change (PyJson.truthy (JArr (first :: others))) with true. cbn iota.
  unfold error_details, and_then.
  rewrite (error_messages_well_formed _ Hw).
  rewrite <- (map_map message_text JStr), all_strings_map.
  reflexivity.
Qed.

Lemma error_messages_malformed (errors : list json) :
  forallb is_dict errors = false ->
  error_messages repr errors = Raise (PyError "AttributeError").
Proof.
  induction errors as [|e rest IH]; simpl; [discriminate|].
  intros H. destruct e as [| | | | | |f]; simpl in *; try reflexivity.
  rewrite (IH H). reflexivity.
Qed.

(** X21: when the list of errors of a failure report has an entry that
    is not a dictionary, what [create_contract], [update_contract] and
    [delete_contract] raise is [AttributeError], not
    [AgiloftAPIError]. *)
Theorem malformed_errors_escape (label : string) (assumed : bool) (reply : Py.dict json)
    (success : json) (errors : list json) :
  Py.dict_get "success" reply = Some success ->
  PyJson.truthy success = false ->
  Py.dict_get "errors" reply = Some (JArr errors) ->
  forallb is_dict errors = false ->
  checked_reply repr label assumed (JObj reply) = Raise (PyError "AttributeError").
Proof.
  intros Hs Hf He Hd. unfold checked_reply, and_then. simpl PyJson.get.
  rewrite Hs, He. rewrite Hf. simpl negb. cbn iota.
  destruct errors as [|e rest]; [discriminate|].
  change (PyJson.truthy (JArr (e :: rest))) with true. cbn iota.
  unfold error_details, and_then. rewrite (error_messages_malformed _ Hd). reflexivity.
Qed.

Lemma filter_fields_lookup (fields : list string) (c acc : Py.dict json) :
  exists filtered,
    filter_fields fields (JObj c) acc = Ok filtered /\
    forall k,
      Py.dict_get k filtered =
      if existsb (String.eqb k) fields then
        match Py.dict_get k c with
        | Some v => Some v
        | None => Py.dict_get k acc
        end
      else Py.dict_get k acc.
Proof.
  revert acc. induction fields as [|field rest IH]; intros acc.
  - exists acc. split; [reflexivity | intros k; reflexivity].
  - simpl. unfold and_then, Py.dict_mem.
    destruct (Py.dict_get field c) as [v|] eqn:Hc.
    + destruct (IH (Py.dict_set field v acc)) as (filtered & Hf & Hl).
      exists filtered. split; [exact Hf|]. intros k. rewrite Hl.
      destruct (k =? field)%string eqn:E; simpl.
      * apply String.eqb_eq in E. subst k. rewrite Hc, dict_get_set_same_key.
        destruct (existsb _ rest); reflexivity.
      * apply String.eqb_neq in E. rewrite dict_get_set_other_key by exact E. reflexivity.
    + destruct (IH acc) as (filtered & Hf & Hl).
      exists filtered. split; [exact Hf|]. intros k. rewrite Hl.
      destruct (k =? field)%string eqn:E; simpl; [|reflexivity].
      apply String.eqb_eq in E. subst k. rewrite Hc.
      destruct (existsb _ rest); reflexivity.
Qed.

(** X22: [get_contract] takes the contract from ["result"] when the
    reply has that key, else from ["contract"], else the reply itself
    when it has an ["id"].  Without requested fields it returns the
    contract as it is; with requested fields and a contract that is a
    dictionary it returns a dictionary that has exactly the requested
    keys the contract has, with the values of the contract. *)
Theorem get_contract_fields (reply : Py.dict json) :
  (forall v, Py.dict_get "result" reply = Some v -> select_contract repr reply = Ok v) /\
  (forall v, Py.dict_get "result" reply = None -> Py.dict_get "contract" reply = Some v ->
             select_contract repr reply = Ok v) /\
  (forall v, Py.dict_get "result" reply = None -> Py.dict_get "contract" reply = None ->
             Py.dict_get "id" reply = Some v -> select_contract repr reply = Ok (JObj reply)) /\
  (forall contract, select_contract repr reply = Ok contract ->
     get_contract_reply repr (JObj reply) None = Ok contract /\
     get_contract_reply repr (JObj reply) (Some []) = Ok contract) /\
  (forall c field rest, select_contract repr reply = Ok (JObj c) ->
     exists filtered,
       get_contract_reply repr (JObj reply) (Some (field :: rest)) = Ok (JObj filtered) /\
       forall k, Py.dict_get k filtered =
                 if existsb (String.eqb k) (field :: rest) then Py.dict_get k c else None).
Proof.
  unfold select_contract, Py.dict_mem. simpl PyJson.getitem.
  split; [intros v ->; reflexivity|].
  split; [intros v -> ->; reflexivity|].
  split; [intros v -> -> ->; reflexivity|].
  split.
  - intros contract H. unfold get_contract_reply, select_contract, Py.dict_mem, and_then.
    simpl PyJson.getitem. rewrite H. split; reflexivity.
  - intros c field rest H.
    destruct (filter_fields_lookup (field :: rest) c []) as (filtered & Hf & Hl).
    exists filtered. split.
    + unfold get_contract_reply, select_contract, Py.dict_mem, and_then.
      simpl PyJson.getitem. rewrite H, Hf. reflexivity.
    + intros k. rewrite Hl. destruct (existsb _ _); [|reflexivity].
      destruct (Py.dict_get k c); reflexivity.
Qed.

End Replies.

End ContractFacts.

(** * Further properties of authentication and transport *)

Section Authentication.

Variable orc : Oracle.



Lemma make_request_until_transport (method endpoint : string) (kwargs : RequestArgs)
    (e : Env) :
  needs_renewal (now (world e)) (self e) = false ->
  Py.truthy (access_token (self e)) = true ->
  let url := base_url (cfg (self e)) ++ "/" ++ Py.lstrip_slash endpoint in
  let params := request_params (self e) kwargs in
  let headers := match k_headers kwargs with
                 | Some h => Py.dict_update (auth_headers (access_token (self e))) h
                 | None => auth_headers (access_token (self e))
                 end in
  _make_request orc method endpoint kwargs e =
  try_except
    (response <- transport orc (api_call method url params headers (k_json kwargs)) ;;
     on_response orc method url params (k_json kwargs) (access_token (self e)) response)
    (fun x => match x with
              | ClientError m =>
                  Some (raise (AgiloftAPIError
                                 ("HTTP client error for " ++ method ++ " " ++ url ++ ": " ++ m)
                                 None None))
              | _ => None
              end)
    {| self := set_session true (self e); world := world e |}.
Proof.
  intros Hn Ha. cbv zeta. unfold _make_request.
  unfold bind at 1. rewrite (ensure_authenticated_valid orc e Hn).
  destruct e as [c w]; simpl in *.
  unfold bind at 1. unfold ensure_session, modify_self at 1. simpl.
  unfold bind at 1. unfold get_self at 1. simpl.
  unfold bind at 1. rewrite get_auth_headers_ok by exact Ha. reflexivity.
Qed.

Lemma make_request_transport_failed (method endpoint : string) (kwargs : RequestArgs)
    (e : Env) :
  needs_renewal (now (world e)) (self e) = false ->
  Py.truthy (access_token (self e)) = true ->
  let url := base_url (cfg (self e)) ++ "/" ++ Py.lstrip_slash endpoint in
  let headers := match k_headers kwargs with
                 | Some h => Py.dict_update (auth_headers (access_token (self e))) h
                 | None => auth_headers (access_token (self e))
                 end in
  let e1 := resumed orc (api_call method url (request_params (self e) kwargs) headers
                           (k_json kwargs))
              {| self := set_session true (self e); world := world e |} in
  forall m,
    (outcome (net orc (served (world e))) = ClientFailure m ->
     _make_request orc method endpoint kwargs e =
     (Raise (AgiloftAPIError ("HTTP client error for " ++ method ++ " " ++ url ++ ": " ++ m)
               None None), e1)) /\
    (outcome (net orc (served (world e))) = OtherFailure m ->
     _make_request orc method endpoint kwargs e = (Raise (PyError m), e1)).
Proof.
  intros Hn Ha url headers e1 m. subst url headers e1.
  rewrite (make_request_until_transport method endpoint kwargs e Hn Ha). cbv zeta.
  unfold try_except, bind, transport, resumed. cbn [self world].
  split; intros Ho; rewrite Ho; reflexivity.
Qed.

(** X25: with a valid token stored, a failure of the transport on the
    request itself ends [_make_request] after that one request: an
    [aiohttp.ClientError] is raised as [AgiloftAPIError] without status
    or body, any other exception (a timeout, for one) is raised as it
    is. *)
Theorem request_transport_failure (method endpoint : string) (kwargs : RequestArgs)
    (e : Env) (m : string) :
  needs_renewal (now (world e)) (self e) = false ->
  Py.truthy (access_token (self e)) = true ->
  (outcome (net orc (served (world e))) = ClientFailure m ->
   fst (_make_request orc method endpoint kwargs e) =
   Raise (AgiloftAPIError
            ("HTTP client error for " ++ method ++ " "
             ++ (base_url (cfg (self e)) ++ "/" ++ Py.lstrip_slash endpoint) ++ ": " ++ m)
            None None)) /\
  (outcome (net orc (served (world e))) = OtherFailure m ->
   fst (_make_request orc method endpoint kwargs e) = Raise (PyError m)) /\
  (outcome (net orc (served (world e))) = ClientFailure m \/
   outcome (net orc (served (world e))) = OtherFailure m ->
   count_events is_http (log (world (snd (_make_request orc method endpoint kwargs e)))) =
   S (count_events is_http (log (world e)))).
Proof.
  intros Hn Ha.
  destruct (make_request_transport_failed method endpoint kwargs e Hn Ha m) as [Hc Ho].
  cbv zeta in Hc, Ho.
  split; [intros H; rewrite (Hc H); reflexivity|].
  split; [intros H; rewrite (Ho H); reflexivity|].
  intros [H | H]; [rewrite (Hc H) | rewrite (Ho H)];
    unfold resumed; cbn [fst snd self world log next_exchange tick record];
    rewrite count_events_app; unfold count_events; simpl; lia.
Qed.

(** ** The callback that ends the wait *)

Lemma captured_after_last_hint (qs : list Query) (q : Query) (cap : Captured) :
  hint_api_access_point (captured_after (qs ++ [q])%list cap) =
  Some (match q_api_access_point q with Some a => a | None => "" end).
Proof.
  rewrite captured_after_app. simpl. unfold handle_callback. break_match; reflexivity.
Qed.

(** X26: when the last callback served before the wait ends delivers a
    code and the nonce of the flow, [authenticate_with_browser] tears
    the callback server down and then is the exchange of that code,
    with the access-point hint of that callback (the empty string when
    it has none), followed by [return True]; an [error] parameter in
    the same callback does not stop it.  Nothing was sent before. *)
Theorem browser_flow_exchanges_the_code (e : Env) (qs : list Query) (q : Query)
    (code : string) :
  served_during orc (slept (world e))
    (slept (world (snd (authenticate_with_browser orc e))) - slept (world e)) =
    (qs ++ [q])%list ->
  q_code q = Some code ->
  q_state q = Some (token_urlsafe orc) ->
  exists e2 evs,
    authenticate_with_browser orc e =
    (_exchange_code_for_token orc code
       (Some (match q_api_access_point q with Some a => a | None => "" end)) ;;
     ret true) e2 /\
    self e2 = self e /\
    served (world e2) = served (world e) /\
    log (world e2) = (log (world e) ++ evs ++ [EvServerCleanup])%list /\
    count_events is_http evs = 0%nat.
Proof.
  intros Hlast Hcode Hstate.
  destruct (authenticate_with_browser_unfolded orc e)
    as (n & e1 & Hself & Hserved & Hslept & (evs & E & C) & Hrun).
  cbv zeta in Hrun.
  assert (Hn : (slept (world (snd (authenticate_with_browser orc e)))
                - slept (world e))%nat = n).
  { rewrite Hrun. destruct (auth_code _); [destruct (negb _)|]; simpl.
    - lia.
    - unfold bind.
      match goal with |- context [_exchange_code_for_token orc ?a ?b ?c] =>
        pose proof (exchange_code_slept orc a b c) as Hx;
        destruct (_exchange_code_for_token orc a b c) as [[u|x] e3] end; simpl in *; lia.
    - lia. }
  rewrite Hn in Hlast. rewrite Hlast in Hrun.
  destruct (captured_after_last qs q nothing_captured) as [Hc Hs].
  rewrite Hc, Hcode, Hs, captured_after_last_hint in Hrun.
  assert (Heq : opt_eqb (q_state q) (Some (token_urlsafe orc)) = true)
    by (apply opt_eqb_eq; exact Hstate).
  rewrite Heq in Hrun. simpl in Hrun.
  exists {| self := self e1; world := record EvServerCleanup (world e1) |}, evs.
  split; [exact Hrun|]. simpl.
  split; [exact Hself|]. split; [exact Hserved|].
  split; [rewrite E, app_assoc; reflexivity | exact C].
Qed.

End Authentication.

(** * Properties of the loading of the configuration *)

Module LoadingFacts.

Import Config.

Lemma get_under (d : data) (a x : string) (path : string) (default : json)
    (fields : Py.dict json) :
  PyJson.split "." path = [a; x] ->
  Py.dict_get a d = Some (JObj fields) ->
  get d path default =
  Ok (match Py.dict_get x fields with Some v => v | None => default end).
Proof.
  intros Hs Ha. unfold get. rewrite Hs. simpl. rewrite Ha. simpl.
  destruct (Py.dict_get x fields); reflexivity.
Qed.

Lemma get_not_under (d : data) (a x : string) (path : string) (default : json) :
  PyJson.split "." path = [a; x] ->
  (forall fields, Py.dict_get a d <> Some (JObj fields)) ->
  get d path default = Ok default.
Proof.
  intros Hs Ha. unfold get. rewrite Hs. simpl.
  destruct (Py.dict_get a d) as [[|b0|n0|f0|s|items|fields]|]; try reflexivity.
  exfalso. exact (Ha fields eq_refl).
Qed.

(** X27: [validate] accepts a configuration exactly when it has a
    dictionary under ["agiloft"] in which each of [base_url],
    [username], [password] and [kb] is present with a value that is not
    empty, zero, false or [None]; the value need not be a string, and
    the language is not required. *)
Theorem validate_accepts (d : data) :
  validate d = true <->
  exists fields,
    Py.dict_get "agiloft" d = Some (JObj fields) /\
    forall k, In k ["base_url"; "username"; "password"; "kb"] ->
              exists v, Py.dict_get k fields = Some v /\ PyJson.truthy v = true.
Proof.
  unfold validate, required_fields.
  destruct (Py.dict_get "agiloft" d) as [section|] eqn:Ha.
  2:{ cbn [filter].
      rewrite (get_not_under d "agiloft" "base_url" "agiloft.base_url" JNull eq_refl),
              (get_not_under d "agiloft" "username" "agiloft.username" JNull eq_refl),
              (get_not_under d "agiloft" "password" "agiloft.password" JNull eq_refl),
              (get_not_under d "agiloft" "kb" "agiloft.kb" JNull eq_refl)
        by (intros f; rewrite Ha; discriminate).
      simpl. split; [discriminate|]. intros (f & H & _). discriminate. }
  destruct section as [|b0|n0|f0|s|items|fields].
  1-6: cbn [filter];
       rewrite (get_not_under d "agiloft" "base_url" "agiloft.base_url" JNull eq_refl),
               (get_not_under d "agiloft" "username" "agiloft.username" JNull eq_refl),
               (get_not_under d "agiloft" "password" "agiloft.password" JNull eq_refl),
               (get_not_under d "agiloft" "kb" "agiloft.kb" JNull eq_refl)
         by (intros f; rewrite Ha; discriminate);
       simpl; (split; [discriminate|]); intros (f & H & _); discriminate.
  cbn [filter].
  rewrite (get_under d "agiloft" "base_url" "agiloft.base_url" JNull fields eq_refl Ha).
  rewrite (get_under d "agiloft" "username" "agiloft.username" JNull fields eq_refl Ha).
  rewrite (get_under d "agiloft" "password" "agiloft.password" JNull fields eq_refl Ha).
  rewrite (get_under d "agiloft" "kb" "agiloft.kb" JNull fields eq_refl Ha).
  split.
  - intros H. exists fields. split; [reflexivity|].
    destruct (Py.dict_get "base_url" fields) as [v1|] eqn:E1; [|discriminate H].
    destruct (PyJson.truthy v1) eqn:H1; [|discriminate H].
    destruct (Py.dict_get "username" fields) as [v2|] eqn:E2; [|discriminate H].
    destruct (PyJson.truthy v2) eqn:H2; [|discriminate H].
    destruct (Py.dict_get "password" fields) as [v3|] eqn:E3; [|discriminate H].
    destruct (PyJson.truthy v3) eqn:H3; [|discriminate H].
    destruct (Py.dict_get "kb" fields) as [v4|] eqn:E4; [|discriminate H].
    destruct (PyJson.truthy v4) eqn:H4; [|discriminate H].
    intros k [Hk | [Hk | [Hk | [Hk | []]]]]; subst k; eauto.
  - intros (f & Hf & Hk). inversion Hf; subst f.
    destruct (Hk "base_url") as (v1 & E1 & T1); [simpl; tauto|].
    destruct (Hk "username") as (v2 & E2 & T2); [simpl; tauto|].
    destruct (Hk "password") as (v3 & E3 & T3); [simpl; tauto|].
    destruct (Hk "kb") as (v4 & E4 & T4); [simpl; tauto|].
    rewrite E1, E2, E3, E4, T1, T2, T3, T4. reflexivity.
Qed.

Section Environment.

Variable py_int : string -> option Z.
Variable py_float : string -> option SpecFloat.spec_float.

Lemma set_nested_value_under (d : data) (fields : Py.dict json) (path a x v : string) :
  PyJson.split "." path = [a; x] ->
  Py.dict_get a d = Some (JObj fields) ->
  untyped fields x = true ->
  _set_nested_value py_int py_float d path v =
  (Ok tt, Py.dict_set a (JObj (Py.dict_set x (JStr v) fields)) d).
Proof.
  intros Hs Ha Hu. unfold _set_nested_value. rewrite Hs.
  cbn [removelast last set_nested_keys PyJson.contains PyJson.getitem PyJson.get
       PyJson.setitem].
  unfold Py.dict_mem. rewrite Ha. cbn [PyJson.getitem]. rewrite Ha.
  unfold untyped in Hu. unfold PyJson.get.
  destruct (Py.dict_get x fields) as [[|b0|n0|f0|s|items|f]|]; try discriminate Hu;
    reflexivity.
Qed.

Lemma set_nested_value_not_under (d : data) (section : json) (path a x v : string) :
  PyJson.split "." path = [a; x] ->
  Py.dict_get a d = Some section ->
  is_dict section = false ->
  _set_nested_value py_int py_float d path v = (Raise (PyError "AttributeError"), d).
Proof.
  intros Hs Ha Hn. unfold _set_nested_value. rewrite Hs.
  cbn [removelast last set_nested_keys PyJson.contains PyJson.getitem PyJson.get
       PyJson.setitem].
  unfold Py.dict_mem. rewrite Ha. cbn [PyJson.getitem]. rewrite Ha.
  destruct section as [|b0|n0|f0|s|items|f]; try discriminate Hn;
    unfold PyJson.get, PyJson.setitem;
    rewrite (dict_set_stored _ _ _ Ha); reflexivity.
Qed.

Lemma untyped_after_override (fields : Py.dict json) (k x v : string) :
  untyped fields x = true -> untyped (Py.dict_set k (JStr v) fields) x = true.
Proof.
  unfold untyped. intros H. destruct (String.eqb_spec x k) as [E | E].
  - subst. rewrite dict_get_set_same_key. reflexivity.
  - rewrite dict_get_set_other_key by exact E. exact H.
Qed.

Lemma dict_set_twice {V} (k : string) (v v' : V) (d : Py.dict V) :
  Py.dict_set k v' (Py.dict_set k v d) = Py.dict_set k v' d.
Proof.
  induction d as [|[k0 v0] d IH]; simpl.
  - rewrite String.eqb_refl. reflexivity.
  - destruct (k =? k0)%string eqn:E; simpl.
    + rewrite String.eqb_refl. reflexivity.
    + rewrite E, IH. reflexivity.
Qed.

(** The loop over a table whose paths all lead to a setting under
    ["agiloft"] assigns the variables that are set, in order. *)
Lemma load_mappings_under (environ : Py.dict string) (mappings : list (string * string)) :
  forall (d : data) (fields : Py.dict json),
  Py.dict_get "agiloft" d = Some (JObj fields) ->
  Forall (fun m => exists x, PyJson.split "." (snd m) = ["agiloft"; x] /\
                             untyped fields x = true) mappings ->
  load_mappings py_int py_float mappings environ d =
  (Ok tt,
   Py.dict_set "agiloft"
     (JObj (fold_left
              (fun f m => match Py.dict_get (fst m) environ with
                          | Some v => Py.dict_set (last (PyJson.split "." (snd m)) "")
                                                  (JStr v) f
                          | None => f
                          end) mappings fields)) d).
Proof.
  induction mappings as [|[env_var config_path] rest IH]; intros d fields Ha Hall.
  - simpl. rewrite (dict_set_stored _ _ _ Ha). reflexivity.
  - inversion Hall as [|m ms (x & Hs & Hu) Hrest]; subst. simpl in Hs.
    cbn [load_mappings fold_left fst snd].
    destruct (Py.dict_get env_var environ) as [v|].
    + rewrite (set_nested_value_under d fields config_path "agiloft" x v Hs Ha Hu).
      rewrite (IH (Py.dict_set "agiloft" (JObj (Py.dict_set x (JStr v) fields)) d)
                  (Py.dict_set x (JStr v) fields)).
      * rewrite dict_set_twice. rewrite Hs. reflexivity.
      * apply dict_get_set_same_key.
      * apply Forall_forall. intros m Hm.
        rewrite Forall_forall in Hrest. destruct (Hrest m Hm) as (y & Hy & Huy).
        exists y. split; [exact Hy | apply untyped_after_override; exact Huy].
    + apply IH; assumption.
Qed.

(** X28: when the settings under ["agiloft"] that are present are
    neither booleans nor numbers, [_load_from_environment] returns,
    and afterwards [get] gives, for each of the five settings, the
    value of its environment variable as a string when the variable is
    set (an empty value included) and what it gave before when the
    variable is not set; the other top-level keys are untouched. *)
Theorem environment_overrides (environ : Py.dict string) (d : data)
    (fields : Py.dict json) :
  Py.dict_get "agiloft" d = Some (JObj fields) ->
  forallb (untyped fields) setting_names = true ->
  exists d',
    _load_from_environment py_int py_float environ d = (Ok tt, d') /\
    (forall env_var config_path default,
       In (env_var, config_path) env_mappings ->
       get d' config_path default =
       match Py.dict_get env_var environ with
       | Some env_value => Ok (JStr env_value)
       | None => get d config_path default
       end) /\
    (forall k, k <> "agiloft" -> Py.dict_get k d' = Py.dict_get k d).
Proof.
  intros Ha Hu. unfold setting_names in Hu. cbn [forallb] in Hu.
  repeat (apply andb_prop in Hu; destruct Hu as [? Hu]).
  eexists. split; [|split].
  - unfold _load_from_environment. apply (load_mappings_under environ env_mappings d fields Ha).
    unfold env_mappings.
    repeat (apply Forall_cons; [eexists; split; [reflexivity | assumption]|]).
    apply Forall_nil.
  - intros env_var config_path default Hin.
    unfold env_mappings in *. cbn [fold_left fst snd].
    change (last (PyJson.split "." "agiloft.base_url") "") with "base_url".
    change (last (PyJson.split "." "agiloft.username") "") with "username".
    change (last (PyJson.split "." "agiloft.password") "") with "password".
    change (last (PyJson.split "." "agiloft.kb") "") with "kb".
    change (last (PyJson.split "." "agiloft.language") "") with "language".
    destruct Hin as [E | [E | [E | [E | [E | []]]]]]; inversion E; subst; clear E;
      (erewrite get_under; [| reflexivity | apply dict_get_set_same_key]);
      (erewrite (get_under d); [| reflexivity | exact Ha]);
      destruct (Py.dict_get "AGILOFT_BASE_URL" environ);
      destruct (Py.dict_get "AGILOFT_USERNAME" environ);
      destruct (Py.dict_get "AGILOFT_PASSWORD" environ);
      destruct (Py.dict_get "AGILOFT_KB" environ);
      destruct (Py.dict_get "AGILOFT_LANGUAGE" environ);
      repeat first [ rewrite dict_get_set_same_key
                   | rewrite dict_get_set_other_key by discriminate ];
      reflexivity.
  - intros k Hk. apply dict_get_set_other_key. exact Hk.
Qed.

(** X29: when what is stored under ["agiloft"] is not a dictionary and
    one of the five environment variables is set,
    [_load_from_environment] raises [AttributeError] and leaves the
    configuration as it was. *)
Theorem environment_needs_a_dictionary (environ : Py.dict string) (d : data)
    (section : json) (env_var config_path : string) :
  Py.dict_get "agiloft" d = Some section ->
  is_dict section = false ->
  In (env_var, config_path) env_mappings ->
  Py.dict_get env_var environ <> None ->
  _load_from_environment py_int py_float environ d = (Raise (PyError "AttributeError"), d).
Proof.
  intros Ha Hn Hin Hset. unfold _load_from_environment, env_mappings in *.
  cbn [load_mappings].
  destruct (Py.dict_get "AGILOFT_BASE_URL" environ) eqn:E1;
    [rewrite (set_nested_value_not_under d section "agiloft.base_url" "agiloft" "base_url" _
                eq_refl Ha Hn); reflexivity|].
  destruct (Py.dict_get "AGILOFT_USERNAME" environ) eqn:E2;
    [rewrite (set_nested_value_not_under d section "agiloft.username" "agiloft" "username" _
                eq_refl Ha Hn); reflexivity|].
  destruct (Py.dict_get "AGILOFT_PASSWORD" environ) eqn:E3;
    [rewrite (set_nested_value_not_under d section "agiloft.password" "agiloft" "password" _
                eq_refl Ha Hn); reflexivity|].
  destruct (Py.dict_get "AGILOFT_KB" environ) eqn:E4;
    [rewrite (set_nested_value_not_under d section "agiloft.kb" "agiloft" "kb" _
                eq_refl Ha Hn); reflexivity|].
  destruct (Py.dict_get "AGILOFT_LANGUAGE" environ) eqn:E5;
    [rewrite (set_nested_value_not_under d section "agiloft.language" "agiloft" "language" _
                eq_refl Ha Hn); reflexivity|].
  exfalso. apply Hset.
  destruct Hin as [E | [E | [E | [E | [E | []]]]]]; inversion E; subst; assumption.
Qed.

End Environment.

End LoadingFacts.

(** * The code exchange *)

Section Exchange.

Variable orc : Oracle.

(** X30: when [_exchange_code_for_token] returns, the reply was a 200
    with a JSON content type whose body is an object with a non-empty
    access token; that token is stored, the expiry is the completion
    time plus [expires_in] (900 seconds by default), and the refresh
    token is the one of the reply, absent when the reply has none: a
    refresh token held before the exchange does not survive it. *)
Theorem exchange_replaces_token_state (code : string) (hint : option string)
    (e e' : Env) :
  _exchange_code_for_token orc code hint e = (Ok tt, e') ->
  exists r data,
    outcome (net orc (served (world e))) = Answered r /\
    status r = 200 /\
    Py.contains "application/json" (content_type r) = true /\
    json_loads r = Some (Object data) /\
    Py.truthy (g_access_token (o_grant data)) = true /\
    access_token (self e') = g_access_token (o_grant data) /\
    token_expires_at (self e') =
      Some (now (world e') + timedelta_seconds (lifetime (g_expires_in (o_grant data)))) /\
    refresh_token (self e') = g_refresh_token (o_grant data).
Proof.
  destruct e as [c w]. unfold _exchange_code_for_token. unfold_monad. simpl.
  unfold transport. simpl.
  destruct (Py.truthy hint); simpl;
    (destruct (outcome (net orc (served w))) as [r|m|m] eqn:Ho; simpl; try discriminate);
    (destruct (status r =? 200) eqn:Hs; simpl; [|discriminate]);
    (destruct (Py.contains "application/json" (content_type r)) eqn:Hc; simpl;
       [|discriminate]);
    (destruct (json_loads r) as [[|data]|] eqn:Hj; simpl; try discriminate);
    (destruct (Py.truthy (g_access_token (o_grant data))) eqn:Ha; simpl; [|discriminate]);
    apply Z.eqb_eq in Hs;
    (destruct (g_expires_in (o_grant data)) eqn:Hx; simpl; try discriminate); in_range;
    intros H; inversion H; subst; clear H; exists r, data; simpl;
    rewrite ?Hx; simpl; repeat split; try assumption; reflexivity.
Qed.

End Exchange.

(** * The further properties at work *)

Import Cases.


Lemma client_credentials_success_witness :
  _authenticate_oauth2_client_credentials token_granted (machine None None None) =
    (Ok tt, snd (_authenticate_oauth2_client_credentials token_granted
                   (machine None None None))) /\
  log (world (snd (_authenticate_oauth2_client_credentials token_granted
                     (machine None None None)))) =
    (log (world (machine None None None)) ++
     [EvHttp (client_credentials_call (set_session true (self (machine None None None))))])%list.
Proof.
  assert (Hr : _authenticate_oauth2_client_credentials token_granted (machine None None None) =
               (Ok tt, snd (_authenticate_oauth2_client_credentials token_granted
                              (machine None None None))))
    by (vm_compute; reflexivity).
  split; [exact Hr|].
  exact (proj2 (client_credentials_success token_granted _ _ Hr)).
Defined.

Lemma client_credentials_without_token_witness :
  outcome (net no_token_granted (served (world (machine (Some "A0") None None)))) =
    Answered (response 200 "{}" (Some (Object empty_grant_reply))) /\
  access_token
    (self (snd (_authenticate_oauth2_client_credentials no_token_granted
                  (machine (Some "A0") None None)))) = None.
Proof.
  split; [reflexivity|].
  rewrite (client_credentials_without_token no_token_granted
             (machine (Some "A0") None None)
             (response 200 "{}" (Some (Object empty_grant_reply))) empty_grant_reply
             eq_refl eq_refl eq_refl eq_refl).
  reflexivity.
Defined.

Lemma due_renewal_establishes_token_witness :
  needs_renewal (now (world (machine None None None))) (self (machine None None None)) = true /\
  ensure_authenticated token_granted (machine None None None) =
    (Ok tt, snd (ensure_authenticated token_granted (machine None None None))) /\
  Py.truthy (access_token (self (snd (ensure_authenticated token_granted
                                        (machine None None None))))) = true.
Proof.
  assert (Hr : ensure_authenticated token_granted (machine None None None) =
               (Ok tt, snd (ensure_authenticated token_granted (machine None None None))))
    by (vm_compute; reflexivity).
  split; [reflexivity|]. split; [exact Hr|].
  exact (proj1 (due_renewal_establishes_token token_granted (machine None None None) _
                  (or_introl eq_refl) eq_refl Hr)).
Defined.

Lemma browser_flow_times_out_witness :
  (forall i q, In q (arrivals silence i) -> q_code q = None) /\
  fst (authenticate_with_browser silence fresh_browser_client) =
    Raise (AgiloftAuthError "Authorization timeout - no code received").
Proof.
  assert (H : forall i q, In q (arrivals silence i) -> q_code q = None).
  { intros i q. simpl. destruct i; intros []. }
  split; [exact H|].
  exact (proj1 (browser_flow_times_out silence fresh_browser_client H)).
Defined.

Lemma refresh_follows_exchange_endpoint_witness :
  meanwhile (net genuine_only (served (world fresh_browser_client))) = None /\
  api_access_point
    (self (snd (_exchange_code_for_token genuine_only "GOOD"
                  (Some "https://eu.acme.example") fresh_browser_client))) =
    Some "https://eu.acme.example" /\
  refresh_token_url
    (self (snd (_exchange_code_for_token genuine_only "GOOD"
                  (Some "https://eu.acme.example") fresh_browser_client))) =
    Some "https://eu.acme.example/ewws/otoken".
Proof.
  destruct (refresh_follows_exchange_endpoint genuine_only "GOOD"
              (Some "https://eu.acme.example") fresh_browser_client eq_refl)
    as (Hap & _ & Hurl).
  split; [reflexivity|]. split; [exact (Hap eq_refl)|].
  exact (Hurl eq_refl (or_introl eq_refl)).
Defined.

Lemma unauthorized_then_refreshed_witness :
  needs_renewal (now (world held)) (self held) = false /\
  status unauthorized = 401 /\
  log (world (snd (_make_request expired_then_refreshed "GET" "/contract/1" no_kwargs held))) =
  [EvHttp (first_call "GET" "/contract/1" no_kwargs (self held));
   EvHttp (refresh_call (self (after_first_call expired_then_refreshed "GET" "/contract/1"
                                 no_kwargs held)));
   EvHttp (retry_call "GET" "/contract/1" no_kwargs (self held) (Some "A2"))].
Proof.
  assert (Hr : _refresh_access_token expired_then_refreshed
                 (after_first_call expired_then_refreshed "GET" "/contract/1" no_kwargs held) =
               (Ok tt, snd (_refresh_access_token expired_then_refreshed
                              (after_first_call expired_then_refreshed "GET" "/contract/1"
                                 no_kwargs held))))
    by (vm_compute; reflexivity).
  split; [reflexivity|]. split; [reflexivity|].
  exact (unauthorized_then_refreshed expired_then_refreshed "GET" "/contract/1" no_kwargs
           held _ unauthorized eq_refl eq_refl eq_refl eq_refl eq_refl eq_refl Hr).
Defined.

Lemma unauthorized_without_refresh_token_witness :
  access_token (self (machine (Some "A0") None None)) = Some "A0" /\
  Py.truthy (refresh_token (self (machine (Some "A0") None None))) = false /\
  auth_method (cfg (self (machine (Some "A0") None None))) = "oauth2_client_credentials" /\
  handle_unauthorized token_granted (Some "A0") (machine (Some "A0") None None) =
  _authenticate_oauth2_client_credentials token_granted (machine (Some "A0") None None).
Proof.
  split; [reflexivity|]. split; [reflexivity|]. split; [reflexivity|].
  exact (proj1 (unauthorized_without_refresh_token token_granted (Some "A0")
                  (machine (Some "A0") None None) eq_refl eq_refl eq_refl)).
Defined.




(** A dictionary stored under two keys is one object: what [set] writes
    through ["a"] is what [get] reads through ["b"]. *)
Lemma stored_twice_is_one_object :
  ConfigObjects.well_formed stored_twice = true /\
  ConfigObjects.get stored_twice "b.x" ConfigObjects.VNull = Ok ConfigObjects.VNull /\
  ConfigObjects.get
    (snd (ConfigObjects.set stored_twice "a.x" (ConfigObjects.VNum 1)))
    "b.x" ConfigObjects.VNull = Ok (ConfigObjects.VNum 1) /\
  ConfigObjects.written_by stored_twice "a.x" = Some (1%nat, "x") /\
  ConfigObjects.read_by stored_twice "b.x" = [(0%nat, "b"); (1%nat, "x")].
Proof. repeat split. Qed.

Lemma merge_config_lookup_witness :
  NoDup (map fst [("agiloft", JObj [("kb", JStr "demo")])]) /\
  Py.dict_get "agiloft"
    (Config._merge_config Config._get_default_config
       [("agiloft", JObj [("kb", JStr "demo")])]) =
  Some (JObj (Config._merge_config
                [("base_url", JStr ""); ("username", JStr ""); ("password", JStr "");
                 ("kb", JStr ""); ("language", JStr "en")]
                [("kb", JStr "demo")])).
Proof.
  assert (H : NoDup (map fst [("agiloft", JObj [("kb", JStr "demo")])])).
  { simpl. constructor; [intros [] | constructor]. }
  split; [exact H|].
  exact (ConfigFacts.merge_config_lookup Config._get_default_config
           [("agiloft", JObj [("kb", JStr "demo")])] "agiloft" H).
Defined.

Lemma printing_masks_the_stored_password_witness :
  Py.dict_get "agiloft" (snd (Config.set Config._get_default_config "agiloft.password"
                                (JStr "secret"))) =
    Some (JObj [("base_url", JStr ""); ("username", JStr ""); ("password", JStr "secret");
                ("kb", JStr ""); ("language", JStr "en")]) /\
  Config.get (snd (Config.masked (snd (Config.set Config._get_default_config
                                         "agiloft.password" (JStr "secret")))))
    "agiloft.password" JNull = Ok (JStr "***masked***").
Proof.
  assert (H : Py.dict_get "agiloft"
                (snd (Config.set Config._get_default_config "agiloft.password"
                        (JStr "secret"))) =
              Some (JObj [("base_url", JStr ""); ("username", JStr "");
                          ("password", JStr "secret");
                          ("kb", JStr ""); ("language", JStr "en")]))
    by (vm_compute; reflexivity).
  split; [exact H|].
  exact (proj2 (proj1 (ConfigFacts.printing_masks_the_stored_password _ _ JNull H) eq_refl)).
Defined.

Lemma reply_without_success_witness :
  Py.dict_get "success" ([] : Py.dict json) = None /\
  Contracts.create_contract_reply no_repr (JObj []) = Ok (JObj []) /\
  Contracts.delete_contract_reply no_repr (JObj []) =
    Raise (AgiloftAPIError "Delete failed: Unknown error" None None).
Proof.
  destruct (ContractFacts.reply_without_success no_repr [] eq_refl)
    as (Hc & _ & _ & _ & Hd).
  split; [reflexivity|]. split; [exact Hc | exact (Hd eq_refl)].
Defined.

Lemma failure_message_witness :
  Py.dict_get "success" failure_report = Some (JBool false) /\
  PyJson.truthy (JBool false) = false /\
  Contracts.checked_reply no_repr "Update failed: " true (JObj failure_report) =
  Raise (AgiloftAPIError
           "Update failed: Validation failed - title is required; amount must be a number"
           None None).
Proof.
  split; [reflexivity|]. split; [reflexivity|].
  exact (ContractFacts.failure_message no_repr "Update failed: " true failure_report
           (JBool false) "Validation failed"
           (JObj [("message", JStr "title is required")])
           [JObj [("message", JStr "amount must be a number")]]
           eq_refl eq_refl eq_refl eq_refl eq_refl).
Defined.

Lemma malformed_errors_escape_witness :
  Py.dict_get "errors" malformed_report = Some (JArr [JStr "title is required"]) /\
  forallb is_dict [JStr "title is required"] = false /\
  Contracts.checked_reply no_repr "Create failed: " true (JObj malformed_report) =
  Raise (PyError "AttributeError").
Proof.
  split; [reflexivity|]. split; [reflexivity|].
  exact (ContractFacts.malformed_errors_escape no_repr "Create failed: " true
           malformed_report (JBool false) [JStr "title is required"]
           eq_refl eq_refl eq_refl eq_refl).
Defined.



Lemma request_transport_failure_witness :
  needs_renewal (now (world held)) (self held) = false /\
  Py.truthy (access_token (self held)) = true /\
  outcome (net silence (served (world held))) = ClientFailure "Connection refused" /\
  fst (_make_request silence "GET" "/contract/1" no_kwargs held) =
  Raise (AgiloftAPIError
           ("HTTP client error for " ++ "GET" ++ " "
            ++ (base_url (cfg (self held)) ++ "/" ++ Py.lstrip_slash "/contract/1")
            ++ ": " ++ "Connection refused")
           None None).
Proof.
  split; [reflexivity|]. split; [reflexivity|]. split; [reflexivity|].
  exact (proj1 (request_transport_failure silence "GET" "/contract/1" no_kwargs held
                  "Connection refused" eq_refl eq_refl) eq_refl).
Defined.

Lemma browser_flow_exchanges_the_code_witness :
  served_during genuine_only (slept (world fresh_browser_client))
    (slept (world (snd (authenticate_with_browser genuine_only fresh_browser_client)))
     - slept (world fresh_browser_client)) = ([] ++ [genuine])%list /\
  q_code genuine = Some "GOOD" /\
  q_state genuine = Some (token_urlsafe genuine_only) /\
  exists e2 evs,
    authenticate_with_browser genuine_only fresh_browser_client =
    (_exchange_code_for_token genuine_only "GOOD"
       (Some (match q_api_access_point genuine with Some a => a | None => "" end)) ;;
     ret true) e2 /\
    self e2 = self fresh_browser_client /\
    served (world e2) = served (world fresh_browser_client) /\
    log (world e2) = (log (world fresh_browser_client) ++ evs ++ [EvServerCleanup])%list /\
    count_events is_http evs = 0%nat.
Proof.
  assert (H1 : served_during genuine_only (slept (world fresh_browser_client))
                 (slept (world (snd (authenticate_with_browser genuine_only
                                       fresh_browser_client)))
                  - slept (world fresh_browser_client)) = ([] ++ [genuine])%list)
    by (vm_compute; reflexivity).
  split; [exact H1|]. split; [reflexivity|]. split; [reflexivity|].
  exact (browser_flow_exchanges_the_code genuine_only fresh_browser_client [] genuine "GOOD"
           H1 eq_refl eq_refl).
Defined.

Lemma environment_overrides_witness :
  exists d',
    Config._load_from_environment no_integers no_floats
      [("AGILOFT_KB", "demo"); ("AGILOFT_PASSWORD", "")] Config._get_default_config =
      (Ok tt, d') /\
    Config.get d' "agiloft.kb" JNull = Ok (JStr "demo") /\
    Config.get d' "agiloft.password" JNull = Ok (JStr "") /\
    Config.get d' "agiloft.language" JNull = Ok (JStr "en").
Proof.
  destruct (LoadingFacts.environment_overrides no_integers no_floats
              [("AGILOFT_KB", "demo"); ("AGILOFT_PASSWORD", "")]
              Config._get_default_config _ eq_refl eq_refl) as (d' & Hl & Hg & _).
  exists d'. split; [exact Hl|]. split; [|split].
  - rewrite (Hg "AGILOFT_KB" "agiloft.kb" JNull); [reflexivity | simpl; tauto].
  - rewrite (Hg "AGILOFT_PASSWORD" "agiloft.password" JNull); [reflexivity | simpl; tauto].
  - rewrite (Hg "AGILOFT_LANGUAGE" "agiloft.language" JNull); [reflexivity | simpl; tauto].
Defined.

Lemma environment_needs_a_dictionary_witness :
  Config._load_from_environment no_integers no_floats [("AGILOFT_KB", "demo")]
    (Config._merge_config Config._get_default_config
       [("agiloft", JStr "https://acme.example")]) =
  (Raise (PyError "AttributeError"), [("agiloft", JStr "https://acme.example")]).
Proof.
  apply (LoadingFacts.environment_needs_a_dictionary no_integers no_floats [("AGILOFT_KB", "demo")]
           (Config._merge_config Config._get_default_config
              [("agiloft", JStr "https://acme.example")])
           (JStr "https://acme.example") "AGILOFT_KB" "agiloft.kb").
  - reflexivity.
  - reflexivity.
  - simpl; tauto.
  - discriminate.
Defined.

Lemma exchange_replaces_token_state_witness :
  _exchange_code_for_token token_granted "GOOD" None refresh_token_only =
    (Ok tt, snd (_exchange_code_for_token token_granted "GOOD" None refresh_token_only)) /\
  refresh_token (self refresh_token_only) = Some "R1" /\
  refresh_token
    (self (snd (_exchange_code_for_token token_granted "GOOD" None refresh_token_only))) =
    None.
Proof.
  assert (Hr : _exchange_code_for_token token_granted "GOOD" None refresh_token_only =
               (Ok tt, snd (_exchange_code_for_token token_granted "GOOD" None
                              refresh_token_only)))
    by (vm_compute; reflexivity).
  split; [exact Hr|]. split; [reflexivity|].
  destruct (exchange_replaces_token_state token_granted _ _ _ _ Hr)
    as (r & data & Ho & _ & _ & Hj & _ & _ & _ & Href).
  rewrite Href. vm_compute in Ho. inversion Ho; subst r.
  vm_compute in Hj. inversion Hj; subst data. reflexivity.
Defined.
